(** * openllmetry (Dynatrace fork): entity decorators, vendor registry,
      Bedrock guardrail telemetry and the OpenAI shared configuration.

    Shallow embedding of four Python source files:
      - [traceloop/sdk/instruments.py]                          (Module [instruments])
      - [opentelemetry/instrumentation/openai/shared/config.py] (Module [config])
      - [opentelemetry/instrumentation/bedrock/guardrail.py]    (Module [guardrail])
      - [traceloop/sdk/decorators/base.py]                      (Module [base])

    Python strings are modelled as [string] (ASCII characters), Python
    integers as [Z], dictionaries as association lists in insertion order
    (the code relies on [next(iter(d))], the first inserted key), and raised
    exceptions as an explicit [Raise] result.  Calls on collaborators that
    live outside these files (metric instruments, tracer, ambient context,
    telemetry sink) are recorded in a log, oldest first. *)

From Stdlib Require Import String Ascii List ZArith NArith Bool Lia.
Import ListNotations.
Set Warnings "-register-all".
Open Scope string_scope.

(** ** Python values and the built-in operations the sources use *)

Module py.

(** The exception classes that the modelled operations can raise. *)
Inductive exn : Type :=
| TypeError
| KeyError
| AttributeError
| IndexError
| StopIteration
| ValueError
| RecursionError.

Inductive result (A : Type) : Type :=
| Ok (a : A)
| Raise (e : exn).
Arguments Ok {A} a.
Arguments Raise {A} e.

Definition rbind {A B} (r : result A) (k : A -> result B) : result B :=
  match r with
  | Ok a => k a
  | Raise e => Raise e
  end.

(** Decoded JSON data, as a vendor response carries it. *)
Inductive json : Type :=
| JNone
| JBool (b : bool)
| JInt (z : Z)
| JStr (s : string)
| JList (l : list json)
| JDict (d : list (string * json)).

Definition dict := list (string * json).

(** [d.get(k)] on the association list: the first binding of [k]. *)
Fixpoint lookup {V} (k : string) (d : list (string * V)) : option V :=
  match d with
  | [] => None
  | (k', v) :: rest => if String.eqb k k' then Some v else lookup k rest
  end.

(** [d[k] = v]: replace the value in place when [k] is bound, else append
    at the end (insertion order is kept). *)
Fixpoint dict_set {V} (k : string) (v : V) (d : list (string * V))
  : list (string * V) :=
  match d with
  | [] => [(k, v)]
  | (k', v') :: rest =>
      if String.eqb k k' then (k, v) :: rest else (k', v') :: dict_set k v rest
  end.

(** [x == "literal"] for a decoded value [x]. *)
Definition eq_str (x : json) (s : string) : bool :=
  match x with
  | JStr s' => String.eqb s' s
  | _ => false
  end.

(** Truth value of an object, as [if x:] and [x or y] test it. *)
Definition truthy (x : json) : bool :=
  match x with
  | JNone => false
  | JBool b => b
  | JInt z => negb (Z.eqb z 0)
  | JStr s => negb (String.eqb s "")
  | JList l => match l with [] => false | _ => true end
  | JDict d => match d with [] => false | _ => true end
  end.

Definition chars (s : string) : list json :=
  map (fun c => JStr (String c EmptyString)) (list_ascii_of_string s).

(** The items a [for x in v] loop visits. *)
Definition iter (v : json) : result (list json) :=
  match v with
  | JList l => Ok l
  | JDict d => Ok (map (fun kv => JStr (fst kv)) d)
  | JStr s => Ok (chars s)
  | _ => Raise TypeError
  end.

(** [next(iter(v))]. *)
Definition next_iter (v : json) : result json :=
  rbind (iter v) (fun items =>
    match items with
    | [] => Raise StopIteration
    | x :: _ => Ok x
    end).

(** ["k" in v]: key membership on a dict, element membership on a list,
    substring test on a string. *)
Definition contains (k : string) (v : json) : result bool :=
  match v with
  | JDict d => Ok (match lookup k d with Some _ => true | None => false end)
  | JList l => Ok (existsb (fun x => eq_str x k) l)
  | JStr s => Ok (match String.index 0 k s with Some _ => true | None => false end)
  | _ => Raise TypeError
  end.

(** [v.get(k)]: only dictionaries have the method. *)
Definition get (v : json) (k : string) : result json :=
  match v with
  | JDict d => Ok (match lookup k d with Some x => x | None => JNone end)
  | _ => Raise AttributeError
  end.

(** An object usable as a sequence index ([bool] is a subclass of [int]). *)
Definition as_index (k : json) : option Z :=
  match k with
  | JInt z => Some z
  | JBool b => Some (if b then 1 else 0)%Z
  | _ => None
  end.

Definition seq_index {A} (l : list A) (i : Z) : result A :=
  let n := Z.of_nat (List.length l) in
  let j := if (i <? 0)%Z then (i + n)%Z else i in
  if (j <? 0)%Z then Raise IndexError
  else match nth_error l (Z.to_nat j) with
       | Some x => Ok x
       | None => Raise IndexError
       end.

(** [v[k]]. *)
Definition subscript (v k : json) : result json :=
  match v with
  | JDict d =>
      match k with
      | JStr s => match lookup s d with Some x => Ok x | None => Raise KeyError end
      | JList _ | JDict _ => Raise TypeError
      | _ => Raise KeyError
      end
  | JList l =>
      match as_index k with
      | Some i => seq_index l i
      | None => Raise TypeError
      end
  | JStr s =>
      match as_index k with
      | Some i => seq_index (chars s) i
      | None => Raise TypeError
      end
  | _ => Raise TypeError
  end.

(** [v["k"]] with a string literal. *)
Definition item (v : json) (k : string) : result json := subscript v (JStr k).

Definition is_dict (v : json) : Prop :=
  match v with JDict _ => True | _ => False end.

End py.
Export py.

(** ** instruments.py *)

Module instruments.

Inductive Instruments : Type :=
| ALEPHALPHA | ANTHROPIC | BEDROCK | CHROMA | COHERE | GOOGLE_GENERATIVEAI
| GROQ | HAYSTACK | LANCEDB | LANGCHAIN | LLAMA_INDEX | MARQO | MILVUS
| MISTRAL | OLLAMA | OPENAI | PINECONE | PYMYSQL | QDRANT | REDIS
| REPLICATE | REQUESTS | SAGEMAKER | TOGETHER | TRANSFORMERS | URLLIB3
| VERTEXAI | WATSONX | WEAVIATE.

(** The [.value] of a member. *)
Definition value (i : Instruments) : string :=
  match i with
  | ALEPHALPHA => "alephalpha"
  | ANTHROPIC => "anthropic"
  | BEDROCK => "bedrock"
  | CHROMA => "chroma"
  | COHERE => "cohere"
  | GOOGLE_GENERATIVEAI => "google_generativeai"
  | GROQ => "groq"
  | HAYSTACK => "haystack"
  | LANCEDB => "lancedb"
  | LANGCHAIN => "langchain"
  | LLAMA_INDEX => "llama_index"
  | MARQO => "marqo"
  | MILVUS => "milvus"
  | MISTRAL => "mistral"
  | OLLAMA => "ollama"
  | OPENAI => "openai"
  | PINECONE => "pinecone"
  | PYMYSQL => "pymysql"
  | QDRANT => "qdrant"
  | REDIS => "redis"
  | REPLICATE => "replicate"
  | REQUESTS => "requests"
  | SAGEMAKER => "sagemaker"
  | TOGETHER => "together"
  | TRANSFORMERS => "transformers"
  | URLLIB3 => "urllib3"
  | VERTEXAI => "vertexai"
  | WATSONX => "watsonx"
  | WEAVIATE => "weaviate"
  end.

(** [list(Instruments)]: the members in definition order. *)
Definition members : list Instruments :=
  [ ALEPHALPHA; ANTHROPIC; BEDROCK; CHROMA; COHERE; GOOGLE_GENERATIVEAI;
    GROQ; HAYSTACK; LANCEDB; LANGCHAIN; LLAMA_INDEX; MARQO; MILVUS;
    MISTRAL; OLLAMA; OPENAI; PINECONE; PYMYSQL; QDRANT; REDIS;
    REPLICATE; REQUESTS; SAGEMAKER; TOGETHER; TRANSFORMERS; URLLIB3;
    VERTEXAI; WATSONX; WEAVIATE ].

(** The identifiers the specification lists for the registry. *)
Definition listed_values : list string :=
  [ "alephalpha"; "anthropic"; "bedrock"; "chroma"; "cohere";
    "google_generativeai"; "groq"; "haystack"; "lancedb"; "langchain";
    "llama_index"; "marqo"; "milvus"; "mistral"; "ollama"; "openai";
    "pinecone"; "pymysql"; "qdrant"; "redis"; "replicate"; "requests";
    "sagemaker"; "together"; "transformers"; "urllib3"; "vertexai";
    "watsonx"; "weaviate" ].

(** How many members carry the value [s]. *)
Definition occurrences (s : string) : nat :=
  List.length (filter (fun i => String.eqb (value i) s) members).

End instruments.

(** ** openai/shared/config.py *)

Module config.

(** What a call of one of the default hooks can return: a string, a
    mapping, or a class object such as the built-in [str]. *)
Inductive pyobject : Type :=
| Str (s : string)
| Mapping (d : dict)
| ClassObject (name : string).

(** [isinstance(x, str)]. *)
Definition is_str (x : pyobject) : bool :=
  match x with
  | Str _ => true
  | _ => false
  end.

(** [get_common_metrics_attributes = lambda: {}] *)
Definition get_common_metrics_attributes : pyobject := Mapping [].

(** [upload_base64_image = lambda trace_id, span_id, base64_image_url: str]:
    the body is the name [str], which evaluates to the built-in class. *)
Definition upload_base64_image (trace_id span_id base64_image_url : string)
  : pyobject :=
  ClassObject "str".

Definition enrich_token_usage : bool := false.
Definition enrich_assistant : bool := false.
Definition service_name : string := "".

End config.

(** ** bedrock/guardrail.py *)

Module guardrail.

(** The attribute names the module imports from
    [opentelemetry.semconv_ai.SpanAttributes]; their string values are
    declared outside the four modelled files and are taken as parameters. *)
Class SpanAttributes : Type := {
  LLM_RESPONSE_MODEL : string;
  LLM_SYSTEM : string;
  LLM_TOKEN_TYPE : string
}.

(** [class Type(Enum)] *)
Inductive Type_ : Type :=
| INPUT
| OUTPUT.

Definition Type_value (t : Type_) : string :=
  match t with
  | INPUT => "input"
  | OUTPUT => "output"
  end.

(** The instruments of the injected [metric_params] bundle. *)
Inductive instrument : Type :=
| guardrail_counter
| guardrail_latency_histogram
| guardrail_coverage
| guardrail_sensitive_info
| guardrail_topic
| guardrail_content
| guardrail_words.

Definition instrument_eqb (a b : instrument) : bool :=
  match a, b with
  | guardrail_counter, guardrail_counter
  | guardrail_latency_histogram, guardrail_latency_histogram
  | guardrail_coverage, guardrail_coverage
  | guardrail_sensitive_info, guardrail_sensitive_info
  | guardrail_topic, guardrail_topic
  | guardrail_content, guardrail_content
  | guardrail_words, guardrail_words => true
  | _, _ => false
  end.

(** One call [instrument.add(amount, attributes)] (or [.record] on the
    histogram). *)
Record recording : Type := {
  target : instrument;
  amount : json;
  attributes : dict
}.

(** Code that records metrics and may raise: the outcome together with the
    recordings made up to that point, oldest first.  Recordings made before
    an exception stay made. *)
Definition M (A : Type) : Type := result A * list recording.

Definition ret {A} (a : A) : M A := (Ok a, []).

Definition bind {A B} (m : M A) (k : A -> M B) : M B :=
  match m with
  | (Ok a, w) => let (r, w') := k a in (r, (w ++ w')%list)
  | (Raise e, w) => (Raise e, w)
  end.

Definition lift {A} (r : result A) : M A := (r, []).

Definition emit (i : instrument) (n : json) (attrs : dict) : M unit :=
  (Ok tt, [ {| target := i; amount := n; attributes := attrs |} ]).

Declare Scope metrics_scope.
Delimit Scope metrics_scope with metrics.
Notation "x <- m ;; k" := (bind m (fun x => k))
  (at level 61, m at next level, right associativity) : metrics_scope.
Notation "m ;; k" := (bind m (fun _ => k))
  (at level 61, right associativity) : metrics_scope.
Open Scope metrics_scope.

(** [for x in items: body(x)] *)
Fixpoint for_each (items : list json) (body : json -> M unit) : M unit :=
  match items with
  | [] => ret tt
  | x :: rest => body x ;; for_each rest body
  end.

(** The loop of [is_guardrail_activated] over [response['results']]:
    [true] when it returned [True] from inside the loop. *)
Fixpoint any_content_filtered (messages : list json) : result bool :=
  match messages with
  | [] => Ok false
  | message :: rest =>
      rbind (get message "completionReason") (fun reason =>
        if eq_str reason "CONTENT_FILTERED" then Ok true
        else any_content_filtered rest)
  end.

Definition is_guardrail_activated (response : json) : result bool :=
  rbind (contains "results" response) (fun has_results =>
  rbind (if has_results
         then rbind (item response "results") (fun results =>
              rbind (iter results) any_content_filtered)
         else Ok false) (fun filtered =>
  if filtered then Ok true
  else
    rbind (get response "stopReason") (fun stop =>
    if eq_str stop "guardrail_intervened" then Ok true
    else
      rbind (get response "amazon-bedrock-guardrailAction") (fun action =>
      Ok (negb (eq_str action "NONE")))))).

Section handlers.
Context {SA : SpanAttributes}.

Definition handle_invoke_metrics (t : Type_) (guardrail : json) (attrs : dict)
  : M unit :=
  has <- lift (contains "invocationMetrics" guardrail) ;;
  if has then
    metrics <- lift (item guardrail "invocationMetrics") ;;
    has_latency <- lift (contains "guardrailProcessingLatency" metrics) ;;
    (if has_latency then
       input_latency <- lift (item metrics "guardrailProcessingLatency") ;;
       emit guardrail_latency_histogram input_latency
         (dict_set LLM_TOKEN_TYPE (JStr (Type_value t)) attrs)
     else ret tt) ;;
    has_coverage <- lift (contains "guardrailCoverage" metrics) ;;
    if has_coverage then
      coverage <- lift (item metrics "guardrailCoverage") ;;
      text <- lift (item coverage "textCharacters") ;;
      char_guarded <- lift (item text "guarded") ;;
      emit guardrail_coverage char_guarded
        (dict_set LLM_TOKEN_TYPE (JStr (Type_value t)) attrs)
    else ret tt
  else ret tt.

(** The body shared by the counting loops: [instrument.add(1, attributes =
    {**attrs, "gen_ai.guardrail.type": t.value, key: entry[field]})]. *)
Definition count_entry (i : instrument) (t : Type_) (attrs : dict)
  (key field : string) (entry : json) : M unit :=
  v <- lift (item entry field) ;;
  emit i (JInt 1)
    (dict_set key v
       (dict_set "gen_ai.guardrail.type" (JStr (Type_value t)) attrs)).

Definition handle_sensitive (t : Type_) (guardrail : json) (attrs : dict)
  : M unit :=
  has <- lift (contains "sensitiveInformationPolicy" guardrail) ;;
  if has then
    sensitive_info <- lift (item guardrail "sensitiveInformationPolicy") ;;
    has_pii <- lift (contains "piiEntities" sensitive_info) ;;
    (if has_pii then
       entities <- lift (item sensitive_info "piiEntities") ;;
       entries <- lift (iter entities) ;;
       for_each entries
         (count_entry guardrail_sensitive_info t attrs "gen_ai.guardrail.pii" "type")
     else ret tt) ;;
    has_regexes <- lift (contains "regexes" sensitive_info) ;;
    if has_regexes then
      regexes <- lift (item sensitive_info "regexes") ;;
      entries <- lift (iter regexes) ;;
      for_each entries
        (count_entry guardrail_sensitive_info t attrs "gen_ai.guardrail.pattern" "name")
    else ret tt
  else ret tt.

Definition handle_topic (t : Type_) (guardrail : json) (attrs : dict)
  : M unit :=
  has <- lift (contains "topicPolicy" guardrail) ;;
  if has then
    policy <- lift (item guardrail "topicPolicy") ;;
    topics <- lift (item policy "topics") ;;
    entries <- lift (iter topics) ;;
    for_each entries
      (count_entry guardrail_topic t attrs "gen_ai.guardrail.topic" "name")
  else ret tt.

Definition handle_content (t : Type_) (guardrail : json) (attrs : dict)
  : M unit :=
  has <- lift (contains "contentPolicy" guardrail) ;;
  if has then
    policy <- lift (item guardrail "contentPolicy") ;;
    filters <- lift (item policy "filters") ;;
    entries <- lift (iter filters) ;;
    for_each entries (fun filter =>
      type <- lift (item filter "type") ;;
      confidence <- lift (item filter "confidence") ;;
      emit guardrail_content (JInt 1)
        (dict_set "gen_ai.guardrail.confidence" confidence
           (dict_set "gen_ai.guardrail.content" type
              (dict_set "gen_ai.guardrail.type" (JStr (Type_value t)) attrs))))
  else ret tt.

Definition handle_words (t : Type_) (guardrail : json) (attrs : dict)
  : M unit :=
  has <- lift (contains "wordPolicy" guardrail) ;;
  if has then
    filters <- lift (item guardrail "wordPolicy") ;;
    has_custom <- lift (contains "customWords" filters) ;;
    (if has_custom then
       words <- lift (item filters "customWords") ;;
       entries <- lift (iter words) ;;
       for_each entries
         (count_entry guardrail_words t attrs "gen_ai.guardrail.match" "match")
     else ret tt) ;;
    has_managed <- lift (contains "managedWordLists" filters) ;;
    if has_managed then
      words <- lift (item filters "managedWordLists") ;;
      entries <- lift (iter words) ;;
      for_each entries
        (count_entry guardrail_words t attrs "gen_ai.guardrail.match" "match")
    else ret tt
  else ret tt.

Definition _handle (t : Type_) (guardrail_info : json) (attrs : dict)
  : M unit :=
  handle_invoke_metrics t guardrail_info attrs ;;
  handle_sensitive t guardrail_info attrs ;;
  handle_topic t guardrail_info attrs ;;
  handle_content t guardrail_info attrs ;;
  handle_words t guardrail_info attrs.

(** The dictionary literal that opens both entry points. *)
Definition base_attrs (vendor model : json) : dict :=
  dict_set LLM_SYSTEM (JStr "bedrock")
    (dict_set LLM_RESPONSE_MODEL model
       (dict_set "gen_ai.vendor" vendor [])).

(** [if is_guardrail_activated(r): metric_params.guardrail_counter.add(1, attrs)] *)
Definition count_activation (response : json) (attrs : dict) : M unit :=
  activated <- lift (is_guardrail_activated response) ;;
  if activated then emit guardrail_counter (JInt 1) attrs else ret tt.

(** [k1 in v and k2 in v[k1]] *)
Definition contains_nested (k1 k2 : string) (v : json) : result bool :=
  rbind (contains k1 v) (fun has =>
    if has then rbind (item v k1) (contains k2) else Ok false).

(** guardrail_converse, lines 99-103.  The result is [attrs] as the block
    leaves it. *)
Definition converse_input (g : json) (attrs : dict) : M dict :=
  has <- lift (contains "inputAssessment" g) ;;
  if has then
    assessment <- lift (item g "inputAssessment") ;;
    g_id <- lift (next_iter assessment) ;;
    let attrs := dict_set "gen_ai.guardrail" g_id attrs in
    guardrail_info <- lift (subscript assessment g_id) ;;
    _handle INPUT guardrail_info attrs ;;
    ret attrs
  else ret attrs.

(** guardrail_converse, lines 104-109. *)
Definition converse_outputs (g : json) (attrs : dict) : M dict :=
  has <- lift (contains "outputAssessments" g) ;;
  if has then
    assessments <- lift (item g "outputAssessments") ;;
    g_id <- lift (next_iter assessments) ;;
    let attrs := dict_set "gen_ai.guardrail" g_id attrs in
    guardrail_infos <- lift (subscript assessments g_id) ;;
    entries <- lift (iter guardrail_infos) ;;
    for_each entries (fun guardrail_info =>
      _handle OUTPUT guardrail_info attrs) ;;
    ret attrs
  else ret attrs.

Definition guardrail_converse (response vendor model : json) : M unit :=
  let attrs := base_attrs vendor model in
  has <- lift (contains_nested "trace" "guardrail" response) ;;
  attrs <- (if has then
              trace <- lift (item response "trace") ;;
              g <- lift (item trace "guardrail") ;;
              attrs <- converse_input g attrs ;;
              converse_outputs g attrs
            else ret attrs) ;;
  count_activation response attrs.

(** guardrail_handling, lines 122-126. *)
Definition invoke_input (bedrock_trace : json) (attrs : dict) : M dict :=
  has <- lift (contains_nested "guardrail" "input" bedrock_trace) ;;
  if has then
    g <- lift (item bedrock_trace "guardrail") ;;
    input <- lift (item g "input") ;;
    g_id <- lift (next_iter input) ;;
    let attrs := dict_set "gen_ai.guardrail" g_id attrs in
    guardrail_info <- lift (subscript input g_id) ;;
    _handle INPUT guardrail_info attrs ;;
    ret attrs
  else ret attrs.

(** guardrail_handling, lines 130-134: the loop body reads [outputs[0]],
    whichever entry [output] is. *)
Fixpoint outputs_loop (outputs : json) (entries : list json) (attrs : dict)
  : M dict :=
  match entries with
  | [] => ret attrs
  | output :: rest =>
      g_id <- lift (next_iter output) ;;
      let attrs := dict_set "gen_ai.guardrail" g_id attrs in
      first <- lift (subscript outputs (JInt 0)) ;;
      guardrail_info <- lift (subscript first g_id) ;;
      _handle OUTPUT guardrail_info attrs ;;
      outputs_loop outputs rest attrs
  end.

(** guardrail_handling, lines 128-134. *)
Definition invoke_outputs (bedrock_trace : json) (attrs : dict) : M dict :=
  has <- lift (contains_nested "guardrail" "outputs" bedrock_trace) ;;
  if has then
    g <- lift (item bedrock_trace "guardrail") ;;
    outputs <- lift (item g "outputs") ;;
    entries <- lift (iter outputs) ;;
    outputs_loop outputs entries attrs
  else ret attrs.

Definition guardrail_handling (response_body vendor model : json) : M unit :=
  has_action <- lift (contains "amazon-bedrock-guardrailAction" response_body) ;;
  if has_action then
    let attrs := base_attrs vendor model in
    has_trace <- lift (contains "amazon-bedrock-trace" response_body) ;;
    attrs <- (if has_trace then
                bedrock_trace <- lift (item response_body "amazon-bedrock-trace") ;;
                attrs <- invoke_input bedrock_trace attrs ;;
                invoke_outputs bedrock_trace attrs
              else ret attrs) ;;
    count_activation response_body attrs
  else ret tt.

(** The claim about the [outputs] loop in the specification's words: every
    entry contributes only its first key; the assessment is taken from
    [first_entry].  [ids] holds, per entry, the outcome of
    [next(iter(entry))]. *)
Fixpoint outputs_from_first_entry (first_entry : json)
  (ids : list (result json)) (attrs : dict) : M dict :=
  match ids with
  | [] => ret attrs
  | id :: rest =>
      g_id <- lift id ;;
      let attrs := dict_set "gen_ai.guardrail" g_id attrs in
      guardrail_info <- lift (subscript first_entry g_id) ;;
      _handle OUTPUT guardrail_info attrs ;;
      outputs_from_first_entry first_entry rest attrs
  end.

End handlers.

(** The recordings a run made on one instrument. *)
Definition recorded_on (i : instrument) {A} (m : M A) : list recording :=
  filter (fun r => instrument_eqb (target r) i) (snd m).

End guardrail.

(** ** traceloop/sdk/decorators/base.py *)

Module base.

(** Modelled from the spec: [TraceloopSpanKindValues] is imported from
    [opentelemetry.semconv_ai]; the specification gives its members and
    their literal values. *)
Inductive TraceloopSpanKindValues : Type :=
| WORKFLOW
| TASK
| AGENT
| TOOL.

Definition kind_value (k : TraceloopSpanKindValues) : string :=
  match k with
  | WORKFLOW => "workflow"
  | TASK => "task"
  | AGENT => "agent"
  | TOOL => "tool"
  end.

Definition kind_eqb (a b : TraceloopSpanKindValues) : bool :=
  match a, b with
  | WORKFLOW, WORKFLOW | TASK, TASK | AGENT, AGENT | TOOL, TOOL => true
  | _, _ => false
  end.

(** [tlp_span_kind in [k1, k2]] for the optional parameter. *)
Definition kind_in (k : option TraceloopSpanKindValues)
  (ks : list TraceloopSpanKindValues) : bool :=
  match k with
  | Some k => existsb (kind_eqb k) ks
  | None => false
  end.

(** The span attribute names of [SpanAttributes] that the module writes. *)
Inductive attribute : Type :=
| TRACELOOP_SPAN_KIND
| TRACELOOP_ENTITY_NAME
| TRACELOOP_ENTITY_VERSION
| TRACELOOP_ENTITY_INPUT
| TRACELOOP_ENTITY_OUTPUT.

Inductive attribute_value : Type :=
| AStr (s : string)
| AInt (z : Z).

Definition span : Type := nat.
Definition token : Type := nat.

(** The calls the module makes on its collaborators (tracer, ambient
    context, telemetry sink), which are all defined outside this file. *)
Inductive api_call : Type :=
| set_workflow_name (name : string)
| tracer_enter
| tracer_exit
| start_span (s : span) (name : string)
| attach (t : token) (s : span)
| set_entity_path (path : string)
| set_attribute (s : span) (key : attribute) (v : attribute_value)
| log_exception (e : exn)
| span_end (s : span)
| detach (t : token).

(** What the module reads from its surroundings, and the calls made so far
    (oldest first). *)
Record state : Type := {
  initialized : bool;                       (* TracerWrapper.verify_initialized() *)
  TRACELOOP_TRACE_CONTENT : option string;  (* os.getenv("TRACELOOP_TRACE_CONTENT") *)
  override_enable_content_tracing : json;   (* context_api.get_value(...), None when unset *)
  calls : list api_call
}.

Definition log (c : api_call) (st : state) : state :=
  {| initialized := initialized st;
     TRACELOOP_TRACE_CONTENT := TRACELOOP_TRACE_CONTENT st;
     override_enable_content_tracing := override_enable_content_tracing st;
     calls := (calls st ++ [c])%list |}.

(** Code that acts on the state and may raise. *)
Definition T (A : Type) : Type := state -> result A * state.

Definition ret {A} (a : A) : T A := fun st => (Ok a, st).

Definition raise {A} (e : exn) : T A := fun st => (Raise e, st).

Definition bind {A B} (m : T A) (k : A -> T B) : T B :=
  fun st =>
    match m st with
    | (Ok a, st') => k a st'
    | (Raise e, st') => (Raise e, st')
    end.

Definition api (c : api_call) : T unit := fun st => (Ok tt, log c st).

Declare Scope trace_scope.
Delimit Scope trace_scope with trace.
Notation "x <- m ;; k" := (bind m (fun x => k))
  (at level 61, m at next level, right associativity) : trace_scope.
Notation "m ;; k" := (bind m (fun _ => k))
  (at level 61, right associativity) : trace_scope.
Open Scope trace_scope.

(** Python objects that flow through a decorated call.  A generator, a
    coroutine and an asynchronous generator are represented by what running
    them to the end does: the items produced or the value returned, or the
    exception raised.  [PObject] is an instance of any other class (one
    without [__await__]). *)
Inductive pyobj : Type :=
| PNone
| PBool (b : bool)
| PInt (z : Z)
| PStr (s : string)
| PList (l : list pyobj)
| PTuple (l : list pyobj)
| PDict (d : list (string * pyobj))
| PObject (id : nat)
| PGenerator (g : state -> result (list pyobj) * state)
| PCoroutine (c : state -> result pyobj * state)
| PAsyncGenerator (g : state -> result (list pyobj) * state).

(** A callable with its [__name__]; calling it with positional and keyword
    arguments acts on the state. *)
Record callable : Type := {
  __name__ : string;
  call : list pyobj -> list (string * pyobj) -> T pyobj
}.

Inductive encoder : Type :=
| DefaultEncoder     (* json.dumps(x) *)
| JSONEncoder.       (* json.dumps(x, cls=JSONEncoder) *)

(** Collaborators whose code is outside this file: [json.dumps] with the
    chosen encoder class, and [get_chained_entity_path], which reads the
    ambient context. *)
Class Collaborators : Type := {
  json_dumps : encoder -> pyobj -> result string;
  get_chained_entity_path : string -> state -> string
}.

(** [str.lower] on ASCII letters. *)
Definition lower_ascii (c : ascii) : ascii :=
  let n := nat_of_ascii c in
  if andb (Nat.leb 65 n) (Nat.leb n 90) then ascii_of_nat (n + 32) else c.

Fixpoint lower (s : string) : string :=
  match s with
  | EmptyString => EmptyString
  | String c rest => String (lower_ascii c) (lower rest)
  end.

Definition _is_json_size_valid (json_str : string) : bool :=
  (N.of_nat (String.length json_str) <? 1000000)%N.

(** [x or "true"] for [x = os.getenv(...)]: [None] and the empty string
    are both false. *)
Definition or_default (x : option string) (default : string) : string :=
  match x with
  | None => default
  | Some v => if String.eqb v "" then default else v
  end.

(** The value of the [or] expression: [True], or else whatever the context
    holds under [override_enable_content_tracing]. *)
Definition _should_send_prompts (st : state) : json :=
  if String.eqb (lower (or_default (TRACELOOP_TRACE_CONTENT st) "true")) "true"
  then JBool true
  else override_enable_content_tracing st.

(** [try: body except TypeError as e: handler(e)] *)
Definition try_except_TypeError (body : T unit) (handler : exn -> T unit)
  : T unit :=
  fun st =>
    match body st with
    | (Raise TypeError, st') => handler TypeError st'
    | outcome => outcome
    end.

(** [with get_tracer() as tracer: body]: the context manager is left on
    every way out of the block. *)
Definition with_tracer {A} (body : T A) : T A :=
  fun st =>
    let (r, st') := body (log tracer_enter st) in
    (r, log tracer_exit st').

(** [tracer.start_span(name)]: the new span is identified by its position
    in the call log. *)
Definition tracer_start_span (name : string) : T span :=
  fun st => let s := List.length (calls st) in (Ok s, log (start_span s name) st).

(** [context_api.attach(trace.set_span_in_context(span))] *)
Definition context_attach (s : span) : T token :=
  fun st => let t := List.length (calls st) in (Ok t, log (attach t s) st).

(** [await x] *)
Definition await (x : pyobj) : T pyobj :=
  match x with
  | PCoroutine c => c
  | _ => raise TypeError
  end.

Definition _handle_generator (s : span)
  (res : state -> result (list pyobj) * state) : T (list pyobj) :=
  context_attach s ;;
  items <- res ;;
  api (span_end s) ;;
  ret items.

Definition _ahandle_generator (s : span) (ctx_token : token)
  (res : state -> result (list pyobj) * state) : T (list pyobj) :=
  items <- res ;;
  api (span_end s) ;;
  api (detach ctx_token) ;;
  ret items.

Definition lift {A} (r : result A) : T A := fun st => (r, st).

(** [TracerWrapper.verify_initialized()] *)
Definition verify_initialized : T bool := fun st => (Ok (initialized st), st).

(** [name or fn.__name__] *)
Definition name_or (name : option string) (fallback : string) : string :=
  match name with
  | None => fallback
  | Some n => if String.eqb n "" then fallback else n
  end.

(** [tlp_span_kind.value]; the parameter is [Optional], and [None] has no
    such attribute. *)
Definition span_kind_value (k : option TraceloopSpanKindValues) : result string :=
  match k with
  | Some k => Ok (kind_value k)
  | None => Raise AttributeError
  end.

(** [if version:] on the optional integer. *)
Definition version_set (version : option Z) : option Z :=
  match version with
  | Some v => if Z.eqb v 0 then None else Some v
  | None => None
  end.

(** [{"args": args, "kwargs": kwargs}] *)
Definition input_object (args : list pyobj) (kwargs : list (string * pyobj))
  : pyobj :=
  PDict [("args", PTuple args); ("kwargs", PDict kwargs)].

Section decorators.
Context {C : Collaborators}.

(** Lines 39-63 and 141-165, the same in both wrappers up to the tracer
    block: everything between the readiness check and the first [try].
    [k] continues inside the [with] block with the span, the context token
    and nothing else. *)
Definition open_entity_span {A} (entity_name : string)
  (version : option Z) (tlp_span_kind : option TraceloopSpanKindValues)
  (k : span -> token -> T A) : T A :=
  (if kind_in tlp_span_kind [WORKFLOW; AGENT]
   then api (set_workflow_name entity_name) else ret tt) ;;
  kind <- lift (span_kind_value tlp_span_kind) ;;
  let span_name := entity_name ++ "." ++ kind in
  with_tracer (
    s <- tracer_start_span span_name ;;
    ctx_token <- context_attach s ;;
    (if kind_in tlp_span_kind [TASK; TOOL]
     then (fun st =>
             let entity_path := get_chained_entity_path entity_name st in
             api (set_entity_path entity_path) st)
     else ret tt) ;;
    api (set_attribute s TRACELOOP_SPAN_KIND (AStr kind)) ;;
    api (set_attribute s TRACELOOP_ENTITY_NAME (AStr entity_name)) ;;
    (match version_set version with
     | Some v => api (set_attribute s TRACELOOP_ENTITY_VERSION (AInt v))
     | None => ret tt
     end) ;;
    k s ctx_token).

Definition entity_method (name : option string) (version : option Z)
  (tlp_span_kind : option TraceloopSpanKindValues) (fn : callable) : callable :=
  {| __name__ := __name__ fn;
     call := fun args kwargs =>
       ready <- verify_initialized ;;
       if negb ready then call fn args kwargs
       else
         let entity_name := name_or name (__name__ fn) in
         open_entity_span entity_name version tlp_span_kind (fun s ctx_token =>
           try_except_TypeError
             (fun st =>
                if truthy (_should_send_prompts st) then
                  (json_input <- lift (json_dumps JSONEncoder
                                         (input_object args kwargs)) ;;
                   if _is_json_size_valid json_input
                   then api (set_attribute s TRACELOOP_ENTITY_INPUT (AStr json_input))
                   else ret tt) st
                else ret tt st)
             (fun e => api (log_exception e)) ;;
           res <- call fn args kwargs ;;
           match res with
           | PGenerator g => ret (PGenerator (_handle_generator s g))
           | _ =>
               try_except_TypeError
                 (fun st =>
                    if truthy (_should_send_prompts st) then
                      (json_output <- lift (json_dumps JSONEncoder res) ;;
                       if _is_json_size_valid json_output
                       then api (set_attribute s TRACELOOP_ENTITY_OUTPUT (AStr json_output))
                       else ret tt) st
                    else ret tt st)
                 (fun e => api (log_exception e)) ;;
               api (span_end s) ;;
               api (detach ctx_token) ;;
               ret res
           end) |}.

(** The body of the [async def wrap]: what awaiting the coroutine does. *)
Definition aentity_wrap (name : option string) (version : option Z)
  (tlp_span_kind : option TraceloopSpanKindValues) (fn : callable)
  (args : list pyobj) (kwargs : list (string * pyobj)) : T pyobj :=
  ready <- verify_initialized ;;
  if negb ready then
    (res <- call fn args kwargs ;; await res)
  else
    let entity_name := name_or name (__name__ fn) in
    open_entity_span entity_name version tlp_span_kind (fun s ctx_token =>
      try_except_TypeError
        (fun st =>
           if truthy (_should_send_prompts st) then
             (json_input <- lift (json_dumps DefaultEncoder
                                    (input_object args kwargs)) ;;
              if _is_json_size_valid json_input
              then api (set_attribute s TRACELOOP_ENTITY_INPUT (AStr json_input))
              else ret tt) st
           else ret tt st)
        (fun e => api (log_exception e)) ;;
      res <- call fn args kwargs ;;
      match res with
      | PAsyncGenerator g =>
          ret (PAsyncGenerator (_ahandle_generator s ctx_token g))
      | _ =>
          res <- await res ;;
          try_except_TypeError
            (fun st =>
               if truthy (_should_send_prompts st) then
                 (json_output <- lift (json_dumps DefaultEncoder res) ;;
                  if _is_json_size_valid json_output
                  then api (set_attribute s TRACELOOP_ENTITY_OUTPUT (AStr json_output))
                  else ret tt) st
               else ret tt st)
            (fun e => api (log_exception e)) ;;
          api (span_end s) ;;
          api (detach ctx_token) ;;
          ret res
      end).

(** Calling the decorated function only creates the coroutine. *)
Definition aentity_method (name : option string) (version : option Z)
  (tlp_span_kind : option TraceloopSpanKindValues) (fn : callable) : callable :=
  {| __name__ := __name__ fn;
     call := fun args kwargs =>
       ret (PCoroutine (aentity_wrap name version tlp_span_kind fn args kwargs)) |}.

End decorators.

End base.

(** ** Well-formed payloads *)

Module shapes.

(** A response mapping whose [results] entry, when there is one, is a list
    of mappings: the shape on which [is_guardrail_activated] scans without
    raising. *)
Definition results_well_formed (d : dict) : Prop :=
  match lookup "results" d with
  | None => True
  | Some r => exists l, r = JList l /\ Forall is_dict l
  end.

(** Some entry of the [results] list has [completionReason] equal to
    ["CONTENT_FILTERED"]. *)
Definition content_filtered (d : dict) : Prop :=
  exists l m, lookup "results" d = Some (JList l) /\ In (JDict m) l /\
              lookup "completionReason" m = Some (JStr "CONTENT_FILTERED").

Definition reason_is_filtered (message : json) : bool :=
  match get message "completionReason" with
  | Ok r => eq_str r "CONTENT_FILTERED"
  | Raise _ => false
  end.

(** [d.get(k)] for a mapping given as its association list. *)
Definition field (d : dict) (k : string) : json :=
  match lookup k d with
  | Some x => x
  | None => JNone
  end.

(** The outcome of the scan over [results] on a well-formed response. *)
Definition filtered_flag (d : dict) : bool :=
  match lookup "results" d with
  | Some (JList l) => existsb reason_is_filtered l
  | _ => false
  end.

(** One assignment of the attribute names, for running the functions on
    concrete payloads. *)
Definition semconv : guardrail.SpanAttributes :=
  {| guardrail.LLM_RESPONSE_MODEL := "gen_ai.response.model";
     guardrail.LLM_SYSTEM := "gen_ai.system";
     guardrail.LLM_TOKEN_TYPE := "gen_ai.token.type" |}.

(** Sample payloads: an assessment with one PII entity, an invoke-shaped
    body with the given [outputs], a converse-shaped response with the
    given [inputAssessment]. *)
Definition pii (type : string) : json :=
  JDict [("sensitiveInformationPolicy",
          JDict [("piiEntities", JList [JDict [("type", JStr type)]])])].

Definition invoke_payload (outputs : list json) : json :=
  JDict [("amazon-bedrock-guardrailAction", JStr "INTERVENED");
         ("amazon-bedrock-trace",
          JDict [("guardrail", JDict [("outputs", JList outputs)])])].

Definition converse_payload (input_assessment : dict) : dict :=
  [("stopReason", JStr "guardrail_intervened");
   ("trace", JDict [("guardrail",
                     JDict [("inputAssessment", JDict input_assessment)])])].

(** The attributes of the recording that one PII entity of type [type]
    produces in direction [t], from the attributes [attrs] in force. *)
Definition pii_attributes (t : guardrail.Type_) (type : json) (attrs : dict)
  : dict :=
  dict_set "gen_ai.guardrail.pii" type
    (dict_set "gen_ai.guardrail.type" (JStr (guardrail.Type_value t)) attrs).

(** A block that makes no recording on instrument [i]. *)
Definition silent_on (i : guardrail.instrument) {A} (m : guardrail.M A) : Prop :=
  guardrail.recorded_on i m = [].

End shapes.

(** ** Vocabulary for the decorated call *)

Module decorated.
Import base.

(** The environment variable holds a value that lower-cases to ["true"]. *)
Definition says_true (st : state) : Prop :=
  exists v, TRACELOOP_TRACE_CONTENT st = Some v /\ lower v = "true".

(** C4 as the specification words it: unset, or case-insensitively
    ["true"], or a truthy override. *)
Definition enabled_as_specified (st : state) : Prop :=
  (TRACELOOP_TRACE_CONTENT st = None \/ says_true st)
  \/ truthy (override_enable_content_tracing st) = true.

(** The same with the empty string counted as unset. *)
Definition enabled_as_coded (st : state) : Prop :=
  (TRACELOOP_TRACE_CONTENT st = None
   \/ TRACELOOP_TRACE_CONTENT st = Some ""
   \/ says_true st)
  \/ truthy (override_enable_content_tracing st) = true.

Section blocks.
Context {C : Collaborators}.

(** The state in which the first [try] block of a wrapper starts, with the
    span and the context token: lines 39-63 (141-165) run on [st]. *)
Definition enter (entity_name : string) (version : option Z)
  (k : TraceloopSpanKindValues) (st : state) : span * token * state :=
  let st := if kind_in (Some k) [WORKFLOW; AGENT]
            then log (set_workflow_name entity_name) st else st in
  let st := log tracer_enter st in
  let s := List.length (calls st) in
  let st := log (start_span s (entity_name ++ "." ++ kind_value k)) st in
  let t := List.length (calls st) in
  let st := log (attach t s) st in
  let st := if kind_in (Some k) [TASK; TOOL]
            then log (set_entity_path (get_chained_entity_path entity_name st)) st
            else st in
  let st := log (set_attribute s TRACELOOP_SPAN_KIND (AStr (kind_value k))) st in
  let st := log (set_attribute s TRACELOOP_ENTITY_NAME (AStr entity_name)) st in
  let st := match version_set version with
            | Some v => log (set_attribute s TRACELOOP_ENTITY_VERSION (AInt v)) st
            | None => st
            end in
  (s, t, st).

(** The four [try] blocks (lines 65-76, 84-93, 167-176, 187-196) differ in
    the encoder, the attribute and the object serialized. *)
Definition capture (enc : encoder) (s : span) (key : attribute) (o : pyobj)
  : T unit :=
  try_except_TypeError
    (fun st =>
       if truthy (_should_send_prompts st) then
         (json_str <- lift (json_dumps enc o) ;;
          if _is_json_size_valid json_str
          then api (set_attribute s key (AStr json_str))
          else ret tt) st
       else ret tt st)
    (fun e => api (log_exception e)).

End blocks.

(** What the size guard leaves of a serialized payload. *)
Definition attach_if_valid (s : span) (key : attribute) (json_str : string)
  (st : state) : state :=
  if _is_json_size_valid json_str
  then log (set_attribute s key (AStr json_str)) st
  else st.

(** A serializer outcome that the [try] blocks absorb: a string, or a
    [TypeError]. *)
Definition caught (r : result string) : Prop :=
  match r with
  | Ok _ => True
  | Raise e => e = TypeError
  end.

(** The state a [try] block leaves when content tracing is on and the
    serializer outcome is [r]: the guarded attribute, or the exception
    handed to [Telemetry().log_exception] and no attribute. *)
Definition after_capture (s : span) (key : attribute) (r : result string)
  (st : state) : state :=
  match r with
  | Ok json_str => attach_if_valid s key json_str st
  | Raise e => log (log_exception e) st
  end.

(** A string of [n] characters. *)
Fixpoint padding (n : nat) : string :=
  match n with
  | O => EmptyString
  | S n => String "x" (padding n)
  end.

(** Lines 95-96 (198-199) and leaving the [with] block. *)
Definition close (s : span) (t : token) (st : state) : state :=
  log tracer_exit (log (detach t) (log (span_end s) st)).

Definition is_generator (o : pyobj) : bool :=
  match o with
  | PGenerator _ => true
  | _ => false
  end.

Definition is_async_generator (o : pyobj) : bool :=
  match o with
  | PAsyncGenerator _ => true
  | _ => false
  end.

(** A callable that returns on every call. *)
Definition never_raises (fn : callable) : Prop :=
  forall args kwargs st, exists v st', call fn args kwargs st = (Ok v, st').

(** C3 read on the synchronous wrapper: with every serialization error
    suppressed, decorating a callable that never raises gives one that
    never raises, whatever the serializer does. *)
Definition serialization_errors_suppressed : Prop :=
  forall (C : Collaborators) name version k fn args kwargs st,
    initialized st = true ->
    never_raises fn ->
    exists v st',
      call (entity_method name version (Some k) fn) args kwargs st = (Ok v, st').

(** Sample surroundings and callables for concrete runs. *)
Definition surroundings (ready : bool) (env : option string) (override : json)
  : state :=
  {| initialized := ready;
     TRACELOOP_TRACE_CONTENT := env;
     override_enable_content_tracing := override;
     calls := [] |}.

(** A serializer that refuses [PObject 0] with [TypeError] and
    [PObject 1] (standing for a list that contains itself) with
    [ValueError], wherever they occur among the positional arguments. *)
Definition refuses (o : pyobj) : option exn :=
  match o with
  | PObject 0 => Some TypeError
  | PObject 1 => Some ValueError
  | PDict (("args", PTuple (PObject 0 :: _)) :: _) => Some TypeError
  | PDict (("args", PTuple (PObject 1 :: _)) :: _) => Some ValueError
  | _ => None
  end.

(** A serializer whose output is a string of [n] characters. *)
Definition verbose_collaborators (n : nat) : Collaborators :=
  {| json_dumps := fun _ _ => Ok (padding n);
     get_chained_entity_path := fun name _ => name |}.

Definition sample_collaborators : Collaborators :=
  {| json_dumps := fun _ o =>
       match refuses o with
       | Some e => Raise e
       | None => Ok "{}"
       end;
     get_chained_entity_path := fun name _ => name |}.

(** A plain function that returns 7. *)
Definition answer : callable :=
  {| __name__ := "answer"; call := fun _ _ => ret (PInt 7) |}.

(** An [async def] function that returns 7. *)
Definition compute : callable :=
  {| __name__ := "compute";
     call := fun _ _ => ret (PCoroutine (ret (PInt 7))) |}.

(** An asynchronous generator function that yields 1, then 2. *)
Definition stream_items : T (list pyobj) := ret [PInt 1; PInt 2].

Definition stream : callable :=
  {| __name__ := "stream";
     call := fun _ _ => ret (PAsyncGenerator stream_items) |}.

End decorated.

(** ** Vocabulary for the recordings of the guardrail extractor *)

Module recordings.
Import guardrail.

(** Every recording of a run satisfies [P] (also those made before an
    exception). *)
Definition all_recordings (P : recording -> Prop) {A} (m : M A) : Prop :=
  Forall P (snd m).

Section tags.
Context {SA : SpanAttributes}.

(** A recording made for direction [t]: on the latency histogram and the
    coverage counter it carries the direction under [LLM_TOKEN_TYPE]; on
    the four policy counters it adds 1 and carries the direction under
    [gen_ai.guardrail.type]; it is never on the activation counter. *)
Definition tagged (t : Type_) (r : recording) : Prop :=
  match target r with
  | guardrail_counter => False
  | guardrail_latency_histogram | guardrail_coverage =>
      lookup LLM_TOKEN_TYPE (attributes r) = Some (JStr (Type_value t))
  | _ =>
      amount r = JInt 1
      /\ lookup "gen_ai.guardrail.type" (attributes r) = Some (JStr (Type_value t))
  end.

(** The attribute names the handlers write themselves. *)
Definition handler_keys : list string :=
  [ LLM_TOKEN_TYPE;
    "gen_ai.guardrail.type";
    "gen_ai.guardrail.pii";
    "gen_ai.guardrail.pattern";
    "gen_ai.guardrail.topic";
    "gen_ai.guardrail.content";
    "gen_ai.guardrail.confidence";
    "gen_ai.guardrail.match" ].

(** A recording that hands on every attribute of [attrs] under a name the
    handlers do not write. *)
Definition carries (attrs : dict) (r : recording) : Prop :=
  forall k, ~ In k handler_keys -> lookup k (attributes r) = lookup k attrs.

End tags.

(** A list entry with the field [k], as the counting loops need it. *)
Definition has_field (k : string) (entry : json) : Prop :=
  exists d v, entry = JDict d /\ lookup k d = Some v.

(** [entry[k]] for an entry known to have the field. *)
Definition field_of (k : string) (entry : json) : json :=
  match entry with
  | JDict d => shapes.field d k
  | _ => JNone
  end.

(** The recording one entry of a word list produces. *)
Definition word_recording (t : Type_) (attrs : dict) (entry : json) : recording :=
  {| target := guardrail_words;
     amount := JInt 1;
     attributes :=
       dict_set "gen_ai.guardrail.match" (field_of "match" entry)
         (dict_set "gen_ai.guardrail.type" (JStr (Type_value t)) attrs) |}.

(** The recording one content filter produces. *)
Definition content_recording (t : Type_) (attrs : dict) (entry : json) : recording :=
  {| target := guardrail_content;
     amount := JInt 1;
     attributes :=
       dict_set "gen_ai.guardrail.confidence" (field_of "confidence" entry)
         (dict_set "gen_ai.guardrail.content" (field_of "type" entry)
            (dict_set "gen_ai.guardrail.type" (JStr (Type_value t)) attrs)) |}.

(** The recording one entry of a counted list produces on instrument [i],
    with the entry's field [f] under the attribute [key]. *)
Definition count_recording (i : instrument) (t : Type_) (attrs : dict)
  (key f : string) (entry : json) : recording :=
  {| target := i;
     amount := JInt 1;
     attributes :=
       dict_set key (field_of f entry)
         (dict_set "gen_ai.guardrail.type" (JStr (Type_value t)) attrs) |}.

(** The activation recording. *)
Definition activation_recording (attrs : dict) : recording :=
  {| target := guardrail_counter; amount := JInt 1; attributes := attrs |}.

End recordings.

(** ** decorators/base.py: the class decorators *)

Module base_classes.
Import base.

(** [camel_to_snake] is imported from [traceloop.sdk.utils], outside this
    file. *)
Class Casing : Type := {
  camel_to_snake : string -> string
}.

(** A class as the decorators use it: its [__name__] and, by name, what
    [getattr(cls, name)] returns, the lookup being made on the class
    itself.  Lookups through an instance or a subclass, where it matters
    whether the class holds a plain function or a [staticmethod] or
    [classmethod] object, are not represented. *)
Record pyclass : Type := {
  cls_name : string;
  namespace : list (string * callable)
}.

(** [getattr(cls, name)] *)
Definition getattr (cls : pyclass) (name : string) : result callable :=
  match lookup name (namespace cls) with
  | Some m => Ok m
  | None => Raise AttributeError
  end.

(** [setattr(cls, name, value)] *)
Definition setattr (cls : pyclass) (name : string) (value : callable) : pyclass :=
  {| cls_name := cls_name cls;
     namespace := dict_set name value (namespace cls) |}.

Section class_decorators.
Context {C : Collaborators} {N : Casing}.

Definition entity_class (name : option string) (version : option Z)
  (method_name : string) (tlp_span_kind : option TraceloopSpanKindValues)
  (cls : pyclass) : result pyclass :=
  let task_name := name_or name (camel_to_snake (cls_name cls)) in
  rbind (getattr cls method_name) (fun method =>
    Ok (setattr cls method_name
          (entity_method (Some task_name) version tlp_span_kind method))).

Definition aentity_class (name : option string) (version : option Z)
  (method_name : string) (tlp_span_kind : option TraceloopSpanKindValues)
  (cls : pyclass) : result pyclass :=
  let task_name := name_or name (camel_to_snake (cls_name cls)) in
  rbind (getattr cls method_name) (fun method =>
    Ok (setattr cls method_name
          (aentity_method (Some task_name) version tlp_span_kind method))).

End class_decorators.

End base_classes.

(** ** More vocabulary for the decorated call *)

Module traced.
Import base decorated.

Section captured.
Context {C : Collaborators}.

(** The serializer outcome on [o] is one a [try] block absorbs, if the
    block gets to serialize at all. *)
Definition capturable (enc : encoder) (o : pyobj) (st : state) : Prop :=
  truthy (_should_send_prompts st) = true -> caught (json_dumps enc o).

(** The state a [try] block leaves. *)
Definition captured (enc : encoder) (s : span) (key : attribute) (o : pyobj)
  (st : state) : state :=
  if truthy (_should_send_prompts st)
  then after_capture s key (json_dumps enc o) st
  else st.

End captured.

(** [st'] comes after [st]: what the module reads is the same, and the
    call log has only grown. *)
Definition extends (st st' : state) : Prop :=
  initialized st' = initialized st
  /\ TRACELOOP_TRACE_CONTENT st' = TRACELOOP_TRACE_CONTENT st
  /\ override_enable_content_tracing st' = override_enable_content_tracing st
  /\ exists more, calls st' = (calls st ++ more)%list.

(** A callable that only appends to the call log. *)
Definition append_only (fn : callable) : Prop :=
  forall args kwargs st, extends st (snd (call fn args kwargs st)).

(** A class with one method, for concrete runs. *)
Definition sample_casing : base_classes.Casing :=
  {| base_classes.camel_to_snake := fun _ => "image_classifier" |}.

Definition ImageClassifier : base_classes.pyclass :=
  {| base_classes.cls_name := "ImageClassifier";
     base_classes.namespace := [("run", answer); ("close", compute)] |}.

(** A generator function that yields 1, then 2, and one whose generator
    raises. *)
Definition counting : callable :=
  {| __name__ := "counting";
     call := fun _ _ => ret (PGenerator (ret [PInt 1; PInt 2])) |}.

Definition failing : callable :=
  {| __name__ := "failing"; call := fun _ _ => raise KeyError |}.

(** A serializer like [sample_collaborators] with the custom encoder,
    that refuses everything with the default one. *)
Definition strict_collaborators : Collaborators :=
  {| json_dumps := fun enc o =>
       match enc with
       | JSONEncoder => json_dumps (Collaborators := sample_collaborators) enc o
       | DefaultEncoder => Raise ValueError
       end;
     get_chained_entity_path := fun name _ => name |}.

End traced.

(** ** Vocabulary for the input assessment of a converse response *)

Module assessments.
Import guardrail recordings shapes.

(** A recording made for direction INPUT, and one made for OUTPUT. *)
Definition input_direction (r : recording) : bool :=
  eq_str (field (attributes r) "gen_ai.guardrail.type") "input".

Definition output_direction (r : recording) : Prop :=
  lookup "gen_ai.guardrail.type" (attributes r) = Some (JStr "output").

(** The recording of one regex of the input assessment, made from the
    attributes [attrs]. *)
Definition regex_recording (attrs : dict) (r : recording) : Prop :=
  exists name,
    r = {| target := guardrail_sensitive_info;
           amount := JInt 1;
           attributes :=
             dict_set "gen_ai.guardrail.pattern" name
               (dict_set "gen_ai.guardrail.type" (JStr "input") attrs) |}.

(** The recording of the EMAIL entity of the input assessment. *)
Definition email_recording (attrs : dict) : recording :=
  {| target := guardrail_sensitive_info;
     amount := JInt 1;
     attributes := pii_attributes INPUT (JStr "EMAIL") attrs |}.

(** A converse response as the service returns it: the input assessment
    carries its invocation metrics beside the EMAIL entity, and an output
    assessment with a PHONE entity follows. *)
Definition assessed_email : json :=
  JDict [("invocationMetrics",
          JDict [("guardrailProcessingLatency", JInt 120);
                 ("guardrailCoverage",
                  JDict [("textCharacters",
                          JDict [("guarded", JInt 40); ("total", JInt 40)])])]);
         ("sensitiveInformationPolicy",
          JDict [("piiEntities", JList [JDict [("type", JStr "EMAIL")]])])].

Definition assessed_response : dict :=
  [("stopReason", JStr "guardrail_intervened");
   ("trace",
    JDict [("guardrail",
            JDict [("inputAssessment", JDict [("g1", assessed_email)]);
                   ("outputAssessments",
                    JDict [("g1", JList [pii "PHONE"])])])])].

End assessments.

(** * Properties *)

Import shapes.

(** ** instruments.py *)

Section registry.
Import instruments.

Lemma members_complete (i : Instruments) : In i members.
Proof. destruct i; vm_compute; tauto. Qed.

Lemma values_distinct : NoDup (map value members).
Proof.
  assert (H : forall l : list string,
             (fix distinct (l : list string) : bool :=
                match l with
                | [] => true
                | x :: r => negb (existsb (String.eqb x) r) && distinct r
                end) l = true -> NoDup l).
  { induction l as [|x r IH]; intros E; constructor.
    - apply andb_prop in E as [E _]. intros Hin.
      apply negb_true_iff in E.
      assert (existsb (String.eqb x) r = true); [|congruence].
      apply existsb_exists. exists x. split; [assumption | apply String.eqb_refl].
    - apply IH. apply andb_prop in E as [_ E]. exact E. }
  apply H. vm_compute. reflexivity.
Qed.

(** C2, as stated: thirty members.  The enumeration has twenty-nine, so the
    statement is false. *)
Lemma registry_30_members_refuted :
  ~ (List.length members = 30
     /\ Forall (fun s => occurrences s = 1) listed_values
     /\ NoDup (map value members)).
Proof. intros [H _]. vm_compute in H. discriminate H. Qed.

(** C2, amended: the enumeration has exactly 29 members ([members] lists
    every constructor, once); the member values are exactly the 29
    identifiers the specification lists, each carried by exactly one
    member, and no two members share a value. *)
Theorem registry_29_members :
  List.length members = 29
  /\ (forall i : Instruments, In i members)
  /\ NoDup members
  /\ map value members = listed_values
  /\ Forall (fun s => occurrences s = 1) listed_values
  /\ NoDup (map value members).
Proof.
  split; [reflexivity|].
  split; [exact members_complete|].
  split; [exact (NoDup_map_inv value members values_distinct)|].
  split; [reflexivity|].
  split; [|exact values_distinct].
  repeat constructor.
Qed.

End registry.

(** ** openai/shared/config.py *)

(** C10: the default [upload_base64_image] hook never returns a string; for
    every triple of arguments it returns the class object [str].  The claim
    (and the annotation [Callable[[str, str, str], str]]) asks for a string
    value. *)
Theorem upload_base64_image_returns_class (trace_id span_id url : string) :
  config.upload_base64_image trace_id span_id url = config.ClassObject "str"
  /\ config.is_str (config.upload_base64_image trace_id span_id url) = false.
Proof. split; reflexivity. Qed.

(** The sibling default does return what its annotation says. *)
Lemma get_common_metrics_attributes_empty :
  config.get_common_metrics_attributes = config.Mapping [].
Proof. reflexivity. Qed.

(** ** bedrock/guardrail.py: activation detection *)

Section activation.
Import guardrail.

Lemma scan_of_mappings (l : list json) :
  Forall is_dict l ->
  any_content_filtered l = Ok (existsb reason_is_filtered l).
Proof.
  induction 1 as [|m l Hm _ IH]; [reflexivity|].
  destruct m; try contradiction. simpl.
  unfold reason_is_filtered at 1. simpl.
  destruct (eq_str _ "CONTENT_FILTERED"); [reflexivity | exact IH].
Qed.

(** On a well-formed response the function returns, and its value is the
    disjunction of its three clauses. *)
Lemma is_guardrail_activated_value (d : dict) :
  results_well_formed d ->
  is_guardrail_activated (JDict d)
  = Ok (filtered_flag d
        || eq_str (field d "stopReason") "guardrail_intervened"
        || negb (eq_str (field d "amazon-bedrock-guardrailAction") "NONE")).
Proof.
  unfold results_well_formed, is_guardrail_activated, filtered_flag, item, field.
  simpl. destruct (lookup "results" d) as [r|] eqn:Hr; simpl.
  - intros (l & -> & Hl). simpl. rewrite (scan_of_mappings l Hl). simpl.
    destruct (existsb reason_is_filtered l); [reflexivity|]. simpl.
    destruct (eq_str _ "guardrail_intervened"); reflexivity.
  - intros _. destruct (eq_str _ "guardrail_intervened"); reflexivity.
Qed.

Lemma filtered_flag_of_entry (d : dict) :
  content_filtered d -> filtered_flag d = true.
Proof.
  intros (l & m & Hl & Hin & Hm). unfold filtered_flag. rewrite Hl.
  apply existsb_exists. exists (JDict m). split; [exact Hin|].
  unfold reason_is_filtered. simpl. rewrite Hm. reflexivity.
Qed.

(** C1: when the key [amazon-bedrock-guardrailAction] is absent the
    function returns [True] on every well-formed response mapping, whatever
    [results] and [stopReason] hold: [response.get(...)] is [None], and
    [None != "NONE"].  The claim asks for [False] when the other two
    clauses do not fire. *)
Theorem absent_action_counts_as_activated (d : dict) :
  results_well_formed d ->
  lookup "amazon-bedrock-guardrailAction" d = None ->
  is_guardrail_activated (JDict d) = Ok true.
Proof.
  intros Hwf Habs. rewrite (is_guardrail_activated_value d Hwf).
  unfold field. rewrite Habs. simpl.
  rewrite orb_true_r. reflexivity.
Qed.

Lemma absent_action_counts_as_activated_witness :
  is_guardrail_activated (JDict [("stopReason", JStr "end_turn")]) = Ok true.
Proof.
  apply absent_action_counts_as_activated; [exact I | reflexivity].
Defined.

(** C6: on a response mapping whose [results] entry, if any, is a list of
    mappings, [is_guardrail_activated] returns [True] (1) when some entry of
    [results] has [completionReason] ["CONTENT_FILTERED"], (2) when
    [stopReason] is ["guardrail_intervened"], (3) when
    [amazon-bedrock-guardrailAction] is present with a value other than the
    string ["NONE"]; and (4) it returns [False] on
    [{"amazon-bedrock-guardrailAction": "NONE"}]. *)
Theorem is_guardrail_activated_clauses :
  (forall d, results_well_formed d -> content_filtered d ->
     is_guardrail_activated (JDict d) = Ok true)
  /\ (forall d, results_well_formed d ->
        lookup "stopReason" d = Some (JStr "guardrail_intervened") ->
        is_guardrail_activated (JDict d) = Ok true)
  /\ (forall d v, results_well_formed d ->
        lookup "amazon-bedrock-guardrailAction" d = Some v ->
        v <> JStr "NONE" ->
        is_guardrail_activated (JDict d) = Ok true)
  /\ is_guardrail_activated
       (JDict [("amazon-bedrock-guardrailAction", JStr "NONE")]) = Ok false.
Proof.
  repeat split.
  - intros d Hwf Hf. rewrite (is_guardrail_activated_value d Hwf).
    rewrite (filtered_flag_of_entry d Hf). reflexivity.
  - intros d Hwf Hs. rewrite (is_guardrail_activated_value d Hwf).
    unfold field. rewrite Hs. simpl. rewrite orb_true_r. reflexivity.
  - intros d v Hwf Ha Hv. rewrite (is_guardrail_activated_value d Hwf).
    unfold field at 2. rewrite Ha.
    assert (E : eq_str v "NONE" = false).
    { destruct v; try reflexivity. simpl.
      destruct (String.eqb_spec s "NONE"); [subst; congruence | reflexivity]. }
    rewrite E. simpl. rewrite orb_true_r. reflexivity.
Qed.

Lemma is_guardrail_activated_clauses_witness :
  is_guardrail_activated
    (JDict [("results", JList [JDict [("completionReason", JStr "CONTENT_FILTERED")]])])
  = Ok true
  /\ is_guardrail_activated (JDict [("stopReason", JStr "guardrail_intervened")])
     = Ok true
  /\ is_guardrail_activated
       (JDict [("amazon-bedrock-guardrailAction", JStr "INTERVENED")]) = Ok true.
Proof.
  destruct is_guardrail_activated_clauses as (H1 & H2 & H3 & _).
  split; [|split].
  - apply H1.
    + simpl. eexists. split; [reflexivity|]. repeat constructor.
    + exists [JDict [("completionReason", JStr "CONTENT_FILTERED")]],
        [("completionReason", JStr "CONTENT_FILTERED")].
      split; [reflexivity|]. split; [left; reflexivity | reflexivity].
  - apply H2; [exact I | reflexivity].
  - apply (H3 _ (JStr "INTERVENED")); [exact I | reflexivity | discriminate].
Defined.

End activation.

(** ** bedrock/guardrail.py: the two response shapes *)

Section extraction.
Import guardrail.
Context {SA : SpanAttributes}.

Lemma bind_lift_ok {A B} (a : A) (k : A -> M B) :
  bind (lift (Ok a)) k = k a.
Proof. unfold bind, lift. destruct (k a). reflexivity. Qed.

Lemma bind_ret_l {A B} (a : A) (k : A -> M B) : bind (ret a) k = k a.
Proof. exact (bind_lift_ok a k). Qed.

Lemma bind_assoc {A B D} (m : M A) (k : A -> M B) (h : B -> M D) :
  bind (bind m k) h = bind m (fun a => bind (k a) h).
Proof.
  destruct m as [[a|e] w]; simpl; [|reflexivity].
  destruct (k a) as [[b|e] w1]; simpl; [|reflexivity].
  destruct (h b) as [r w2]. rewrite app_assoc. reflexivity.
Qed.

Lemma bind_ext {A B} (m : M A) (k k' : A -> M B) :
  (forall a, k a = k' a) -> bind m k = bind m k'.
Proof.
  intros H. destruct m as [[a|e] w]; simpl; [rewrite H|]; reflexivity.
Qed.

Lemma lookup_dict_set_same {V} (k : string) (v : V) (d : list (string * V)) :
  lookup k (dict_set k v d) = Some v.
Proof.
  induction d as [|[k' v'] d IH]; simpl.
  - rewrite String.eqb_refl. reflexivity.
  - destruct (String.eqb k k') eqn:E; simpl; rewrite ?String.eqb_refl, ?E; auto.
Qed.

Lemma lookup_dict_set_other {V} (k k' : string) (v : V) (d : list (string * V)) :
  k <> k' -> lookup k (dict_set k' v d) = lookup k d.
Proof.
  intros Hne. induction d as [|[k0 v0] d IH]; simpl.
  - destruct (String.eqb_spec k k'); [contradiction | reflexivity].
  - destruct (String.eqb_spec k' k0) as [->|Hk]; simpl.
    + destruct (String.eqb_spec k k0); [contradiction | reflexivity].
    + destruct (String.eqb k k0); [reflexivity | exact IH].
Qed.

Lemma contains_nested_dicts (k1 k2 : string) (d inner : dict) (x : json) :
  lookup k1 d = Some (JDict inner) -> lookup k2 inner = Some x ->
  contains_nested k1 k2 (JDict d) = Ok true.
Proof.
  intros H1 H2. unfold contains_nested, item. simpl. rewrite H1. simpl.
  rewrite H2. reflexivity.
Qed.

Lemma contains_nested_absent (k1 k2 : string) (d inner : dict) :
  lookup k1 d = Some (JDict inner) -> lookup k2 inner = None ->
  contains_nested k1 k2 (JDict d) = Ok false.
Proof.
  intros H1 H2. unfold contains_nested, item. simpl. rewrite H1. simpl.
  rewrite H2. reflexivity.
Qed.

Lemma item_dict (d : dict) (k : string) (x : json) :
  lookup k d = Some x -> item (JDict d) k = Ok x.
Proof. intros H. unfold item. simpl. rewrite H. reflexivity. Qed.

(** The loop of [guardrail_handling] never looks into an entry beyond its
    first key. *)
Lemma outputs_loop_first_entry (first : json) (tail entries : list json)
  (attrs : dict) :
  outputs_loop (JList (first :: tail)) entries attrs
  = outputs_from_first_entry first (map next_iter entries) attrs.
Proof.
  revert attrs. induction entries as [|output rest IH]; intros attrs.
  - reflexivity.
  - cbn [outputs_loop outputs_from_first_entry map].
    destruct (next_iter output) as [g_id|e]; [|reflexivity].
    rewrite !bind_lift_ok.
    change (subscript (JList (first :: tail)) (JInt 0)) with (Ok first).
    rewrite bind_lift_ok.
    destruct (subscript first g_id) as [info|e]; [|reflexivity].
    rewrite !bind_lift_ok. rewrite IH. reflexivity.
Qed.

(** C8: when the payload holds [amazon-bedrock-guardrailAction] and
    [amazon-bedrock-trace.guardrail.outputs] is a list, [guardrail_handling]
    runs, after the [input] block, one round per entry of the list; a round
    takes its guardrail id from the first key of its own entry
    ([next(iter(entry))]), writes it into [attrs] under [gen_ai.guardrail],
    and processes as direction OUTPUT the assessment found under that id in
    the first entry of the list.  Beyond its first key no entry but the
    first is read. *)
Theorem guardrail_handling_outputs_use_first_entry
  (d t g : dict) (action first : json) (rest : list json) (vendor model : json) :
  lookup "amazon-bedrock-guardrailAction" d = Some action ->
  lookup "amazon-bedrock-trace" d = Some (JDict t) ->
  lookup "guardrail" t = Some (JDict g) ->
  lookup "outputs" g = Some (JList (first :: rest)) ->
  guardrail_handling (JDict d) vendor model
  = (attrs <- invoke_input (JDict t) (base_attrs vendor model) ;;
     attrs <- outputs_from_first_entry first
                (map next_iter (first :: rest)) attrs ;;
     count_activation (JDict d) attrs).
Proof.
  intros Ha Ht Hg Ho. unfold guardrail_handling.
  cbn [contains]. rewrite Ha, Ht. rewrite !bind_lift_ok.
  rewrite (item_dict d _ _ Ht). rewrite bind_assoc, bind_lift_ok, bind_assoc.
  assert (E : forall attrs,
             invoke_outputs (JDict t) attrs
             = outputs_from_first_entry first (map next_iter (first :: rest)) attrs).
  { intros attrs. unfold invoke_outputs.
    rewrite (contains_nested_dicts _ _ t g _ Hg Ho), bind_lift_ok.
    rewrite (item_dict t _ _ Hg), bind_lift_ok.
    rewrite (item_dict g _ _ Ho), bind_lift_ok.
    cbn [iter]. rewrite bind_lift_ok.
    apply outputs_loop_first_entry. }
  apply bind_ext. intros attrs. rewrite E. reflexivity.
Qed.

(** *** Which instrument a block records on *)

Lemma recorded_on_bind (i : instrument) {A B} (m : M A) (k : A -> M B) :
  recorded_on i (bind m k)
  = (recorded_on i m
     ++ match fst m with
        | Ok a => recorded_on i (k a)
        | Raise _ => []
        end)%list.
Proof.
  unfold recorded_on. destruct m as [[a|e] w]; simpl.
  - destruct (k a) as [r w']. simpl. apply filter_app.
  - rewrite app_nil_r. reflexivity.
Qed.

Lemma silent_bind (i : instrument) {A B} (m : M A) (k : A -> M B) :
  silent_on i m -> (forall a, silent_on i (k a)) -> silent_on i (bind m k).
Proof.
  unfold silent_on. intros Hm Hk. rewrite recorded_on_bind, Hm.
  destruct (fst m); [apply Hk | reflexivity].
Qed.

Lemma silent_lift (i : instrument) {A} (r : result A) : silent_on i (lift r).
Proof. reflexivity. Qed.

Lemma silent_ret (i : instrument) {A} (a : A) : silent_on i (ret a).
Proof. reflexivity. Qed.

Lemma silent_emit (i j : instrument) (n : json) (attrs : dict) :
  instrument_eqb j i = false -> silent_on i (emit j n attrs).
Proof. intros H. unfold silent_on, recorded_on. simpl. rewrite H. reflexivity. Qed.

Lemma silent_for_each (i : instrument) (items : list json) (body : json -> M unit) :
  (forall x, silent_on i (body x)) -> silent_on i (for_each items body).
Proof.
  intros Hb. induction items as [|x rest IH]; simpl.
  - apply silent_ret.
  - apply silent_bind; [apply Hb | intros _; exact IH].
Qed.

Ltac silent :=
  repeat first
    [ apply silent_lift
    | apply silent_ret
    | apply silent_emit; reflexivity
    | apply silent_for_each; intros ?
    | apply silent_bind; [|intros ?]
    | match goal with
      | |- silent_on _ (if ?b then _ else _) => destruct b
      end ].

Lemma handle_topic_silent (t : Type_) (a : json) (attrs : dict) :
  silent_on guardrail_sensitive_info (handle_topic t a attrs).
Proof. unfold handle_topic, count_entry. silent. Qed.

Lemma handle_content_silent (t : Type_) (a : json) (attrs : dict) :
  silent_on guardrail_sensitive_info (handle_content t a attrs).
Proof. unfold handle_content. silent. Qed.

Lemma handle_words_silent (t : Type_) (a : json) (attrs : dict) :
  silent_on guardrail_sensitive_info (handle_words t a attrs).
Proof. unfold handle_words, count_entry. silent. Qed.

Lemma count_activation_silent (response : json) (attrs : dict) :
  silent_on guardrail_sensitive_info (count_activation response attrs).
Proof. unfold count_activation. silent. Qed.

(** An assessment whose [sensitiveInformationPolicy] holds one PII entity
    and no [regexes]: one recording. *)
Lemma handle_sensitive_one_entity (t : Type_) (ad p e : dict) (type : json)
  (attrs : dict) :
  lookup "sensitiveInformationPolicy" ad = Some (JDict p) ->
  lookup "piiEntities" p = Some (JList [JDict e]) ->
  lookup "type" e = Some type ->
  lookup "regexes" p = None ->
  handle_sensitive t (JDict ad) attrs
  = emit guardrail_sensitive_info (JInt 1) (pii_attributes t type attrs).
Proof.
  intros Hp He Ht Hr. unfold handle_sensitive.
  cbn [contains]. rewrite Hp, bind_lift_ok.
  rewrite (item_dict ad _ _ Hp), bind_lift_ok.
  cbn [contains]. rewrite He, Hr, bind_lift_ok.
  rewrite (item_dict p _ _ He), bind_lift_ok.
  cbn [iter]. rewrite bind_lift_ok.
  cbn [for_each]. unfold count_entry.
  rewrite (item_dict e _ _ Ht), bind_lift_ok.
  reflexivity.
Qed.

Lemma handle_invoke_metrics_absent (t : Type_) (ad : dict) (attrs : dict) :
  lookup "invocationMetrics" ad = None ->
  handle_invoke_metrics t (JDict ad) attrs = ret tt.
Proof.
  intros H. unfold handle_invoke_metrics. cbn [contains]. rewrite H.
  rewrite bind_lift_ok. reflexivity.
Qed.

End extraction.

Section extraction_runs.
Import guardrail.

Lemma guardrail_handling_outputs_use_first_entry_witness :
  guardrail_handling (SA := semconv)
    (invoke_payload [JDict [("g1", pii "EMAIL")]; JDict [("g1", pii "PHONE")]])
    (JStr "aws") (JStr "titan")
  = (attrs <- invoke_input (SA := semconv)
                (JDict [("guardrail",
                         JDict [("outputs",
                                 JList [JDict [("g1", pii "EMAIL")];
                                        JDict [("g1", pii "PHONE")]])])])
                (base_attrs (SA := semconv) (JStr "aws") (JStr "titan")) ;;
     attrs <- outputs_from_first_entry (SA := semconv)
                (JDict [("g1", pii "EMAIL")])
                (map next_iter [JDict [("g1", pii "EMAIL")];
                                JDict [("g1", pii "PHONE")]]) attrs ;;
     count_activation
       (invoke_payload [JDict [("g1", pii "EMAIL")]; JDict [("g1", pii "PHONE")]])
       attrs).
Proof.
  apply (guardrail_handling_outputs_use_first_entry (SA := semconv)) with
    (action := JStr "INTERVENED")
    (g := [("outputs", JList [JDict [("g1", pii "EMAIL")];
                              JDict [("g1", pii "PHONE")]])]);
    reflexivity.
Defined.

(** The whole run on that response: one recording on the sensitive-info
    counter, then the activation count, both carrying the guardrail id. *)
Example converse_email_run :
  guardrail_converse (SA := semconv)
    (JDict (converse_payload [("g1", pii "EMAIL")])) (JStr "aws") (JStr "titan")
  = (Ok tt,
     [ {| target := guardrail_sensitive_info;
          amount := JInt 1;
          attributes := [("gen_ai.vendor", JStr "aws");
                         ("gen_ai.response.model", JStr "titan");
                         ("gen_ai.system", JStr "bedrock");
                         ("gen_ai.guardrail", JStr "g1");
                         ("gen_ai.guardrail.type", JStr "input");
                         ("gen_ai.guardrail.pii", JStr "EMAIL")] |};
       {| target := guardrail_counter;
          amount := JInt 1;
          attributes := [("gen_ai.vendor", JStr "aws");
                         ("gen_ai.response.model", JStr "titan");
                         ("gen_ai.system", JStr "bedrock");
                         ("gen_ai.guardrail", JStr "g1")] |} ]).
Proof. vm_compute. reflexivity. Qed.

(** A converse response that no guardrail touched still increments the
    activation counter: the key [amazon-bedrock-guardrailAction] is absent. *)
Example converse_untouched_counts :
  guardrail_converse (SA := semconv)
    (JDict [("stopReason", JStr "end_turn")]) (JStr "aws") (JStr "titan")
  = (Ok tt,
     [ {| target := guardrail_counter;
          amount := JInt 1;
          attributes := [("gen_ai.vendor", JStr "aws");
                         ("gen_ai.response.model", JStr "titan");
                         ("gen_ai.system", JStr "bedrock")] |} ]).
Proof. vm_compute. reflexivity. Qed.

(** Two entries under the same id: the EMAIL entity of the first entry is
    counted twice, the PHONE entity of the second never. *)
Example outputs_same_id_counts_first_twice :
  map (fun r => lookup "gen_ai.guardrail.pii" (attributes r))
    (recorded_on guardrail_sensitive_info
       (guardrail_handling (SA := semconv)
          (invoke_payload [JDict [("g1", pii "EMAIL")]; JDict [("g1", pii "PHONE")]])
          (JStr "aws") (JStr "titan")))
  = [Some (JStr "EMAIL"); Some (JStr "EMAIL")].
Proof. vm_compute. reflexivity. Qed.

(** Two entries under different ids: the second id is not a key of the
    first entry, and the lookup raises after the first round. *)
Example outputs_other_id_raises :
  fst (guardrail_handling (SA := semconv)
         (invoke_payload [JDict [("g1", pii "EMAIL")]; JDict [("g2", pii "PHONE")]])
         (JStr "aws") (JStr "titan"))
  = Raise KeyError.
Proof. vm_compute. reflexivity. Qed.

End extraction_runs.

(** ** decorators/base.py: the content-tracing switch *)

Section content_tracing.
Import base decorated.

(** C4, as stated: a set but empty variable would disable capture.  The
    code reads [os.getenv(...) or "true"], and the empty string is false. *)
Lemma empty_variable_enables_content :
  ~ (forall st, truthy (_should_send_prompts st) = true <-> enabled_as_specified st).
Proof.
  intros H.
  destruct (H (surroundings true (Some "") JNone)) as [H1 _].
  destruct (H1 eq_refl) as [[E | (v & E & L)] | E]; simpl in *.
  - discriminate E.
  - injection E as <-. discriminate L.
  - discriminate E.
Qed.

(** C4, amended: content tracing is enabled exactly when the environment
    variable is unset, or set to the empty string, or set to a value that
    lower-cases to ["true"], or the ambient [override_enable_content_tracing]
    value is truthy.  For every other (non-empty) value of the variable and
    no truthy override, capture is disabled. *)
Theorem content_tracing_enabled_iff (st : state) :
  truthy (_should_send_prompts st) = true <-> enabled_as_coded st.
Proof.
  unfold _should_send_prompts, enabled_as_coded, says_true, or_default.
  destruct (TRACELOOP_TRACE_CONTENT st) as [v|].
  - destruct (String.eqb_spec v "") as [->|Hv].
    + simpl. split; [intros _; left; right; left; reflexivity | reflexivity].
    + destruct (String.eqb_spec (lower v) "true") as [L|L].
      * split; [intros _; left; right; right; exists v; split; auto | reflexivity].
      * split.
        -- intros E. right. exact E.
        -- intros [[E | [E | (v' & E & L')]] | E].
           ++ discriminate E.
           ++ injection E as ->. contradiction.
           ++ injection E as <-. contradiction.
           ++ exact E.
  - simpl. split; [intros _; left; left; reflexivity | reflexivity].
Qed.

Lemma content_tracing_enabled_iff_witness :
  truthy (_should_send_prompts (surroundings true (Some "false") JNone)) = false
  /\ truthy (_should_send_prompts (surroundings true (Some "TRUE") JNone)) = true
  /\ truthy (_should_send_prompts (surroundings true (Some "false") (JBool true))) = true.
Proof.
  split; [|split].
  - destruct (truthy (_should_send_prompts (surroundings true (Some "false") JNone)))
      eqn:E; [|reflexivity].
    apply content_tracing_enabled_iff in E.
    destruct E as [[E | [E | (v & E & L)]] | E]; simpl in *;
      try discriminate E.
    injection E as <-. discriminate L.
  - apply content_tracing_enabled_iff. left. right. right.
    exists "TRUE". split; reflexivity.
  - apply content_tracing_enabled_iff. right. reflexivity.
Defined.

End content_tracing.

(** ** decorators/base.py: the wrappers *)

Section wrappers.
Import base decorated.
Context {C : Collaborators}.

(** Synchronous bypass: with tracing not initialized the decorated callable
    is the wrapped one, as a function of arguments and state: same value or
    same exception, same final state, hence no call on the tracing API. *)
Lemma entity_method_bypass name version tlp_span_kind fn args kwargs st :
  initialized st = false ->
  call (entity_method name version tlp_span_kind fn) args kwargs st
  = call fn args kwargs st.
Proof.
  intros H. cbn [call entity_method]. unfold bind at 1, verify_initialized.
  rewrite H. reflexivity.
Qed.

(** Asynchronous bypass on a coroutine function: awaiting the wrapper's
    coroutine is awaiting the wrapped function's. *)
Lemma aentity_method_bypass_coroutine name version tlp_span_kind fn args kwargs
  st c st' :
  initialized st = false ->
  call fn args kwargs st = (Ok (PCoroutine c), st') ->
  aentity_wrap name version tlp_span_kind fn args kwargs st = c st'.
Proof.
  intros H Hc. unfold aentity_wrap. unfold bind at 1, verify_initialized.
  rewrite H. cbn [negb]. unfold bind. rewrite Hc. reflexivity.
Qed.

(** C5: with tracing not initialized, a function decorated by
    [aentity_method] whose call returns an asynchronous generator does not
    hand that generator on: the bypass line awaits it, and [await] on an
    asynchronous generator raises [TypeError].  (The initialized branch
    tests for [AsyncGeneratorType] before awaiting.) *)
Theorem aentity_method_bypass_awaits_async_generator
  name version tlp_span_kind fn args kwargs st g st' :
  initialized st = false ->
  call fn args kwargs st = (Ok (PAsyncGenerator g), st') ->
  aentity_wrap name version tlp_span_kind fn args kwargs st
  = (Raise TypeError, st').
Proof.
  intros H Hc. unfold aentity_wrap. unfold bind at 1, verify_initialized.
  rewrite H. cbn [negb]. unfold bind. rewrite Hc. reflexivity.
Qed.

Lemma open_entity_span_enter {A} entity_name version k
  (cont : span -> token -> T A) st :
  open_entity_span entity_name version (Some k) cont st
  = let '(s, t, st_in) := enter entity_name version k st in
    let (r, st') := cont s t st_in in
    (r, log tracer_exit st').
Proof.
  unfold open_entity_span, enter, with_tracer, bind, api, lift, ret,
    tracer_start_span, context_attach.
  destruct k; cbn [kind_in existsb kind_eqb orb span_kind_value];
    destruct (version_set version); reflexivity.
Qed.

Lemma capture_value enc s key o st :
  capture enc s key o st
  = if truthy (_should_send_prompts st) then
      match json_dumps enc o with
      | Ok json_str => (Ok tt, attach_if_valid s key json_str st)
      | Raise TypeError => (Ok tt, log (log_exception TypeError) st)
      | Raise e => (Raise e, st)
      end
    else (Ok tt, st).
Proof.
  unfold capture, try_except_TypeError, attach_if_valid, bind, lift, api, ret.
  destruct (truthy (_should_send_prompts st)); [|reflexivity].
  destruct (json_dumps enc o) as [js|[]]; try reflexivity.
  destruct (_is_json_size_valid js); reflexivity.
Qed.

(** The tail of both wrappers: output block, then lines 95-98 (198-201),
    then leaving the [with] block. *)
Lemma finish_value enc s t res st :
  (let (r, st') :=
     (capture enc s TRACELOOP_ENTITY_OUTPUT res ;;
      api (span_end s) ;;
      api (detach t) ;;
      ret res) st in
   (r, log tracer_exit st'))
  = match capture enc s TRACELOOP_ENTITY_OUTPUT res st with
    | (Raise e, st3) => (Raise e, log tracer_exit st3)
    | (Ok _, st3) => (Ok res, close s t st3)
    end.
Proof.
  unfold bind at 1.
  destruct (capture enc s TRACELOOP_ENTITY_OUTPUT res st) as [[[]|e] st3];
    reflexivity.
Qed.

(** The initialized synchronous wrapper, block by block. *)
Lemma entity_method_run name version k fn args kwargs st :
  initialized st = true ->
  call (entity_method name version (Some k) fn) args kwargs st
  = let '(s, t, st_in) := enter (name_or name (__name__ fn)) version k st in
    match capture JSONEncoder s TRACELOOP_ENTITY_INPUT
            (input_object args kwargs) st_in with
    | (Raise e, st1) => (Raise e, log tracer_exit st1)
    | (Ok _, st1) =>
        match call fn args kwargs st1 with
        | (Raise e, st2) => (Raise e, log tracer_exit st2)
        | (Ok res, st2) =>
            match res with
            | PGenerator g =>
                (Ok (PGenerator (_handle_generator s g)), log tracer_exit st2)
            | _ =>
                match capture JSONEncoder s TRACELOOP_ENTITY_OUTPUT res st2 with
                | (Raise e, st3) => (Raise e, log tracer_exit st3)
                | (Ok _, st3) => (Ok res, close s t st3)
                end
            end
        end
    end.
Proof.
  intros H. cbn [call entity_method]. unfold bind at 1, verify_initialized.
  rewrite H. cbn [negb]. rewrite open_entity_span_enter.
  destruct (enter (name_or name (__name__ fn)) version k st) as [[s t] st_in].
  fold (capture JSONEncoder s TRACELOOP_ENTITY_INPUT (input_object args kwargs)).
  unfold bind at 1.
  destruct (capture JSONEncoder s TRACELOOP_ENTITY_INPUT
              (input_object args kwargs) st_in) as [[[]|e] st1]; [|reflexivity].
  unfold bind at 1.
  destruct (call fn args kwargs st1) as [[res|e] st2]; [|reflexivity].
  destruct res;
    try exact (finish_value JSONEncoder s t _ st2).
  reflexivity.
Qed.

(** The initialized asynchronous wrapper, block by block. *)
Lemma aentity_wrap_run name version k fn args kwargs st :
  initialized st = true ->
  aentity_wrap name version (Some k) fn args kwargs st
  = let '(s, t, st_in) := enter (name_or name (__name__ fn)) version k st in
    match capture DefaultEncoder s TRACELOOP_ENTITY_INPUT
            (input_object args kwargs) st_in with
    | (Raise e, st1) => (Raise e, log tracer_exit st1)
    | (Ok _, st1) =>
        match call fn args kwargs st1 with
        | (Raise e, st2) => (Raise e, log tracer_exit st2)
        | (Ok res, st2) =>
            match res with
            | PAsyncGenerator g =>
                (Ok (PAsyncGenerator (_ahandle_generator s t g)),
                 log tracer_exit st2)
            | _ =>
                match await res st2 with
                | (Raise e, st3) => (Raise e, log tracer_exit st3)
                | (Ok res, st3) =>
                    match capture DefaultEncoder s TRACELOOP_ENTITY_OUTPUT res st3 with
                    | (Raise e, st4) => (Raise e, log tracer_exit st4)
                    | (Ok _, st4) => (Ok res, close s t st4)
                    end
                end
            end
        end
    end.
Proof.
  intros H. unfold aentity_wrap. unfold bind at 1, verify_initialized.
  rewrite H. cbn [negb]. rewrite open_entity_span_enter.
  destruct (enter (name_or name (__name__ fn)) version k st) as [[s t] st_in].
  fold (capture DefaultEncoder s TRACELOOP_ENTITY_INPUT (input_object args kwargs)).
  unfold bind at 1.
  destruct (capture DefaultEncoder s TRACELOOP_ENTITY_INPUT
              (input_object args kwargs) st_in) as [[[]|e] st1]; [|reflexivity].
  unfold bind at 1.
  destruct (call fn args kwargs st1) as [[res|e] st2]; [|reflexivity].
  destruct res;
    try (unfold bind at 1;
         match goal with
         | |- context [await ?o ?st] =>
             destruct (await o st) as [[res'|?] st3];
             [exact (finish_value DefaultEncoder s t res' st3) | reflexivity]
         end).
  reflexivity.
Qed.

Lemma enter_reads entity_name version k st :
  _should_send_prompts (snd (enter entity_name version k st))
  = _should_send_prompts st.
Proof.
  unfold enter. destruct k; cbn [kind_in existsb kind_eqb orb];
    destruct (version_set version); reflexivity.
Qed.

Lemma capture_caught enc s key o st :
  truthy (_should_send_prompts st) = true ->
  caught (json_dumps enc o) ->
  capture enc s key o st = (Ok tt, after_capture s key (json_dumps enc o) st).
Proof.
  intros Hs Hc. rewrite capture_value, Hs.
  destruct (json_dumps enc o) as [js|e]; [reflexivity|].
  simpl in Hc. subst e. reflexivity.
Qed.

(** A plain-returning call through the initialized synchronous wrapper,
    when both serializations end in a string or a [TypeError]. *)
Lemma entity_method_captures name version k fn args kwargs st s t st_in res st2 :
  initialized st = true ->
  enter (name_or name (__name__ fn)) version k st = (s, t, st_in) ->
  truthy (_should_send_prompts st) = true ->
  caught (json_dumps JSONEncoder (input_object args kwargs)) ->
  call fn args kwargs
    (after_capture s TRACELOOP_ENTITY_INPUT
       (json_dumps JSONEncoder (input_object args kwargs)) st_in) = (Ok res, st2) ->
  is_generator res = false ->
  truthy (_should_send_prompts st2) = true ->
  caught (json_dumps JSONEncoder res) ->
  call (entity_method name version (Some k) fn) args kwargs st
  = (Ok res,
     close s t (after_capture s TRACELOOP_ENTITY_OUTPUT
                  (json_dumps JSONEncoder res) st2)).
Proof.
  intros Hi He Hs Hin Hfn Hg Hs2 Hout.
  rewrite (entity_method_run name version k fn args kwargs st Hi), He.
  assert (Hs' : truthy (_should_send_prompts st_in) = true).
  { rewrite <- Hs, <- (enter_reads (name_or name (__name__ fn)) version k st), He.
    reflexivity. }
  rewrite (capture_caught _ _ _ _ _ Hs' Hin), Hfn.
  rewrite (capture_caught _ _ _ _ _ Hs2 Hout).
  destruct res; try reflexivity. discriminate Hg.
Qed.

(** The same through the asynchronous wrapper, for a call that returns a
    coroutine which completes with [res]. *)
Lemma aentity_wrap_captures name version k fn args kwargs st s t st_in
  c st2 res st3 :
  initialized st = true ->
  enter (name_or name (__name__ fn)) version k st = (s, t, st_in) ->
  truthy (_should_send_prompts st) = true ->
  caught (json_dumps DefaultEncoder (input_object args kwargs)) ->
  call fn args kwargs
    (after_capture s TRACELOOP_ENTITY_INPUT
       (json_dumps DefaultEncoder (input_object args kwargs)) st_in)
  = (Ok (PCoroutine c), st2) ->
  c st2 = (Ok res, st3) ->
  truthy (_should_send_prompts st3) = true ->
  caught (json_dumps DefaultEncoder res) ->
  aentity_wrap name version (Some k) fn args kwargs st
  = (Ok res,
     close s t (after_capture s TRACELOOP_ENTITY_OUTPUT
                  (json_dumps DefaultEncoder res) st3)).
Proof.
  intros Hi He Hs Hin Hfn Hc Hs3 Hout.
  rewrite (aentity_wrap_run name version k fn args kwargs st Hi), He.
  assert (Hs' : truthy (_should_send_prompts st_in) = true).
  { rewrite <- Hs, <- (enter_reads (name_or name (__name__ fn)) version k st), He.
    reflexivity. }
  rewrite (capture_caught _ _ _ _ _ Hs' Hin), Hfn.
  cbn [await]. rewrite Hc.
  rewrite (capture_caught _ _ _ _ _ Hs3 Hout). reflexivity.
Qed.

Lemma length_padding (n : nat) : String.length (padding n) = n.
Proof. induction n as [|n IH]; simpl; [|rewrite IH]; reflexivity. Qed.

Lemma capture_total enc s key o st :
  (forall enc o e, json_dumps enc o = Raise e -> e = TypeError) ->
  exists st', capture enc s key o st = (Ok tt, st').
Proof.
  intros Honly. rewrite capture_value.
  destruct (truthy (_should_send_prompts st)); [|eexists; reflexivity].
  destruct (json_dumps enc o) as [js|e] eqn:E; [eexists; reflexivity|].
  rewrite (Honly _ _ _ E). eexists; reflexivity.
Qed.

Lemma capture_escapes enc s key o st e :
  truthy (_should_send_prompts st) = true ->
  json_dumps enc o = Raise e ->
  e <> TypeError ->
  capture enc s key o st = (Raise e, st).
Proof.
  intros Hs Hr Hne. rewrite capture_value, Hs, Hr.
  destruct e; try reflexivity. contradiction.
Qed.

(** C7: a serialized payload is attached exactly when its length is below
    1,000,000 characters.  (1) The guard accepts a string iff its length is
    less than 1,000,000.  (2) Through the initialized synchronous wrapper,
    with content tracing on and both serializations succeeding, the wrapped
    callable runs on the state in which the input string has been attached
    verbatim if the guard accepts it and nothing has been written
    otherwise; the call returns the callable's value, and the output string
    is attached under the same guard before the span ends.  (3) The same
    through the asynchronous wrapper.  No error arises from a rejected
    payload and nothing shorter is written in its place. *)
Theorem size_guard_on_span_payloads :
  (forall json_str,
     _is_json_size_valid json_str = true
     <-> (N.of_nat (String.length json_str) < 1000000)%N)
  /\ (forall name version k fn args kwargs st s t st_in json_input
        res st2 json_output,
        initialized st = true ->
        enter (name_or name (__name__ fn)) version k st = (s, t, st_in) ->
        truthy (_should_send_prompts st) = true ->
        json_dumps JSONEncoder (input_object args kwargs) = Ok json_input ->
        call fn args kwargs
          (attach_if_valid s TRACELOOP_ENTITY_INPUT json_input st_in)
        = (Ok res, st2) ->
        is_generator res = false ->
        truthy (_should_send_prompts st2) = true ->
        json_dumps JSONEncoder res = Ok json_output ->
        call (entity_method name version (Some k) fn) args kwargs st
        = (Ok res,
           close s t (attach_if_valid s TRACELOOP_ENTITY_OUTPUT json_output st2)))
  /\ (forall name version k fn args kwargs st s t st_in json_input
        c st2 res st3 json_output,
        initialized st = true ->
        enter (name_or name (__name__ fn)) version k st = (s, t, st_in) ->
        truthy (_should_send_prompts st) = true ->
        json_dumps DefaultEncoder (input_object args kwargs) = Ok json_input ->
        call fn args kwargs
          (attach_if_valid s TRACELOOP_ENTITY_INPUT json_input st_in)
        = (Ok (PCoroutine c), st2) ->
        c st2 = (Ok res, st3) ->
        truthy (_should_send_prompts st3) = true ->
        json_dumps DefaultEncoder res = Ok json_output ->
        aentity_wrap name version (Some k) fn args kwargs st
        = (Ok res,
           close s t (attach_if_valid s TRACELOOP_ENTITY_OUTPUT json_output st3))).
Proof.
  split; [|split].
  - intros js. unfold _is_json_size_valid. apply N.ltb_lt.
  - intros name version k fn args kwargs st s t st_in js_in res st2 js_out
      Hi He Hs Hin Hfn Hg Hs2 Hout.
    generalize (entity_method_captures name version k fn args kwargs
                  st s t st_in res st2 Hi He Hs).
    rewrite Hin, Hout. intros H. exact (H I Hfn Hg Hs2 I).
  - intros name version k fn args kwargs st s t st_in js_in c st2 res st3 js_out
      Hi He Hs Hin Hfn Hc Hs3 Hout.
    generalize (aentity_wrap_captures name version k fn args kwargs
                  st s t st_in c st2 res st3 Hi He Hs).
    rewrite Hin, Hout. intros H. exact (H I Hfn Hc Hs3 I).
Qed.

(** C3, amended: a [TypeError] raised while serializing the input or the
    output is caught in the wrapper, handed to [Telemetry().log_exception],
    and suppressed.  (1) With a serializer that raises nothing but
    [TypeError], decorating a callable that never raises gives a call that
    never raises.  (2) When the input serialization raises [TypeError], the
    wrapped callable still runs, on the state where the exception has been
    logged and no input attribute written, and its value is returned.
    (3) When the output serialization raises [TypeError], the value is
    returned all the same, the exception logged, no output attribute
    written, the span ended.  (4), (5): the same two through the
    asynchronous wrapper.  An exception of any other class is not caught:
    (6) raised while the input is serialized it leaves the synchronous
    wrapper at once, the wrapped callable not invoked and the span left
    open; (7) raised while the output is serialized it leaves the wrapper
    in place of the value the callable returned; (8), (9): the same two
    through the asynchronous wrapper. *)
Theorem type_errors_logged_and_suppressed :
  (forall name version k fn args kwargs st,
     (forall enc o e, json_dumps enc o = Raise e -> e = TypeError) ->
     initialized st = true ->
     never_raises fn ->
     exists v st',
       call (entity_method name version (Some k) fn) args kwargs st = (Ok v, st'))
  /\ (forall name version k fn args kwargs st s t st_in res st2,
        initialized st = true ->
        enter (name_or name (__name__ fn)) version k st = (s, t, st_in) ->
        truthy (_should_send_prompts st) = true ->
        json_dumps JSONEncoder (input_object args kwargs) = Raise TypeError ->
        call fn args kwargs (log (log_exception TypeError) st_in) = (Ok res, st2) ->
        is_generator res = false ->
        truthy (_should_send_prompts st2) = true ->
        caught (json_dumps JSONEncoder res) ->
        call (entity_method name version (Some k) fn) args kwargs st
        = (Ok res,
           close s t (after_capture s TRACELOOP_ENTITY_OUTPUT
                        (json_dumps JSONEncoder res) st2)))
  /\ (forall name version k fn args kwargs st s t st_in res st2,
        initialized st = true ->
        enter (name_or name (__name__ fn)) version k st = (s, t, st_in) ->
        truthy (_should_send_prompts st) = true ->
        caught (json_dumps JSONEncoder (input_object args kwargs)) ->
        call fn args kwargs
          (after_capture s TRACELOOP_ENTITY_INPUT
             (json_dumps JSONEncoder (input_object args kwargs)) st_in)
        = (Ok res, st2) ->
        is_generator res = false ->
        truthy (_should_send_prompts st2) = true ->
        json_dumps JSONEncoder res = Raise TypeError ->
        call (entity_method name version (Some k) fn) args kwargs st
        = (Ok res, close s t (log (log_exception TypeError) st2)))
  /\ (forall name version k fn args kwargs st s t st_in c st2 res st3,
        initialized st = true ->
        enter (name_or name (__name__ fn)) version k st = (s, t, st_in) ->
        truthy (_should_send_prompts st) = true ->
        json_dumps DefaultEncoder (input_object args kwargs) = Raise TypeError ->
        call fn args kwargs (log (log_exception TypeError) st_in)
        = (Ok (PCoroutine c), st2) ->
        c st2 = (Ok res, st3) ->
        truthy (_should_send_prompts st3) = true ->
        caught (json_dumps DefaultEncoder res) ->
        aentity_wrap name version (Some k) fn args kwargs st
        = (Ok res,
           close s t (after_capture s TRACELOOP_ENTITY_OUTPUT
                        (json_dumps DefaultEncoder res) st3)))
  /\ (forall name version k fn args kwargs st s t st_in c st2 res st3,
        initialized st = true ->
        enter (name_or name (__name__ fn)) version k st = (s, t, st_in) ->
        truthy (_should_send_prompts st) = true ->
        caught (json_dumps DefaultEncoder (input_object args kwargs)) ->
        call fn args kwargs
          (after_capture s TRACELOOP_ENTITY_INPUT
             (json_dumps DefaultEncoder (input_object args kwargs)) st_in)
        = (Ok (PCoroutine c), st2) ->
        c st2 = (Ok res, st3) ->
        truthy (_should_send_prompts st3) = true ->
        json_dumps DefaultEncoder res = Raise TypeError ->
        aentity_wrap name version (Some k) fn args kwargs st
        = (Ok res, close s t (log (log_exception TypeError) st3)))
  /\ (forall name version k fn args kwargs st s t st_in e,
        initialized st = true ->
        enter (name_or name (__name__ fn)) version k st = (s, t, st_in) ->
        truthy (_should_send_prompts st) = true ->
        json_dumps JSONEncoder (input_object args kwargs) = Raise e ->
        e <> TypeError ->
        call (entity_method name version (Some k) fn) args kwargs st
        = (Raise e, log tracer_exit st_in))
  /\ (forall name version k fn args kwargs st s t st_in res st2 e,
        initialized st = true ->
        enter (name_or name (__name__ fn)) version k st = (s, t, st_in) ->
        truthy (_should_send_prompts st) = true ->
        caught (json_dumps JSONEncoder (input_object args kwargs)) ->
        call fn args kwargs
          (after_capture s TRACELOOP_ENTITY_INPUT
             (json_dumps JSONEncoder (input_object args kwargs)) st_in)
        = (Ok res, st2) ->
        is_generator res = false ->
        truthy (_should_send_prompts st2) = true ->
        json_dumps JSONEncoder res = Raise e ->
        e <> TypeError ->
        call (entity_method name version (Some k) fn) args kwargs st
        = (Raise e, log tracer_exit st2))
  /\ (forall name version k fn args kwargs st s t st_in e,
        initialized st = true ->
        enter (name_or name (__name__ fn)) version k st = (s, t, st_in) ->
        truthy (_should_send_prompts st) = true ->
        json_dumps DefaultEncoder (input_object args kwargs) = Raise e ->
        e <> TypeError ->
        aentity_wrap name version (Some k) fn args kwargs st
        = (Raise e, log tracer_exit st_in))
  /\ (forall name version k fn args kwargs st s t st_in c st2 res st3 e,
        initialized st = true ->
        enter (name_or name (__name__ fn)) version k st = (s, t, st_in) ->
        truthy (_should_send_prompts st) = true ->
        caught (json_dumps DefaultEncoder (input_object args kwargs)) ->
        call fn args kwargs
          (after_capture s TRACELOOP_ENTITY_INPUT
             (json_dumps DefaultEncoder (input_object args kwargs)) st_in)
        = (Ok (PCoroutine c), st2) ->
        c st2 = (Ok res, st3) ->
        truthy (_should_send_prompts st3) = true ->
        json_dumps DefaultEncoder res = Raise e ->
        e <> TypeError ->
        aentity_wrap name version (Some k) fn args kwargs st
        = (Raise e, log tracer_exit st3)).
Proof.
  assert (Hon : forall name version k fn st s t st_in,
             enter (name_or name (__name__ fn)) version k st = (s, t, st_in) ->
             truthy (_should_send_prompts st) = true ->
             truthy (_should_send_prompts st_in) = true).
  { intros name version k fn st s t st_in He Hs.
    rewrite <- Hs, <- (enter_reads (name_or name (__name__ fn)) version k st), He.
    reflexivity. }
  split; [|split; [|split; [|split; [|split; [|split; [|split; [|split]]]]]]].
  - intros name version k fn args kwargs st Honly Hi Hfn.
    rewrite (entity_method_run name version k fn args kwargs st Hi).
    destruct (enter (name_or name (__name__ fn)) version k st) as [[s t] st_in].
    destruct (capture_total JSONEncoder s TRACELOOP_ENTITY_INPUT
                (input_object args kwargs) st_in Honly) as [st1 ->].
    destruct (Hfn args kwargs st1) as (res & st2 & ->).
    destruct (capture_total JSONEncoder s TRACELOOP_ENTITY_OUTPUT res st2 Honly)
      as [st3 E].
    destruct res; rewrite ?E; eexists; eexists; reflexivity.
  - intros name version k fn args kwargs st s t st_in res st2
      Hi He Hs Hin Hfn Hg Hs2 Hout.
    generalize (entity_method_captures name version k fn args kwargs
                  st s t st_in res st2 Hi He Hs).
    rewrite Hin. intros H. exact (H eq_refl Hfn Hg Hs2 Hout).
  - intros name version k fn args kwargs st s t st_in res st2
      Hi He Hs Hin Hfn Hg Hs2 Hout.
    generalize (entity_method_captures name version k fn args kwargs
                  st s t st_in res st2 Hi He Hs Hin Hfn Hg Hs2).
    rewrite Hout. intros H. exact (H eq_refl).
  - intros name version k fn args kwargs st s t st_in c st2 res st3
      Hi He Hs Hin Hfn Hc Hs3 Hout.
    generalize (aentity_wrap_captures name version k fn args kwargs
                  st s t st_in c st2 res st3 Hi He Hs).
    rewrite Hin. intros H. exact (H eq_refl Hfn Hc Hs3 Hout).
  - intros name version k fn args kwargs st s t st_in c st2 res st3
      Hi He Hs Hin Hfn Hc Hs3 Hout.
    generalize (aentity_wrap_captures name version k fn args kwargs
                  st s t st_in c st2 res st3 Hi He Hs Hin Hfn Hc Hs3).
    rewrite Hout. intros H. exact (H eq_refl).
  - intros name version k fn args kwargs st s t st_in e Hi He Hs Hin Hne.
    rewrite (entity_method_run name version k fn args kwargs st Hi), He.
    rewrite (capture_escapes _ _ _ _ _ _ (Hon _ _ _ _ _ _ _ _ He Hs) Hin Hne).
    reflexivity.
  - intros name version k fn args kwargs st s t st_in res st2 e
      Hi He Hs Hin Hfn Hg Hs2 Hout Hne.
    rewrite (entity_method_run name version k fn args kwargs st Hi), He.
    rewrite (capture_caught _ _ _ _ _ (Hon _ _ _ _ _ _ _ _ He Hs) Hin), Hfn.
    rewrite (capture_escapes _ _ _ _ _ _ Hs2 Hout Hne).
    destruct res; try reflexivity. discriminate Hg.
  - intros name version k fn args kwargs st s t st_in e Hi He Hs Hin Hne.
    rewrite (aentity_wrap_run name version k fn args kwargs st Hi), He.
    rewrite (capture_escapes _ _ _ _ _ _ (Hon _ _ _ _ _ _ _ _ He Hs) Hin Hne).
    reflexivity.
  - intros name version k fn args kwargs st s t st_in c st2 res st3 e
      Hi He Hs Hin Hfn Hc Hs3 Hout Hne.
    rewrite (aentity_wrap_run name version k fn args kwargs st Hi), He.
    rewrite (capture_caught _ _ _ _ _ (Hon _ _ _ _ _ _ _ _ He Hs) Hin), Hfn.
    cbn [await]. rewrite Hc.
    rewrite (capture_escapes _ _ _ _ _ _ Hs3 Hout Hne). reflexivity.
Qed.

End wrappers.

(** ** decorators/base.py: concrete runs *)

Section wrapper_runs.
Import base decorated.

Lemma aentity_method_bypass_awaits_async_generator_witness :
  call stream [] [] (surroundings false None JNone)
  = (Ok (PAsyncGenerator stream_items), surroundings false None JNone)
  /\ aentity_wrap (C := sample_collaborators) None None (Some TASK) stream [] []
       (surroundings false None JNone)
     = (Raise TypeError, surroundings false None JNone).
Proof.
  split; [reflexivity|].
  apply (aentity_method_bypass_awaits_async_generator
           (C := sample_collaborators)) with (g := stream_items);
    reflexivity.
Defined.

(** With tracing initialized the same function is handed on as an
    asynchronous generator. *)
Example initialized_wrapper_returns_async_generator :
  is_async_generator
    (match fst (aentity_wrap (C := sample_collaborators) None None (Some TASK)
                  stream [] [] (surroundings true None JNone)) with
     | Ok o => o
     | Raise _ => PNone
     end) = true.
Proof. reflexivity. Qed.

(** The bypass on a coroutine function: the awaited value is the
    function's, and no call is logged. *)
Example bypass_coroutine_run :
  aentity_wrap (C := sample_collaborators) None None (Some TASK) compute [] []
    (surroundings false None JNone)
  = (Ok (PInt 7), surroundings false None JNone).
Proof. reflexivity. Qed.

Lemma answer_never_raises : never_raises answer.
Proof. intros args kwargs st. exists (PInt 7), st. reflexivity. Qed.

(** C3, as stated: a serializer error of another class than [TypeError]
    (here the [ValueError] of a circular reference) is not caught; it leaves
    the decorated call, and the wrapped callable is not invoked. *)
Lemma value_error_escapes : ~ serialization_errors_suppressed.
Proof.
  intros H.
  destruct (H sample_collaborators None None TASK answer [PObject 1] []
              (surroundings true None JNone) eq_refl answer_never_raises)
    as (v & st' & E).
  vm_compute in E. discriminate E.
Qed.

Example value_error_run :
  call (entity_method (C := sample_collaborators) None None (Some TASK) answer)
    [PObject 1] [] (surroundings true None JNone)
  = (Raise ValueError,
     {| initialized := true;
        TRACELOOP_TRACE_CONTENT := None;
        override_enable_content_tracing := JNone;
        calls := [tracer_enter;
                  start_span 1 "answer.task";
                  attach 2 1;
                  set_entity_path "answer";
                  set_attribute 1 TRACELOOP_SPAN_KIND (AStr "task");
                  set_attribute 1 TRACELOOP_ENTITY_NAME (AStr "answer");
                  tracer_exit] |}).
Proof. vm_compute. reflexivity. Qed.

Lemma type_errors_logged_and_suppressed_witness :
  call (entity_method (C := sample_collaborators) None None (Some TASK) answer)
    [PObject 0] [] (surroundings true None JNone)
  = (Ok (PInt 7),
     {| initialized := true;
        TRACELOOP_TRACE_CONTENT := None;
        override_enable_content_tracing := JNone;
        calls := [tracer_enter;
                  start_span 1 "answer.task";
                  attach 2 1;
                  set_entity_path "answer";
                  set_attribute 1 TRACELOOP_SPAN_KIND (AStr "task");
                  set_attribute 1 TRACELOOP_ENTITY_NAME (AStr "answer");
                  log_exception TypeError;
                  set_attribute 1 TRACELOOP_ENTITY_OUTPUT (AStr "{}");
                  span_end 1;
                  detach 2;
                  tracer_exit] |})
  /\ call (entity_method (C := sample_collaborators) None None (Some TASK) answer)
       [PObject 1] [] (surroundings true None JNone)
     = (Raise ValueError,
        log tracer_exit
          (snd (enter (C := sample_collaborators) "answer" None TASK
                  (surroundings true None JNone))))
  /\ aentity_wrap (C := sample_collaborators) None None (Some TASK) compute
       [PObject 1] [] (surroundings true None JNone)
     = (Raise ValueError,
        log tracer_exit
          (snd (enter (C := sample_collaborators) "compute" None TASK
                  (surroundings true None JNone)))).
Proof.
  destruct (type_errors_logged_and_suppressed (C := sample_collaborators))
    as (_ & Hin & _ & _ & _ & Hsync & _ & Hasync & _).
  split; [|split].
  - exact (Hin None None TASK answer [PObject 0] [] (surroundings true None JNone)
             1 2
             (snd (enter (C := sample_collaborators) "answer" None TASK
                     (surroundings true None JNone)))
             (PInt 7)
             (log (log_exception TypeError)
                (snd (enter (C := sample_collaborators) "answer" None TASK
                        (surroundings true None JNone))))
             eq_refl eq_refl eq_refl eq_refl eq_refl eq_refl eq_refl I).
  - apply (Hsync None None TASK answer [PObject 1] []
             (surroundings true None JNone) 1 2);
      try reflexivity. discriminate.
  - apply (Hasync None None TASK compute [PObject 1] []
             (surroundings true None JNone) 1 2);
      try reflexivity. discriminate.
Defined.

Lemma size_guard_on_span_payloads_witness :
  call (entity_method (C := verbose_collaborators 2) None None (Some TASK) answer)
    [] [] (surroundings true None JNone)
  = (Ok (PInt 7),
     {| initialized := true;
        TRACELOOP_TRACE_CONTENT := None;
        override_enable_content_tracing := JNone;
        calls := [tracer_enter;
                  start_span 1 "answer.task";
                  attach 2 1;
                  set_entity_path "answer";
                  set_attribute 1 TRACELOOP_SPAN_KIND (AStr "task");
                  set_attribute 1 TRACELOOP_ENTITY_NAME (AStr "answer");
                  set_attribute 1 TRACELOOP_ENTITY_INPUT (AStr "xx");
                  set_attribute 1 TRACELOOP_ENTITY_OUTPUT (AStr "xx");
                  span_end 1;
                  detach 2;
                  tracer_exit] |})
  /\ _is_json_size_valid (padding (N.to_nat 999999)) = true
  /\ _is_json_size_valid (padding (N.to_nat 1000000)) = false.
Proof.
  destruct (size_guard_on_span_payloads (C := verbose_collaborators 2))
    as (Hguard & Hsync & _).
  split; [|split].
  - exact (Hsync None None TASK answer [] [] (surroundings true None JNone)
             1 2
             (snd (enter (C := verbose_collaborators 2) "answer" None TASK
                     (surroundings true None JNone)))
             "xx" (PInt 7)
             (attach_if_valid 1 TRACELOOP_ENTITY_INPUT "xx"
                (snd (enter (C := verbose_collaborators 2) "answer" None TASK
                        (surroundings true None JNone))))
             "xx"
             eq_refl eq_refl eq_refl eq_refl eq_refl eq_refl eq_refl eq_refl).
  - apply Hguard. rewrite length_padding, N2Nat.id. reflexivity.
  - destruct (_is_json_size_valid (padding (N.to_nat 1000000))) eqn:E;
      [|reflexivity].
    apply Hguard in E. rewrite length_padding, N2Nat.id in E.
    discriminate E.
Defined.

(** A payload of exactly 1,000,000 characters is dropped and the call is
    otherwise unchanged; one of 999,999 characters is attached as it is. *)
Lemma attach_at_the_bound (s : span) (key : attribute) (st : state) :
  attach_if_valid s key (padding (N.to_nat 1000000)) st = st
  /\ attach_if_valid s key (padding (N.to_nat 999999)) st
     = log (set_attribute s key (AStr (padding (N.to_nat 999999)))) st.
Proof.
  unfold attach_if_valid, _is_json_size_valid.
  rewrite !length_padding, !N2Nat.id. split; reflexivity.
Qed.

End wrapper_runs.

(** ** bedrock/guardrail.py: what every recording carries *)

Section recording_invariants.
Import guardrail recordings.
Context {SA : SpanAttributes}.

Lemma all_bind (P : recording -> Prop) {A B} (m : M A) (k : A -> M B) :
  all_recordings P m -> (forall a, all_recordings P (k a)) ->
  all_recordings P (bind m k).
Proof.
  unfold all_recordings. intros Hm Hk. destruct m as [[a|e] w]; simpl in *.
  - specialize (Hk a). destruct (k a) as [r w']. simpl in *.
    apply Forall_app. split; assumption.
  - exact Hm.
Qed.

Lemma all_lift (P : recording -> Prop) {A} (r : result A) :
  all_recordings P (lift r).
Proof. constructor. Qed.

Lemma all_ret (P : recording -> Prop) {A} (a : A) : all_recordings P (ret a).
Proof. constructor. Qed.

Lemma all_emit (P : recording -> Prop) i n attrs :
  P {| target := i; amount := n; attributes := attrs |} ->
  all_recordings P (emit i n attrs).
Proof. intros H. constructor; [exact H | constructor]. Qed.

Lemma all_for_each (P : recording -> Prop) items (body : json -> M unit) :
  (forall x, all_recordings P (body x)) -> all_recordings P (for_each items body).
Proof.
  intros Hb. induction items as [|x rest IH]; simpl.
  - apply all_ret.
  - apply all_bind; [apply Hb | intros _; exact IH].
Qed.

Ltac walk :=
  repeat first
    [ apply all_lift
    | apply all_ret
    | apply all_for_each; intros ?
    | apply all_bind; [|intros ?]
    | match goal with
      | |- all_recordings _ (if ?b then _ else _) => destruct b
      end ].

Lemma tagged_type (t : Type_) i key v attrs :
  key <> "gen_ai.guardrail.type" ->
  match i with
  | guardrail_sensitive_info | guardrail_topic | guardrail_content
  | guardrail_words => True
  | _ => False
  end ->
  tagged t {| target := i; amount := JInt 1;
              attributes :=
                dict_set key v
                  (dict_set "gen_ai.guardrail.type" (JStr (Type_value t)) attrs) |}.
Proof.
  intros Hk Hi. unfold tagged. cbn [target amount attributes].
  assert (L : lookup "gen_ai.guardrail.type"
                (dict_set key v
                   (dict_set "gen_ai.guardrail.type" (JStr (Type_value t)) attrs))
              = Some (JStr (Type_value t))).
  { rewrite lookup_dict_set_other by congruence. apply lookup_dict_set_same. }
  destruct i; try contradiction; split; auto.
Qed.

Lemma handle_invoke_metrics_tagged t info attrs :
  all_recordings (tagged t) (handle_invoke_metrics t info attrs).
Proof.
  unfold handle_invoke_metrics. walk;
    apply all_emit; unfold tagged; cbn [target attributes];
    apply lookup_dict_set_same.
Qed.

Lemma handle_sensitive_tagged t info attrs :
  all_recordings (tagged t) (handle_sensitive t info attrs).
Proof.
  unfold handle_sensitive, count_entry. walk;
    (apply all_emit; apply tagged_type; [discriminate | exact I]).
Qed.

Lemma handle_topic_tagged t info attrs :
  all_recordings (tagged t) (handle_topic t info attrs).
Proof.
  unfold handle_topic, count_entry. walk;
    (apply all_emit; apply tagged_type; [discriminate | exact I]).
Qed.

Lemma handle_content_tagged t info attrs :
  all_recordings (tagged t) (handle_content t info attrs).
Proof.
  unfold handle_content. walk. apply all_emit.
  unfold tagged. cbn [target amount attributes]. split; [reflexivity|].
  rewrite !lookup_dict_set_other by discriminate. apply lookup_dict_set_same.
Qed.

Lemma handle_words_tagged t info attrs :
  all_recordings (tagged t) (handle_words t info attrs).
Proof.
  unfold handle_words, count_entry. walk;
    (apply all_emit; apply tagged_type; [discriminate | exact I]).
Qed.

(** Whatever the assessment holds, well formed or not, each recording that
    [_handle] makes for direction [t] is tagged with that direction: under
    [LLM_TOKEN_TYPE] on the latency histogram and the coverage counter,
    under [gen_ai.guardrail.type] with amount 1 on the four policy
    counters.  [_handle] never records on the activation counter. *)
Theorem handle_recordings_tagged (t : Type_) (info : json) (attrs : dict) :
  all_recordings (tagged t) (_handle t info attrs).
Proof.
  unfold _handle.
  apply all_bind; [apply handle_invoke_metrics_tagged | intros _].
  apply all_bind; [apply handle_sensitive_tagged | intros _].
  apply all_bind; [apply handle_topic_tagged | intros _].
  apply all_bind; [apply handle_content_tagged | intros _].
  apply handle_words_tagged.
Qed.

Lemma carries_one attrs i n k1 v1 :
  In k1 handler_keys ->
  carries attrs {| target := i; amount := n; attributes := dict_set k1 v1 attrs |}.
Proof.
  intros H1 k Hk. cbn [attributes].
  apply lookup_dict_set_other. intros ->. contradiction.
Qed.

Lemma carries_two attrs i n k1 v1 k2 v2 :
  In k1 handler_keys -> In k2 handler_keys ->
  carries attrs {| target := i; amount := n;
                   attributes := dict_set k1 v1 (dict_set k2 v2 attrs) |}.
Proof.
  intros H1 H2 k Hk. cbn [attributes].
  rewrite !lookup_dict_set_other by (intros ->; contradiction). reflexivity.
Qed.

Lemma carries_three attrs i n k1 v1 k2 v2 k3 v3 :
  In k1 handler_keys -> In k2 handler_keys -> In k3 handler_keys ->
  carries attrs {| target := i; amount := n;
                   attributes :=
                     dict_set k1 v1 (dict_set k2 v2 (dict_set k3 v3 attrs)) |}.
Proof.
  intros H1 H2 H3 k Hk. cbn [attributes].
  rewrite !lookup_dict_set_other by (intros ->; contradiction). reflexivity.
Qed.

Ltac key_listed := unfold handler_keys; cbn [In]; tauto.

(** Each recording that [_handle] makes hands on the caller's attributes:
    under every name that is not one of the eight the handlers write, it
    binds what [attrs] binds (vendor, model, system, guardrail id). *)
Theorem handle_recordings_carry_attrs (t : Type_) (info : json) (attrs : dict) :
  all_recordings (carries attrs) (_handle t info attrs).
Proof.
  unfold _handle, handle_invoke_metrics, handle_sensitive, handle_topic,
    handle_content, handle_words, count_entry.
  walk; apply all_emit;
    first [ apply carries_one; key_listed
          | apply carries_two; key_listed
          | apply carries_three; key_listed ].
Qed.

End recording_invariants.

(** ** bedrock/guardrail.py: activation detection, edge behaviour *)

Section activation_edges.
Import guardrail.

Lemma scan_stops_at_hit (pre post : list json) (hit : dict) :
  Forall is_dict pre ->
  lookup "completionReason" hit = Some (JStr "CONTENT_FILTERED") ->
  any_content_filtered (pre ++ JDict hit :: post) = Ok true.
Proof.
  intros Hpre Hhit. induction Hpre as [|m pre Hm _ IH]; simpl.
  - rewrite Hhit. reflexivity.
  - destruct m; try contradiction. simpl.
    destruct (eq_str _ "CONTENT_FILTERED"); [reflexivity | exact IH].
Qed.

(** The scan over [results] stops at the first entry whose
    [completionReason] is ["CONTENT_FILTERED"]: when the entries before it
    are mappings the function returns [True], whatever follows in the list
    (mappings or not) and whatever the other keys of the response hold. *)
Theorem content_filtered_short_circuits (d : dict) (pre post : list json)
  (hit : dict) :
  lookup "results" d = Some (JList (pre ++ JDict hit :: post)) ->
  Forall is_dict pre ->
  lookup "completionReason" hit = Some (JStr "CONTENT_FILTERED") ->
  is_guardrail_activated (JDict d) = Ok true.
Proof.
  intros Hr Hpre Hhit. unfold is_guardrail_activated, item. simpl.
  rewrite Hr. simpl. rewrite (scan_stops_at_hit pre post hit Hpre Hhit).
  reflexivity.
Qed.

Lemma content_filtered_short_circuits_witness :
  is_guardrail_activated
    (JDict [("results",
             JList [JDict [("completionReason", JStr "FINISH")];
                    JDict [("completionReason", JStr "CONTENT_FILTERED")];
                    JInt 3])])
  = Ok true.
Proof.
  apply (content_filtered_short_circuits _
           [JDict [("completionReason", JStr "FINISH")]] [JInt 3]
           [("completionReason", JStr "CONTENT_FILTERED")]).
  - reflexivity.
  - repeat constructor.
  - reflexivity.
Defined.

Lemma scan_raises_at_non_mapping (pre post : list json) (bad : json) :
  Forall (fun m => is_dict m /\ reason_is_filtered m = false) pre ->
  ~ is_dict bad ->
  any_content_filtered (pre ++ bad :: post) = Raise AttributeError.
Proof.
  intros Hpre Hbad. induction Hpre as [|m pre [Hm Hf] _ IH]; simpl.
  - destruct bad; try reflexivity. exfalso. apply Hbad. exact I.
  - destruct m; try contradiction. unfold reason_is_filtered in Hf.
    simpl in Hf. simpl. rewrite Hf. exact IH.
Qed.

(** A [results] entry that is not a mapping, met before any filtered
    entry, makes the function raise [AttributeError] (the entry has no
    [get]), even when [stopReason] or the guardrail action would report an
    activation. *)
Theorem non_mapping_result_raises (d : dict) (pre post : list json) (bad : json) :
  lookup "results" d = Some (JList (pre ++ bad :: post)) ->
  Forall (fun m => is_dict m /\ reason_is_filtered m = false) pre ->
  ~ is_dict bad ->
  is_guardrail_activated (JDict d) = Raise AttributeError.
Proof.
  intros Hr Hpre Hbad. unfold is_guardrail_activated, item. simpl.
  rewrite Hr. simpl. rewrite (scan_raises_at_non_mapping pre post bad Hpre Hbad).
  reflexivity.
Qed.

Lemma non_mapping_result_raises_witness :
  is_guardrail_activated
    (JDict [("results", JList [JStr "text"]);
            ("stopReason", JStr "guardrail_intervened")])
  = Raise AttributeError.
Proof.
  apply (non_mapping_result_raises _ [] [] (JStr "text")).
  - reflexivity.
  - constructor.
  - intros H. exact H.
Defined.

(** The function returns a value on mappings only: on [None], a boolean, a
    number, a string or a list it raises. *)
Theorem non_mapping_response_raises (response : json) :
  ~ is_dict response ->
  exists e, is_guardrail_activated response = Raise e.
Proof.
  intros H. destruct response as [| b | z | s | l | d]; simpl in H.
  - exists TypeError. reflexivity.
  - exists TypeError. reflexivity.
  - exists TypeError. reflexivity.
  - unfold is_guardrail_activated. cbn [contains rbind].
    destruct (index 0 "results" s).
    + exists TypeError. reflexivity.
    + exists AttributeError. reflexivity.
  - unfold is_guardrail_activated. cbn [contains rbind].
    destruct (existsb (fun x => eq_str x "results") l).
    + exists TypeError. reflexivity.
    + exists AttributeError. reflexivity.
  - exfalso. apply H. exact I.
Qed.

Lemma non_mapping_response_raises_witness :
  exists e, is_guardrail_activated (JList [JStr "results"]) = Raise e.
Proof.
  apply non_mapping_response_raises. intros H. exact H.
Defined.

(** On a response whose [results] entry, if any, is a list of mappings,
    the function returns [False] in exactly one situation: no entry is
    filtered, [stopReason] is not ["guardrail_intervened"], and
    [amazon-bedrock-guardrailAction] is bound to the string ["NONE"]. *)
Theorem not_activated_iff (d : dict) :
  results_well_formed d ->
  (is_guardrail_activated (JDict d) = Ok false
   <-> filtered_flag d = false
       /\ eq_str (field d "stopReason") "guardrail_intervened" = false
       /\ lookup "amazon-bedrock-guardrailAction" d = Some (JStr "NONE")).
Proof.
  intros Hwf. rewrite (is_guardrail_activated_value d Hwf).
  unfold field at 2.
  destruct (filtered_flag d); simpl.
  { split; [discriminate | intros [E _]; discriminate E]. }
  destruct (eq_str (field d "stopReason") "guardrail_intervened"); simpl.
  { split; [discriminate | intros (_ & E & _); discriminate E]. }
  destruct (lookup "amazon-bedrock-guardrailAction" d) as [[| | | s | |]|];
    simpl; try (split; [discriminate | intros (_ & _ & E); discriminate E]).
  destruct (String.eqb_spec s "NONE") as [->|Hs]; simpl.
  - split; auto.
  - split; [discriminate | intros (_ & _ & E)]. injection E as E. contradiction.
Qed.

Lemma not_activated_iff_witness :
  is_guardrail_activated
    (JDict [("stopReason", JStr "end_turn");
            ("amazon-bedrock-guardrailAction", JStr "NONE")])
  = Ok false.
Proof.
  apply not_activated_iff; [exact I|]. repeat split; reflexivity.
Defined.

End activation_edges.

(** ** bedrock/guardrail.py: the per-assessment handlers *)

Section handler_behaviour.
Import guardrail recordings.
Context {SA : SpanAttributes}.

Lemma for_each_records (body : json -> M unit) (rec : json -> recording)
  (items : list json) :
  (forall x, In x items -> body x = (Ok tt, [rec x])) ->
  for_each items body = (Ok tt, map rec items).
Proof.
  induction items as [|x rest IH]; intros Hb; [reflexivity|].
  cbn [for_each map]. rewrite (Hb x (in_eq x rest)).
  rewrite IH by (intros y Hy; apply Hb; right; exact Hy). reflexivity.
Qed.

Lemma for_each_stops (body : json -> M unit) (rec : json -> recording)
  (good rest : list json) (bad : json) (e : exn) :
  (forall x, In x good -> body x = (Ok tt, [rec x])) ->
  body bad = (Raise e, []) ->
  for_each (good ++ bad :: rest) body = (Raise e, map rec good).
Proof.
  intros Hg Hb. induction good as [|x good IH]; cbn [for_each map app].
  - rewrite Hb. reflexivity.
  - rewrite (Hg x (in_eq x good)).
    rewrite IH by (intros y Hy; apply Hg; right; exact Hy). reflexivity.
Qed.

Lemma count_entry_of_field i t attrs key f entry :
  has_field f entry ->
  count_entry i t attrs key f entry
  = (Ok tt,
     [ {| target := i; amount := JInt 1;
          attributes :=
            dict_set key (field_of f entry)
              (dict_set "gen_ai.guardrail.type" (JStr (Type_value t)) attrs) |} ]).
Proof.
  intros (d & v & -> & Hv). unfold count_entry, field_of, field.
  rewrite (item_dict d f v Hv), bind_lift_ok, Hv. reflexivity.
Qed.

(** Word policy with both lists present and every entry carrying [match]:
    the words counter receives one [add(1, ...)] per entry, first the
    custom words in order, then the managed word lists in order, each with
    the entry's [match] and the direction. *)
Theorem handle_words_counts_every_entry
  (t : Type_) (ad p : dict) (custom managed : list json) (attrs : dict) :
  lookup "wordPolicy" ad = Some (JDict p) ->
  lookup "customWords" p = Some (JList custom) ->
  lookup "managedWordLists" p = Some (JList managed) ->
  Forall (has_field "match") custom ->
  Forall (has_field "match") managed ->
  handle_words t (JDict ad) attrs
  = (Ok tt, map (word_recording t attrs) (custom ++ managed)).
Proof.
  intros Hp Hc Hm Fc Fm. unfold handle_words.
  cbn [contains]. rewrite Hp, bind_lift_ok.
  rewrite (item_dict ad _ _ Hp), bind_lift_ok.
  cbn [contains]. rewrite Hc, Hm, !bind_lift_ok.
  rewrite (item_dict p _ _ Hc), (item_dict p _ _ Hm), !bind_lift_ok.
  cbn [iter]. rewrite !bind_lift_ok.
  rewrite (for_each_records _ (word_recording t attrs) custom),
          (for_each_records _ (word_recording t attrs) managed).
  - rewrite map_app. reflexivity.
  - intros x Hx. apply count_entry_of_field.
    exact (proj1 (Forall_forall _ _) Fm x Hx).
  - intros x Hx. apply count_entry_of_field.
    exact (proj1 (Forall_forall _ _) Fc x Hx).
Qed.

Lemma handle_words_counts_every_entry_witness :
  handle_words OUTPUT
    (JDict [("wordPolicy",
             JDict [("customWords", JList [JDict [("match", JStr "badword")]]);
                    ("managedWordLists", JList [JDict [("match", JStr "damn")]])])])
    []
  = (Ok tt,
     map (word_recording OUTPUT [])
       ([JDict [("match", JStr "badword")]] ++ [JDict [("match", JStr "damn")]])).
Proof.
  apply (handle_words_counts_every_entry OUTPUT _
           [("customWords", JList [JDict [("match", JStr "badword")]]);
            ("managedWordLists", JList [JDict [("match", JStr "damn")]])]);
    try reflexivity;
    repeat constructor; eexists; eexists; split; reflexivity.
Defined.

Lemma content_body_ok (t : Type_) (attrs : dict) (entry : json) :
  has_field "type" entry -> has_field "confidence" entry ->
  (type <- lift (item entry "type") ;;
   confidence <- lift (item entry "confidence") ;;
   emit guardrail_content (JInt 1)
     (dict_set "gen_ai.guardrail.confidence" confidence
        (dict_set "gen_ai.guardrail.content" type
           (dict_set "gen_ai.guardrail.type" (JStr (Type_value t)) attrs))))
  = (Ok tt, [content_recording t attrs entry]).
Proof.
  intros (d & v & -> & Hv) (d' & c & E & Hc). injection E as <-.
  rewrite (item_dict d _ _ Hv), bind_lift_ok.
  rewrite (item_dict d _ _ Hc), bind_lift_ok.
  unfold content_recording, field_of, field. rewrite Hv, Hc. reflexivity.
Qed.

(** Content policy: the filters are counted in order until one lacks
    [type] or [confidence]; there the handler raises [KeyError], and the
    recordings made for the filters before it stay made. *)
Theorem handle_content_stops_at_incomplete_filter
  (t : Type_) (ad p b : dict) (good rest : list json) (attrs : dict) :
  lookup "contentPolicy" ad = Some (JDict p) ->
  lookup "filters" p = Some (JList (good ++ JDict b :: rest)) ->
  Forall (fun f => has_field "type" f /\ has_field "confidence" f) good ->
  lookup "type" b = None \/ lookup "confidence" b = None ->
  handle_content t (JDict ad) attrs
  = (Raise KeyError, map (content_recording t attrs) good).
Proof.
  intros Hp Hf Fg Hb. unfold handle_content.
  cbn [contains]. rewrite Hp, bind_lift_ok.
  rewrite (item_dict ad _ _ Hp), bind_lift_ok.
  rewrite (item_dict p _ _ Hf), bind_lift_ok.
  cbn [iter]. rewrite bind_lift_ok.
  apply for_each_stops.
  - intros x Hx. destruct (proj1 (Forall_forall _ _) Fg x Hx) as [H1 H2].
    apply content_body_ok; assumption.
  - unfold item. cbn [subscript].
    destruct (lookup "type" b) as [ty|] eqn:Et; [|reflexivity].
    destruct Hb as [Hb|Hb]; [discriminate Hb|]. rewrite Hb, bind_lift_ok.
    reflexivity.
Qed.

Lemma handle_content_stops_at_incomplete_filter_witness :
  handle_content INPUT
    (JDict [("contentPolicy",
             JDict [("filters",
                     JList [JDict [("type", JStr "HATE"); ("confidence", JStr "HIGH")];
                            JDict [("type", JStr "INSULTS")];
                            JDict [("type", JStr "VIOLENCE");
                                   ("confidence", JStr "LOW")]])])])
    []
  = (Raise KeyError,
     map (content_recording INPUT [])
       [JDict [("type", JStr "HATE"); ("confidence", JStr "HIGH")]]).
Proof.
  apply (handle_content_stops_at_incomplete_filter INPUT _
           [("filters",
             JList [JDict [("type", JStr "HATE"); ("confidence", JStr "HIGH")];
                    JDict [("type", JStr "INSULTS")];
                    JDict [("type", JStr "VIOLENCE"); ("confidence", JStr "LOW")]])]
           [("type", JStr "INSULTS")]
           [JDict [("type", JStr "HATE"); ("confidence", JStr "HIGH")]]
           [JDict [("type", JStr "VIOLENCE"); ("confidence", JStr "LOW")]]).
  - reflexivity.
  - reflexivity.
  - repeat constructor; eexists; eexists; split; reflexivity.
  - right. reflexivity.
Defined.

(** Content policy with every filter complete: one recording per filter,
    in order, with the filter's [type] and [confidence]. *)
Theorem handle_content_counts_every_filter
  (t : Type_) (ad p : dict) (filters : list json) (attrs : dict) :
  lookup "contentPolicy" ad = Some (JDict p) ->
  lookup "filters" p = Some (JList filters) ->
  Forall (fun f => has_field "type" f /\ has_field "confidence" f) filters ->
  handle_content t (JDict ad) attrs
  = (Ok tt, map (content_recording t attrs) filters).
Proof.
  intros Hp Hf Fg. unfold handle_content.
  cbn [contains]. rewrite Hp, bind_lift_ok.
  rewrite (item_dict ad _ _ Hp), bind_lift_ok.
  rewrite (item_dict p _ _ Hf), bind_lift_ok.
  cbn [iter]. rewrite bind_lift_ok.
  apply for_each_records.
  intros x Hx. destruct (proj1 (Forall_forall _ _) Fg x Hx) as [H1 H2].
  apply content_body_ok; assumption.
Qed.

Lemma handle_content_counts_every_filter_witness :
  handle_content INPUT
    (JDict [("contentPolicy",
             JDict [("filters",
                     JList [JDict [("type", JStr "HATE");
                                   ("confidence", JStr "HIGH")]])])])
    []
  = (Ok tt,
     map (content_recording INPUT [])
       [JDict [("type", JStr "HATE"); ("confidence", JStr "HIGH")]]).
Proof.
  apply (handle_content_counts_every_filter INPUT _
           [("filters",
             JList [JDict [("type", JStr "HATE"); ("confidence", JStr "HIGH")]])]).
  - reflexivity.
  - reflexivity.
  - repeat constructor; eexists; eexists; split; reflexivity.
Defined.

End handler_behaviour.

(** ** bedrock/guardrail.py: missing keys and empty mappings *)

Section extraction_edges.
Import guardrail recordings.
Context {SA : SpanAttributes}.

Ltac quiet :=
  repeat first
    [ apply silent_lift
    | apply silent_ret
    | apply silent_emit; reflexivity
    | apply silent_for_each; intros ?
    | apply silent_bind; [|intros ?]
    | match goal with
      | |- silent_on _ (if ?b then _ else _) => destruct b
      end ].

(** An invoke-shaped body without the key [amazon-bedrock-guardrailAction]
    is left alone: nothing is recorded, not even when [stopReason] or the
    [results] would count as an activation, and no part of the body is
    inspected (nothing can raise). *)
Theorem guardrail_handling_needs_action_key (d : dict) (vendor model : json) :
  lookup "amazon-bedrock-guardrailAction" d = None ->
  guardrail_handling (JDict d) vendor model = (Ok tt, []).
Proof.
  intros H. unfold guardrail_handling. cbn [contains]. rewrite H.
  rewrite bind_lift_ok. reflexivity.
Qed.

(** An assessment mapping with none of the five policy keys: [_handle]
    returns without recording anything. *)
Theorem handle_without_policies (t : Type_) (ad : dict) (attrs : dict) :
  lookup "invocationMetrics" ad = None ->
  lookup "sensitiveInformationPolicy" ad = None ->
  lookup "topicPolicy" ad = None ->
  lookup "contentPolicy" ad = None ->
  lookup "wordPolicy" ad = None ->
  _handle t (JDict ad) attrs = (Ok tt, []).
Proof.
  intros H1 H2 H3 H4 H5.
  unfold _handle, handle_invoke_metrics, handle_sensitive, handle_topic,
    handle_content, handle_words.
  cbn [contains]. rewrite H1, H2, H3, H4, H5. reflexivity.
Qed.

Lemma handle_invoke_metrics_quiet i t info attrs :
  instrument_eqb guardrail_latency_histogram i = false ->
  instrument_eqb guardrail_coverage i = false ->
  silent_on i (handle_invoke_metrics t info attrs).
Proof.
  intros H1 H2. unfold handle_invoke_metrics. quiet;
    apply silent_emit; assumption.
Qed.

Lemma handle_sensitive_quiet i t info attrs :
  instrument_eqb guardrail_sensitive_info i = false ->
  silent_on i (handle_sensitive t info attrs).
Proof.
  intros H. unfold handle_sensitive, count_entry. quiet;
    apply silent_emit; assumption.
Qed.

(** A [topicPolicy] without [topics] (the handler reads
    [guardrail['topicPolicy']['topics']] unguarded) raises [KeyError], and
    with it [_handle] ends: the content and word policies of the same
    assessment are never counted. *)
Theorem topic_policy_without_topics_aborts
  (t : Type_) (ad p : dict) (attrs : dict) :
  lookup "topicPolicy" ad = Some (JDict p) ->
  lookup "topics" p = None ->
  handle_topic t (JDict ad) attrs = (Raise KeyError, [])
  /\ (exists e, fst (_handle t (JDict ad) attrs) = Raise e)
  /\ recorded_on guardrail_content (_handle t (JDict ad) attrs) = []
  /\ recorded_on guardrail_words (_handle t (JDict ad) attrs) = [].
Proof.
  intros Hp Ht.
  assert (E : handle_topic t (JDict ad) attrs = (Raise KeyError, [])).
  { unfold handle_topic. cbn [contains]. rewrite Hp, bind_lift_ok.
    rewrite (item_dict ad _ _ Hp), bind_lift_ok.
    unfold item. cbn [subscript]. rewrite Ht. reflexivity. }
  split; [exact E|]. unfold _handle. rewrite E.
  pose proof (handle_invoke_metrics_quiet guardrail_content t (JDict ad) attrs
                eq_refl eq_refl) as Qc1.
  pose proof (handle_invoke_metrics_quiet guardrail_words t (JDict ad) attrs
                eq_refl eq_refl) as Qw1.
  pose proof (handle_sensitive_quiet guardrail_content t (JDict ad) attrs
                eq_refl) as Qc2.
  pose proof (handle_sensitive_quiet guardrail_words t (JDict ad) attrs
                eq_refl) as Qw2.
  unfold silent_on, recorded_on in *.
  destruct (handle_invoke_metrics t (JDict ad) attrs) as [[[]|e1] w1];
    destruct (handle_sensitive t (JDict ad) attrs) as [[[]|e2] w2];
    cbn [bind fst snd] in *;
    rewrite ?app_nil_r, ?filter_app, ?Qc1, ?Qw1, ?Qc2, ?Qw2;
    (split; [eexists; reflexivity | split; reflexivity]).
Qed.

(** Invocation metrics: the latency is recorded before the coverage is
    looked up.  With a complete [guardrailCoverage] both are recorded, in
    that order; with a [guardrailCoverage] that lacks [textCharacters] the
    handler raises [KeyError] and the latency recording stays. *)
Theorem latency_recorded_before_coverage
  (t : Type_) (ad im cov : dict) (latency : json) (attrs : dict) :
  lookup "invocationMetrics" ad = Some (JDict im) ->
  lookup "guardrailProcessingLatency" im = Some latency ->
  lookup "guardrailCoverage" im = Some (JDict cov) ->
  let tagged_attrs := dict_set LLM_TOKEN_TYPE (JStr (Type_value t)) attrs in
  let latency_recording :=
    {| target := guardrail_latency_histogram; amount := latency;
       attributes := tagged_attrs |} in
  (forall tc guarded,
     lookup "textCharacters" cov = Some (JDict tc) ->
     lookup "guarded" tc = Some guarded ->
     handle_invoke_metrics t (JDict ad) attrs
     = (Ok tt,
        [ latency_recording;
          {| target := guardrail_coverage; amount := guarded;
             attributes := tagged_attrs |} ]))
  /\ (lookup "textCharacters" cov = None ->
      handle_invoke_metrics t (JDict ad) attrs
      = (Raise KeyError, [latency_recording])).
Proof.
  intros Him Hl Hc tagged_attrs latency_recording.
  assert (E : forall r : result json,
             item (JDict cov) "textCharacters" = r ->
             handle_invoke_metrics t (JDict ad) attrs
             = (emit guardrail_latency_histogram latency tagged_attrs ;;
                text <- lift r ;;
                char_guarded <- lift (item text "guarded") ;;
                emit guardrail_coverage char_guarded tagged_attrs)).
  { intros r <-. unfold handle_invoke_metrics.
    cbn [contains]. rewrite Him, bind_lift_ok.
    rewrite (item_dict ad _ _ Him), bind_lift_ok.
    cbn [contains]. rewrite Hl, Hc, !bind_lift_ok.
    rewrite (item_dict im _ _ Hl), (item_dict im _ _ Hc), !bind_lift_ok.
    reflexivity. }
  split.
  - intros tc guarded Htc Hg.
    rewrite (E _ (item_dict cov _ _ Htc)).
    rewrite bind_lift_ok, (item_dict tc _ _ Hg), bind_lift_ok. reflexivity.
  - intros Htc. rewrite (E (Raise KeyError)); [reflexivity|].
    unfold item. cbn [subscript]. rewrite Htc. reflexivity.
Qed.

(** An empty [inputAssessment] (converse shape) or [input] (invoke shape)
    mapping has no first key: [next(iter(...))] raises [StopIteration],
    which leaves the entry point before anything is recorded, the
    activation count included. *)
Theorem empty_assessment_mapping_raises (d t g : dict) (vendor model : json) :
  lookup "guardrail" t = Some (JDict g) ->
  (lookup "trace" d = Some (JDict t) ->
   lookup "inputAssessment" g = Some (JDict []) ->
   guardrail_converse (JDict d) vendor model = (Raise StopIteration, []))
  /\ (forall action,
        lookup "amazon-bedrock-guardrailAction" d = Some action ->
        lookup "amazon-bedrock-trace" d = Some (JDict t) ->
        lookup "input" g = Some (JDict []) ->
        guardrail_handling (JDict d) vendor model = (Raise StopIteration, [])).
Proof.
  intros Hg. split.
  - intros Ht Hi. unfold guardrail_converse.
    rewrite (contains_nested_dicts _ _ d t _ Ht Hg), bind_lift_ok.
    rewrite (item_dict d _ _ Ht), bind_assoc, bind_lift_ok.
    rewrite (item_dict t _ _ Hg), bind_assoc, bind_lift_ok.
    unfold converse_input. cbn [contains]. rewrite Hi.
    rewrite !bind_assoc, bind_lift_ok.
    rewrite (item_dict g _ _ Hi). rewrite !bind_assoc, bind_lift_ok.
    reflexivity.
  - intros action Ha Ht Hi. unfold guardrail_handling.
    cbn [contains]. rewrite Ha, Ht. rewrite !bind_lift_ok.
    rewrite (item_dict d _ _ Ht). rewrite bind_assoc, bind_lift_ok, bind_assoc.
    unfold invoke_input.
    rewrite (contains_nested_dicts _ _ t g _ Hg Hi).
    rewrite !bind_assoc, bind_lift_ok.
    rewrite (item_dict t _ _ Hg), !bind_assoc, bind_lift_ok.
    rewrite (item_dict g _ _ Hi), !bind_assoc, bind_lift_ok.
    reflexivity.
Qed.

End extraction_edges.

Section extraction_edge_runs.
Import guardrail recordings.

Lemma guardrail_handling_needs_action_key_witness :
  guardrail_handling (SA := semconv)
    (JDict [("stopReason", JStr "guardrail_intervened");
            ("amazon-bedrock-trace", JInt 0)])
    (JStr "aws") (JStr "titan")
  = (Ok tt, []).
Proof.
  apply (guardrail_handling_needs_action_key (SA := semconv)). reflexivity.
Defined.

Lemma handle_without_policies_witness :
  _handle (SA := semconv) INPUT (JDict [("action", JStr "NONE")]) []
  = (Ok tt, []).
Proof.
  apply (handle_without_policies (SA := semconv)); reflexivity.
Defined.

Lemma topic_policy_without_topics_aborts_witness :
  handle_topic INPUT
    (JDict [("topicPolicy", JDict []);
            ("wordPolicy", JDict [("customWords", JList [JDict [("match", JStr "x")]])])])
    []
  = (Raise KeyError, []).
Proof.
  apply (topic_policy_without_topics_aborts (SA := semconv) INPUT _ []);
    reflexivity.
Defined.

Lemma latency_recorded_before_coverage_witness :
  handle_invoke_metrics (SA := semconv) OUTPUT
    (JDict [("invocationMetrics",
             JDict [("guardrailProcessingLatency", JInt 120);
                    ("guardrailCoverage", JDict [])])])
    []
  = (Raise KeyError,
     [ {| target := guardrail_latency_histogram; amount := JInt 120;
          attributes := [("gen_ai.token.type", JStr "output")] |} ]).
Proof.
  apply (latency_recorded_before_coverage (SA := semconv) OUTPUT _
           [("guardrailProcessingLatency", JInt 120);
            ("guardrailCoverage", JDict [])] [] (JInt 120));
    reflexivity.
Defined.

Lemma empty_assessment_mapping_raises_witness :
  guardrail_converse (SA := semconv) (JDict (converse_payload []))
    (JStr "aws") (JStr "titan")
  = (Raise StopIteration, []).
Proof.
  destruct (empty_assessment_mapping_raises (SA := semconv)
              (converse_payload [])
              [("guardrail", JDict [("inputAssessment", JDict [])])]
              [("inputAssessment", JDict [])]
              (JStr "aws") (JStr "titan") eq_refl) as [H _].
  apply H; reflexivity.
Defined.

End extraction_edge_runs.

(** ** bedrock/guardrail.py: how the blocks of an entry point compose *)

Section composition.
Import guardrail recordings.
Context {SA : SpanAttributes}.

Lemma dict_set_overwrite {V} (k : string) (v1 v2 : V) (d : list (string * V)) :
  dict_set k v2 (dict_set k v1 d) = dict_set k v2 d.
Proof.
  induction d as [|[k' v'] d IH]; simpl.
  - rewrite String.eqb_refl. reflexivity.
  - destruct (String.eqb k k') eqn:E; simpl.
    + rewrite String.eqb_refl. reflexivity.
    + rewrite E, IH. reflexivity.
Qed.

(** Converse shape with both assessments: the input assessment is
    processed under the first key of [inputAssessment]; every entry of the
    list bound to the first key of [outputAssessments] is then processed as
    OUTPUT under that second id, which replaces the first in [attrs]; the
    activation count that closes the call carries the output id. *)
Theorem guardrail_converse_input_then_outputs
  (d t g : dict) (g_in g_out : string) (a : json) (infos : list json)
  (others_in others_out : dict) (vendor model : json) :
  lookup "trace" d = Some (JDict t) ->
  lookup "guardrail" t = Some (JDict g) ->
  lookup "inputAssessment" g = Some (JDict ((g_in, a) :: others_in)) ->
  lookup "outputAssessments" g = Some (JDict ((g_out, JList infos) :: others_out)) ->
  let attrs_in := dict_set "gen_ai.guardrail" (JStr g_in) (base_attrs vendor model) in
  let attrs_out := dict_set "gen_ai.guardrail" (JStr g_out) (base_attrs vendor model) in
  guardrail_converse (JDict d) vendor model
  = (_handle INPUT a attrs_in ;;
     for_each infos (fun info => _handle OUTPUT info attrs_out) ;;
     count_activation (JDict d) attrs_out).
Proof.
  intros Ht Hg Hi Ho attrs_in attrs_out. unfold guardrail_converse.
  rewrite (contains_nested_dicts _ _ d t _ Ht Hg), bind_lift_ok.
  rewrite (item_dict d _ _ Ht), bind_assoc, bind_lift_ok.
  rewrite (item_dict t _ _ Hg), bind_assoc, bind_lift_ok.
  unfold converse_input. cbn [contains]. rewrite Hi.
  rewrite !bind_assoc, bind_lift_ok.
  rewrite (item_dict g _ _ Hi).
  rewrite !bind_assoc, bind_lift_ok.
  cbn [next_iter iter map fst rbind].
  rewrite !bind_assoc, bind_lift_ok.
  cbn [subscript lookup]. rewrite String.eqb_refl.
  rewrite !bind_assoc, bind_lift_ok.
  rewrite !bind_assoc. apply bind_ext. intros _.
  rewrite bind_ret_l.
  unfold converse_outputs. cbn [contains]. rewrite Ho.
  rewrite !bind_assoc, bind_lift_ok.
  rewrite (item_dict g _ _ Ho).
  rewrite !bind_assoc, bind_lift_ok.
  cbn [next_iter iter map fst rbind].
  rewrite !bind_assoc, bind_lift_ok.
  cbn [subscript lookup]. rewrite String.eqb_refl.
  rewrite !bind_assoc, bind_lift_ok.
  cbn [iter]. rewrite !bind_assoc, bind_lift_ok.
  rewrite dict_set_overwrite.
  rewrite !bind_assoc. apply bind_ext. intros _.
  rewrite bind_ret_l. reflexivity.
Qed.

(** Invoke shape with an [input] mapping and no [outputs]: the assessment
    bound to the first key of [input] is processed as INPUT under that id,
    and the activation count carries the id. *)
Theorem guardrail_handling_input_assessment
  (d t g : dict) (action : json) (g_id : string) (a : json) (others : dict)
  (vendor model : json) :
  lookup "amazon-bedrock-guardrailAction" d = Some action ->
  lookup "amazon-bedrock-trace" d = Some (JDict t) ->
  lookup "guardrail" t = Some (JDict g) ->
  lookup "input" g = Some (JDict ((g_id, a) :: others)) ->
  lookup "outputs" g = None ->
  let attrs := dict_set "gen_ai.guardrail" (JStr g_id) (base_attrs vendor model) in
  guardrail_handling (JDict d) vendor model
  = (_handle INPUT a attrs ;; count_activation (JDict d) attrs).
Proof.
  intros Ha Ht Hg Hi Ho attrs. unfold guardrail_handling.
  cbn [contains]. rewrite Ha, Ht. rewrite !bind_lift_ok.
  rewrite (item_dict d _ _ Ht). rewrite bind_assoc, bind_lift_ok, bind_assoc.
  unfold invoke_input.
  rewrite (contains_nested_dicts _ _ t g _ Hg Hi).
  rewrite !bind_assoc, bind_lift_ok.
  rewrite (item_dict t _ _ Hg), !bind_assoc, bind_lift_ok.
  rewrite (item_dict g _ _ Hi), !bind_assoc, bind_lift_ok.
  cbn [next_iter iter map fst rbind].
  rewrite !bind_assoc, bind_lift_ok.
  cbn [subscript lookup]. rewrite String.eqb_refl.
  rewrite !bind_assoc, bind_lift_ok.
  rewrite !bind_assoc. apply bind_ext. intros _.
  rewrite bind_ret_l. unfold invoke_outputs.
  rewrite (contains_nested_absent _ _ t g Hg Ho), bind_lift_ok, bind_ret_l.
  reflexivity.
Qed.

End composition.

Section composition_runs.
Import guardrail recordings.

Lemma guardrail_converse_input_then_outputs_witness :
  guardrail_converse (SA := semconv)
    (JDict [("trace",
             JDict [("guardrail",
                     JDict [("inputAssessment", JDict [("g1", pii "EMAIL")]);
                            ("outputAssessments",
                             JDict [("g2", JList [pii "PHONE"; pii "NAME"])])])])])
    (JStr "aws") (JStr "titan")
  = (_handle (SA := semconv) INPUT (pii "EMAIL")
       (dict_set "gen_ai.guardrail" (JStr "g1")
          (base_attrs (SA := semconv) (JStr "aws") (JStr "titan"))) ;;
     for_each [pii "PHONE"; pii "NAME"]
       (fun info =>
          _handle (SA := semconv) OUTPUT info
            (dict_set "gen_ai.guardrail" (JStr "g2")
               (base_attrs (SA := semconv) (JStr "aws") (JStr "titan")))) ;;
     count_activation
       (JDict [("trace",
                JDict [("guardrail",
                        JDict [("inputAssessment", JDict [("g1", pii "EMAIL")]);
                               ("outputAssessments",
                                JDict [("g2", JList [pii "PHONE"; pii "NAME"])])])])])
       (dict_set "gen_ai.guardrail" (JStr "g2")
          (base_attrs (SA := semconv) (JStr "aws") (JStr "titan")))).
Proof.
  apply (guardrail_converse_input_then_outputs (SA := semconv)) with
    (t := [("guardrail",
            JDict [("inputAssessment", JDict [("g1", pii "EMAIL")]);
                   ("outputAssessments",
                    JDict [("g2", JList [pii "PHONE"; pii "NAME"])])])])
    (g := [("inputAssessment", JDict [("g1", pii "EMAIL")]);
           ("outputAssessments", JDict [("g2", JList [pii "PHONE"; pii "NAME"])])])
    (others_in := []) (others_out := []);
    reflexivity.
Defined.

(** The ids on the recordings of that run: the input one, the two output
    ones, the activation count. *)
Example converse_ids_run :
  map (fun r => (target r, lookup "gen_ai.guardrail" (attributes r)))
    (snd (guardrail_converse (SA := semconv)
            (JDict [("trace",
                     JDict [("guardrail",
                             JDict [("inputAssessment", JDict [("g1", pii "EMAIL")]);
                                    ("outputAssessments",
                                     JDict [("g2", JList [pii "PHONE"; pii "NAME"])])])])])
            (JStr "aws") (JStr "titan")))
  = [ (guardrail_sensitive_info, Some (JStr "g1"));
      (guardrail_sensitive_info, Some (JStr "g2"));
      (guardrail_sensitive_info, Some (JStr "g2"));
      (guardrail_counter, Some (JStr "g2")) ].
Proof. vm_compute. reflexivity. Qed.

Lemma guardrail_handling_input_assessment_witness :
  guardrail_handling (SA := semconv)
    (JDict [("amazon-bedrock-guardrailAction", JStr "INTERVENED");
            ("amazon-bedrock-trace",
             JDict [("guardrail", JDict [("input", JDict [("g1", pii "EMAIL")])])])])
    (JStr "aws") (JStr "titan")
  = (_handle (SA := semconv) INPUT (pii "EMAIL")
       (dict_set "gen_ai.guardrail" (JStr "g1")
          (base_attrs (SA := semconv) (JStr "aws") (JStr "titan"))) ;;
     count_activation
       (JDict [("amazon-bedrock-guardrailAction", JStr "INTERVENED");
               ("amazon-bedrock-trace",
                JDict [("guardrail",
                        JDict [("input", JDict [("g1", pii "EMAIL")])])])])
       (dict_set "gen_ai.guardrail" (JStr "g1")
          (base_attrs (SA := semconv) (JStr "aws") (JStr "titan")))).
Proof.
  apply (guardrail_handling_input_assessment (SA := semconv)) with
    (action := JStr "INTERVENED")
    (t := [("guardrail", JDict [("input", JDict [("g1", pii "EMAIL")])])])
    (g := [("input", JDict [("g1", pii "EMAIL")])])
    (others := []);
    reflexivity.
Defined.

End composition_runs.

(** ** bedrock/guardrail.py: the activation counter *)

Section activation_counter.
Import guardrail recordings.
Context {SA : SpanAttributes}.

Lemma handle_never_counts_activation t info attrs :
  silent_on guardrail_counter (_handle t info attrs).
Proof.
  unfold _handle, handle_invoke_metrics, handle_sensitive, handle_topic,
    handle_content, handle_words, count_entry.
  repeat first
    [ apply silent_lift
    | apply silent_ret
    | apply silent_emit; reflexivity
    | apply silent_for_each; intros ?
    | apply silent_bind; [|intros ?]
    | match goal with
      | |- silent_on _ (if ?b then _ else _) => destruct b
      end ].
Qed.

Ltac hush :=
  cbv zeta;
  repeat first
    [ apply silent_lift
    | apply silent_ret
    | apply handle_never_counts_activation
    | apply silent_for_each; intros ?
    | apply silent_bind; [|intros ?]
    | match goal with
      | |- silent_on _ (if ?b then _ else _) => destruct b
      end ].

Lemma converse_input_hush g attrs :
  silent_on guardrail_counter (converse_input g attrs).
Proof. unfold converse_input. hush. Qed.

Lemma converse_outputs_hush g attrs :
  silent_on guardrail_counter (converse_outputs g attrs).
Proof. unfold converse_outputs. hush. Qed.

Lemma invoke_input_hush bedrock_trace attrs :
  silent_on guardrail_counter (invoke_input bedrock_trace attrs).
Proof. unfold invoke_input. hush. Qed.

Lemma outputs_loop_hush outputs entries attrs :
  silent_on guardrail_counter (outputs_loop outputs entries attrs).
Proof.
  revert attrs. induction entries as [|output rest IH]; intros attrs;
    cbn [outputs_loop].
  - apply silent_ret.
  - hush. apply IH.
Qed.

Lemma invoke_outputs_hush bedrock_trace attrs :
  silent_on guardrail_counter (invoke_outputs bedrock_trace attrs).
Proof. unfold invoke_outputs. hush. apply outputs_loop_hush. Qed.

Lemma counted_after_quiet_block (block : M dict) (response : json) :
  silent_on guardrail_counter block ->
  exists attrs,
    recorded_on guardrail_counter
      (attrs <- block ;; count_activation response attrs)
    = match fst (attrs <- block ;; count_activation response attrs),
            is_guardrail_activated response with
      | Ok _, Ok true => [activation_recording attrs]
      | _, _ => []
      end.
Proof.
  unfold silent_on, recorded_on, count_activation. intros Q.
  destruct block as [[attrs|e] w]; cbn [snd] in Q.
  - exists attrs.
    destruct (is_guardrail_activated response) as [[|]|e];
      cbn [bind lift emit ret fst snd app];
      rewrite ?app_nil_r, ?filter_app, Q; reflexivity.
  - exists []. cbn [bind fst snd]. rewrite Q.
    destruct (is_guardrail_activated response) as [[|]|]; reflexivity.
Qed.

(** Each entry point adds to the activation counter at most once per
    response, always by 1, and only as its last act: when the call returns
    normally and [is_guardrail_activated] holds of the response (for
    [guardrail_handling], when moreover the action key is present).  A call
    that raises has not counted an activation; the handlers never touch the
    activation counter. *)
Theorem activation_counted_at_most_once (response vendor model : json) :
  (exists attrs,
     recorded_on guardrail_counter (guardrail_converse response vendor model)
     = match fst (guardrail_converse response vendor model),
             is_guardrail_activated response with
       | Ok _, Ok true => [activation_recording attrs]
       | _, _ => []
       end)
  /\ (exists attrs,
        recorded_on guardrail_counter (guardrail_handling response vendor model)
        = match fst (guardrail_handling response vendor model),
                contains "amazon-bedrock-guardrailAction" response,
                is_guardrail_activated response with
          | Ok _, Ok true, Ok true => [activation_recording attrs]
          | _, _, _ => []
          end).
Proof.
  split.
  - unfold guardrail_converse.
    destruct (contains_nested "trace" "guardrail" response) as [has|e].
    + rewrite bind_lift_ok. apply counted_after_quiet_block.
      destruct has; [|apply silent_ret].
      apply silent_bind; [apply silent_lift | intros tr].
      apply silent_bind; [apply silent_lift | intros g].
      apply silent_bind; [apply converse_input_hush | intros attrs].
      apply converse_outputs_hush.
    + exists []. reflexivity.
  - unfold guardrail_handling.
    destruct (contains "amazon-bedrock-guardrailAction" response) as [[|]|e].
    + rewrite bind_lift_ok. cbv zeta.
      destruct (contains "amazon-bedrock-trace" response) as [has|e].
      * rewrite bind_lift_ok.
        destruct (counted_after_quiet_block
                    (if has
                     then
                       bedrock_trace <- lift (item response "amazon-bedrock-trace") ;;
                       attrs <- invoke_input bedrock_trace
                                  (base_attrs vendor model) ;;
                       invoke_outputs bedrock_trace attrs
                     else ret (base_attrs vendor model))
                    response) as [attrs E].
        { destruct has; [|apply silent_ret].
          apply silent_bind; [apply silent_lift | intros tr].
          apply silent_bind; [apply invoke_input_hush | intros attrs].
          apply invoke_outputs_hush. }
        exists attrs. rewrite E.
        destruct (fst _); reflexivity.
      * exists []. reflexivity.
    + exists []. rewrite bind_lift_ok. reflexivity.
    + exists []. reflexivity.
Qed.

End activation_counter.

(** ** decorators/base.py: errors, generators and content tracing off *)

Section wrapper_paths.
Import base decorated traced.
Context {C : Collaborators}.

Lemma capture_captured enc s key o st :
  capturable enc o st ->
  capture enc s key o st = (Ok tt, captured enc s key o st).
Proof.
  unfold capturable, captured. intros H.
  destruct (truthy (_should_send_prompts st)) eqn:E.
  - apply capture_caught; [exact E | apply H; reflexivity].
  - rewrite capture_value, E. reflexivity.
Qed.

Lemma entered_reads entity_name version k st s t st_in :
  enter entity_name version k st = (s, t, st_in) ->
  _should_send_prompts st_in = _should_send_prompts st.
Proof.
  intros E. rewrite <- (enter_reads entity_name version k st), E. reflexivity.
Qed.

Lemma capturable_entered enc o entity_name version k st s t st_in :
  enter entity_name version k st = (s, t, st_in) ->
  capturable enc o st -> capturable enc o st_in.
Proof.
  unfold capturable. intros E H. rewrite (entered_reads _ _ _ _ _ _ _ E).
  exact H.
Qed.

(** An exception raised by the wrapped callable leaves the initialized
    wrapper unchanged, and the wrapper does nothing on its way out but
    leave the tracer block: the span it started is not ended and the
    context token is not detached.  The same holds when an asynchronous
    function raises at the call, or when its coroutine raises while
    awaited. *)
Theorem wrapped_error_leaves_span_open :
  (forall name version k fn args kwargs st s t st_in e st2,
     initialized st = true ->
     enter (name_or name (__name__ fn)) version k st = (s, t, st_in) ->
     capturable JSONEncoder (input_object args kwargs) st ->
     call fn args kwargs
       (captured JSONEncoder s TRACELOOP_ENTITY_INPUT
          (input_object args kwargs) st_in) = (Raise e, st2) ->
     call (entity_method name version (Some k) fn) args kwargs st
     = (Raise e, log tracer_exit st2))
  /\ (forall name version k fn args kwargs st s t st_in e st2,
        initialized st = true ->
        enter (name_or name (__name__ fn)) version k st = (s, t, st_in) ->
        capturable DefaultEncoder (input_object args kwargs) st ->
        call fn args kwargs
          (captured DefaultEncoder s TRACELOOP_ENTITY_INPUT
             (input_object args kwargs) st_in) = (Raise e, st2) ->
        aentity_wrap name version (Some k) fn args kwargs st
        = (Raise e, log tracer_exit st2))
  /\ (forall name version k fn args kwargs st s t st_in c st2 e st3,
        initialized st = true ->
        enter (name_or name (__name__ fn)) version k st = (s, t, st_in) ->
        capturable DefaultEncoder (input_object args kwargs) st ->
        call fn args kwargs
          (captured DefaultEncoder s TRACELOOP_ENTITY_INPUT
             (input_object args kwargs) st_in) = (Ok (PCoroutine c), st2) ->
        c st2 = (Raise e, st3) ->
        aentity_wrap name version (Some k) fn args kwargs st
        = (Raise e, log tracer_exit st3)).
Proof.
  split; [|split].
  - intros name version k fn args kwargs st s t st_in e st2 Hi He Hc Hfn.
    rewrite (entity_method_run name version k fn args kwargs st Hi), He.
    rewrite (capture_captured _ _ _ _ _
               (capturable_entered _ _ _ _ _ _ _ _ _ He Hc)), Hfn.
    reflexivity.
  - intros name version k fn args kwargs st s t st_in e st2 Hi He Hc Hfn.
    rewrite (aentity_wrap_run name version k fn args kwargs st Hi), He.
    rewrite (capture_captured _ _ _ _ _
               (capturable_entered _ _ _ _ _ _ _ _ _ He Hc)), Hfn.
    reflexivity.
  - intros name version k fn args kwargs st s t st_in c st2 e st3 Hi He Hc Hfn Hr.
    rewrite (aentity_wrap_run name version k fn args kwargs st Hi), He.
    rewrite (capture_captured _ _ _ _ _
               (capturable_entered _ _ _ _ _ _ _ _ _ He Hc)), Hfn.
    cbn [await]. rewrite Hr. reflexivity.
Qed.

(** With content tracing off (the variable set to something else than
    ["true"], no truthy override) the wrappers never serialize: whatever
    [json.dumps] would do with the arguments or the result, the callable
    runs on the state the opening lines leave, its value is returned, and
    the span is closed without input or output attribute. *)
Theorem content_tracing_off_skips_serializer :
  (forall name version k fn args kwargs st s t st_in res st2,
     initialized st = true ->
     enter (name_or name (__name__ fn)) version k st = (s, t, st_in) ->
     truthy (_should_send_prompts st) = false ->
     call fn args kwargs st_in = (Ok res, st2) ->
     is_generator res = false ->
     truthy (_should_send_prompts st2) = false ->
     call (entity_method name version (Some k) fn) args kwargs st
     = (Ok res, close s t st2))
  /\ (forall name version k fn args kwargs st s t st_in c st2 res st3,
        initialized st = true ->
        enter (name_or name (__name__ fn)) version k st = (s, t, st_in) ->
        truthy (_should_send_prompts st) = false ->
        call fn args kwargs st_in = (Ok (PCoroutine c), st2) ->
        c st2 = (Ok res, st3) ->
        truthy (_should_send_prompts st3) = false ->
        aentity_wrap name version (Some k) fn args kwargs st
        = (Ok res, close s t st3)).
Proof.
  split.
  - intros name version k fn args kwargs st s t st_in res st2
      Hi He Hoff Hfn Hg Hoff2.
    rewrite (entity_method_run name version k fn args kwargs st Hi), He.
    rewrite capture_value, (entered_reads _ _ _ _ _ _ _ He), Hoff, Hfn.
    rewrite capture_value, Hoff2.
    destruct res; try reflexivity. discriminate Hg.
  - intros name version k fn args kwargs st s t st_in c st2 res st3
      Hi He Hoff Hfn Hc Hoff3.
    rewrite (aentity_wrap_run name version k fn args kwargs st Hi), He.
    rewrite capture_value, (entered_reads _ _ _ _ _ _ _ He), Hoff, Hfn.
    cbn [await]. rewrite Hc, capture_value, Hoff3. reflexivity.
Qed.

(** A call that returns a generator: the wrapper hands back a generator
    and leaves the span open (it only leaves the tracer block); the output
    is not serialized.  Exhausting the returned generator attaches the span
    again, yields the items of the inner generator unchanged, and ends the
    span once, as the last act; no context token is detached.  If the inner
    generator raises, the exception passes through and the span is never
    ended. *)
Theorem generator_result_keeps_span_open
  name version k fn args kwargs st s t st_in g st2 :
  initialized st = true ->
  enter (name_or name (__name__ fn)) version k st = (s, t, st_in) ->
  capturable JSONEncoder (input_object args kwargs) st ->
  call fn args kwargs
    (captured JSONEncoder s TRACELOOP_ENTITY_INPUT
       (input_object args kwargs) st_in) = (Ok (PGenerator g), st2) ->
  call (entity_method name version (Some k) fn) args kwargs st
  = (Ok (PGenerator (_handle_generator s g)), log tracer_exit st2)
  /\ (forall st3 items st4,
        g (log (attach (List.length (calls st3)) s) st3) = (Ok items, st4) ->
        _handle_generator s g st3 = (Ok items, log (span_end s) st4))
  /\ (forall st3 e st4,
        g (log (attach (List.length (calls st3)) s) st3) = (Raise e, st4) ->
        _handle_generator s g st3 = (Raise e, st4)).
Proof.
  intros Hi He Hc Hfn. split; [|split].
  - rewrite (entity_method_run name version k fn args kwargs st Hi), He.
    rewrite (capture_captured _ _ _ _ _
               (capturable_entered _ _ _ _ _ _ _ _ _ He Hc)), Hfn.
    reflexivity.
  - intros st3 items st4 Hg. unfold _handle_generator, bind, context_attach.
    rewrite Hg. reflexivity.
  - intros st3 e st4 Hg. unfold _handle_generator, bind, context_attach.
    rewrite Hg. reflexivity.
Qed.

(** A call that returns an asynchronous generator: awaiting the wrapper
    hands back an asynchronous generator and leaves the span open.
    Exhausting it yields the items of the inner one unchanged, then ends
    the span and detaches the context token of the call, in that order.  If
    the inner generator raises, the span is not ended and the token not
    detached. *)
Theorem async_generator_result_keeps_span_open
  name version k fn args kwargs st s t st_in g st2 :
  initialized st = true ->
  enter (name_or name (__name__ fn)) version k st = (s, t, st_in) ->
  capturable DefaultEncoder (input_object args kwargs) st ->
  call fn args kwargs
    (captured DefaultEncoder s TRACELOOP_ENTITY_INPUT
       (input_object args kwargs) st_in) = (Ok (PAsyncGenerator g), st2) ->
  aentity_wrap name version (Some k) fn args kwargs st
  = (Ok (PAsyncGenerator (_ahandle_generator s t g)), log tracer_exit st2)
  /\ (forall st3 items st4,
        g st3 = (Ok items, st4) ->
        _ahandle_generator s t g st3
        = (Ok items, log (detach t) (log (span_end s) st4)))
  /\ (forall st3 e st4,
        g st3 = (Raise e, st4) ->
        _ahandle_generator s t g st3 = (Raise e, st4)).
Proof.
  intros Hi He Hc Hfn. split; [|split].
  - rewrite (aentity_wrap_run name version k fn args kwargs st Hi), He.
    rewrite (capture_captured _ _ _ _ _
               (capturable_entered _ _ _ _ _ _ _ _ _ He Hc)), Hfn.
    reflexivity.
  - intros st3 items st4 Hg. unfold _ahandle_generator, bind.
    rewrite Hg. reflexivity.
  - intros st3 e st4 Hg. unfold _ahandle_generator, bind.
    rewrite Hg. reflexivity.
Qed.

(** With [tlp_span_kind=None] (the parameter is [Optional]) an initialized
    call raises [AttributeError] at [tlp_span_kind.value], before a span is
    started or the wrapped callable invoked; nothing has been called on the
    tracing API.  With tracing not initialized the same decorator is
    transparent. *)
Theorem missing_span_kind_raises name version fn args kwargs st :
  initialized st = true ->
  call (entity_method name version None fn) args kwargs st
  = (Raise AttributeError, st)
  /\ aentity_wrap name version None fn args kwargs st
     = (Raise AttributeError, st).
Proof.
  intros Hi. split.
  - cbn [call entity_method]. unfold bind at 1, verify_initialized.
    rewrite Hi. reflexivity.
  - unfold aentity_wrap. unfold bind at 1, verify_initialized.
    rewrite Hi. reflexivity.
Qed.

End wrapper_paths.

(** ** decorators/base.py: what a decorated callable leaves untouched *)

Section wrapper_frame.
Import base decorated traced.

Lemma extends_refl st : extends st st.
Proof.
  repeat split. exists []. rewrite app_nil_r. reflexivity.
Qed.

Lemma extends_trans st1 st2 st3 :
  extends st1 st2 -> extends st2 st3 -> extends st1 st3.
Proof.
  intros (A1 & A2 & A3 & m1 & A4) (B1 & B2 & B3 & m2 & B4).
  repeat split; try congruence.
  exists (m1 ++ m2)%list. rewrite B4, A4, app_assoc. reflexivity.
Qed.

Lemma extends_log c st : extends st (log c st).
Proof. repeat split. exists [c]. reflexivity. Qed.

Lemma extends_attach_if_valid s key js st :
  extends st (attach_if_valid s key js st).
Proof.
  unfold attach_if_valid. destruct (_is_json_size_valid js);
    [apply extends_log | apply extends_refl].
Qed.

Lemma extends_close s t st : extends st (close s t st).
Proof.
  unfold close.
  eapply extends_trans; [|apply extends_log].
  eapply extends_trans; [|apply extends_log].
  apply extends_log.
Qed.

Section with_collaborators.
Context {C : Collaborators}.

Lemma extends_enter entity_name version k st :
  extends st (snd (enter entity_name version k st)).
Proof.
  unfold enter. cbv zeta. cbn [snd].
  repeat match goal with
         | |- extends _ (log _ _) => eapply extends_trans; [|apply extends_log]
         | |- extends _ (match ?x with _ => _ end) => destruct x
         end;
    apply extends_refl.
Qed.

Lemma extends_capture enc s key o st :
  extends st (snd (capture enc s key o st)).
Proof.
  rewrite capture_value.
  destruct (truthy (_should_send_prompts st)); [|apply extends_refl].
  destruct (json_dumps enc o) as [js|[]]; cbn [snd];
    first [ apply extends_attach_if_valid
          | apply extends_log
          | apply extends_refl ].
Qed.

(** The synchronous wrapper keeps what a callable keeps: if the wrapped
    callable only appends to the call log and leaves readiness, the
    environment variable and the override as they are, so does the
    decorated one, for every name, version and span kind, initialized or
    not, on every outcome (value, generator, exception). *)
Theorem entity_method_only_appends name version kind fn :
  append_only fn ->
  append_only (entity_method name version kind fn).
Proof.
  intros Hfn args kwargs st.
  destruct (initialized st) eqn:Hi.
  2:{ rewrite (entity_method_bypass name version kind fn args kwargs st Hi).
      apply Hfn. }
  destruct kind as [k|].
  2:{ cbn [call entity_method]. unfold bind at 1, verify_initialized.
      rewrite Hi. cbn [snd]. apply extends_refl. }
  rewrite (entity_method_run name version k fn args kwargs st Hi).
  pose proof (extends_enter (name_or name (__name__ fn)) version k st) as E0.
  destruct (enter (name_or name (__name__ fn)) version k st) as [[s t] st_in].
  cbn [snd] in E0.
  pose proof (extends_capture JSONEncoder s TRACELOOP_ENTITY_INPUT
                (input_object args kwargs) st_in) as E1.
  destruct (capture JSONEncoder s TRACELOOP_ENTITY_INPUT
              (input_object args kwargs) st_in) as [[[]|e] st1]; cbn [snd] in *.
  2:{ eapply extends_trans; [|apply extends_log].
      eapply extends_trans; eassumption. }
  pose proof (Hfn args kwargs st1) as E2.
  destruct (call fn args kwargs st1) as [[res|e] st2]; cbn [snd] in *.
  2:{ eapply extends_trans; [|apply extends_log].
      eapply extends_trans; [eassumption|].
      eapply extends_trans; eassumption. }
  assert (E02 : extends st st2).
  { eapply extends_trans; [eassumption|]. eapply extends_trans; eassumption. }
  pose proof (extends_capture JSONEncoder s TRACELOOP_ENTITY_OUTPUT res st2) as E3.
  destruct res;
    try (destruct (capture JSONEncoder s TRACELOOP_ENTITY_OUTPUT _ st2)
           as [[[]|e] st3]; cbn [snd] in *;
         [ eapply extends_trans; [|apply extends_close];
           eapply extends_trans; eassumption
         | eapply extends_trans; [|apply extends_log];
           eapply extends_trans; eassumption ]).
  cbn [snd]. eapply extends_trans; [|apply extends_log]. exact E02.
Qed.

Lemma entity_method_without_kind name version fn args kwargs st :
  initialized st = true ->
  call (entity_method name version None fn) args kwargs st
  = (Raise AttributeError, st).
Proof.
  intros Hi. cbn [call entity_method]. unfold bind at 1, verify_initialized.
  rewrite Hi. reflexivity.
Qed.

Lemma aentity_wrap_without_kind name version fn args kwargs st :
  initialized st = true ->
  aentity_wrap name version None fn args kwargs st = (Raise AttributeError, st).
Proof.
  intros Hi. unfold aentity_wrap. unfold bind at 1, verify_initialized.
  rewrite Hi. reflexivity.
Qed.

Lemma aentity_wrap_bypass name version kind fn args kwargs st :
  initialized st = false ->
  aentity_wrap name version kind fn args kwargs st
  = (res <- call fn args kwargs ;; await res) st.
Proof.
  intros Hi. unfold aentity_wrap. unfold bind at 1, verify_initialized.
  rewrite Hi. reflexivity.
Qed.

End with_collaborators.

Lemma enter_same_path (C1 C2 : Collaborators) entity_name version k st :
  (forall n st, @get_chained_entity_path C1 n st = @get_chained_entity_path C2 n st) ->
  @enter C1 entity_name version k st = @enter C2 entity_name version k st.
Proof.
  intros H. unfold enter. cbv zeta. rewrite H. reflexivity.
Qed.

Lemma capture_same_encoder (C1 C2 : Collaborators) enc s key o st :
  (forall o, @json_dumps C1 enc o = @json_dumps C2 enc o) ->
  @capture C1 enc s key o st = @capture C2 enc s key o st.
Proof.
  intros H. rewrite !capture_value, H. reflexivity.
Qed.

(** Each wrapper consults one encoder only: the synchronous one serializes
    with [cls=JSONEncoder], the asynchronous one with the default encoder.
    Two serializers that agree on that encoder give the same decorated
    call, however they differ on the other. *)
Theorem wrappers_use_one_encoder_each (C1 C2 : Collaborators) :
  (forall n st, @get_chained_entity_path C1 n st = @get_chained_entity_path C2 n st) ->
  ((forall o, @json_dumps C1 JSONEncoder o = @json_dumps C2 JSONEncoder o) ->
   forall name version kind fn args kwargs st,
     call (@entity_method C1 name version kind fn) args kwargs st
     = call (@entity_method C2 name version kind fn) args kwargs st)
  /\ ((forall o, @json_dumps C1 DefaultEncoder o = @json_dumps C2 DefaultEncoder o) ->
      forall name version kind fn args kwargs st,
        @aentity_wrap C1 name version kind fn args kwargs st
        = @aentity_wrap C2 name version kind fn args kwargs st).
Proof.
  intros Hp. split; intros Hd name version kind fn args kwargs st.
  - destruct (initialized st) eqn:Hi.
    2:{ rewrite !(entity_method_bypass _ _ _ _ _ _ _ Hi). reflexivity. }
    destruct kind as [k|].
    2:{ rewrite !(entity_method_without_kind _ _ _ _ _ _ Hi). reflexivity. }
    rewrite (@entity_method_run C1 name version k fn args kwargs st Hi),
            (@entity_method_run C2 name version k fn args kwargs st Hi).
    rewrite (enter_same_path C1 C2 _ _ _ _ Hp).
    destruct (@enter C2 (name_or name (__name__ fn)) version k st) as [[s t] st_in].
    rewrite (capture_same_encoder C1 C2 _ _ _ _ _ Hd).
    destruct (@capture C2 JSONEncoder s TRACELOOP_ENTITY_INPUT
                (input_object args kwargs) st_in) as [[[]|e] st1]; [|reflexivity].
    destruct (call fn args kwargs st1) as [[res|e] st2]; [|reflexivity].
    destruct res; rewrite ?(capture_same_encoder C1 C2 _ _ _ _ _ Hd); reflexivity.
  - destruct (initialized st) eqn:Hi.
    2:{ rewrite !(aentity_wrap_bypass _ _ _ _ _ _ _ Hi). reflexivity. }
    destruct kind as [k|].
    2:{ rewrite !(aentity_wrap_without_kind _ _ _ _ _ _ Hi). reflexivity. }
    rewrite (@aentity_wrap_run C1 name version k fn args kwargs st Hi),
            (@aentity_wrap_run C2 name version k fn args kwargs st Hi).
    rewrite (enter_same_path C1 C2 _ _ _ _ Hp).
    destruct (@enter C2 (name_or name (__name__ fn)) version k st) as [[s t] st_in].
    rewrite (capture_same_encoder C1 C2 _ _ _ _ _ Hd).
    destruct (@capture C2 DefaultEncoder s TRACELOOP_ENTITY_INPUT
                (input_object args kwargs) st_in) as [[[]|e] st1]; [|reflexivity].
    destruct (call fn args kwargs st1) as [[res|e] st2]; [|reflexivity].
    destruct res; try reflexivity;
      match goal with
      | |- context [await ?o ?x] =>
          destruct (await o x) as [[res'|?] st3]; [|reflexivity]
      end;
      rewrite (capture_same_encoder C1 C2 _ _ _ _ _ Hd); reflexivity.
Qed.

(** A falsy [name] (the empty string) or [version] (0) counts as not
    given: the entity is named after the wrapped callable and no version
    attribute is written, in both wrappers. *)
Theorem falsy_name_and_version_count_as_absent
  (C : Collaborators) kind fn args kwargs st :
  call (entity_method (Some "") (Some 0%Z) kind fn) args kwargs st
  = call (entity_method None None kind fn) args kwargs st
  /\ aentity_wrap (Some "") (Some 0%Z) kind fn args kwargs st
     = aentity_wrap None None kind fn args kwargs st.
Proof. split; reflexivity. Qed.

End wrapper_frame.

(** ** decorators/base.py: the class decorators *)

Section class_decoration.
Import base decorated traced base_classes.
Context {C : Collaborators} {N : Casing}.

Lemma keys_dict_set_bound {V} (k : string) (v v0 : V) (d : list (string * V)) :
  lookup k d = Some v0 -> map fst (dict_set k v d) = map fst d.
Proof.
  induction d as [|[k' v'] d IH]; simpl; [discriminate|].
  destruct (String.eqb_spec k k') as [->|Hk]; simpl.
  - reflexivity.
  - intros H. rewrite (IH H). reflexivity.
Qed.

(** Decorating a class whose [method_name] attribute does not exist raises
    [AttributeError] ([getattr] has no default); no class is returned. *)
Theorem class_decorators_need_the_method name version method_name kind cls :
  lookup method_name (namespace cls) = None ->
  entity_class name version method_name kind cls = Raise AttributeError
  /\ aentity_class name version method_name kind cls = Raise AttributeError.
Proof.
  intros H. unfold entity_class, aentity_class, getattr. rewrite H.
  split; reflexivity.
Qed.

(** Decorating a class replaces the named method and nothing else: the
    class keeps its name and its attribute names in their order, every
    other attribute is the one it was, and the named one is the original
    method wrapped by [entity_method] under the task name (the given name,
    or else the class name through [camel_to_snake]). *)
Theorem entity_class_replaces_one_method name version method_name kind cls cls' :
  entity_class name version method_name kind cls = Ok cls' ->
  cls_name cls' = cls_name cls
  /\ map fst (namespace cls') = map fst (namespace cls)
  /\ (forall other, other <> method_name -> getattr cls' other = getattr cls other)
  /\ exists method,
       getattr cls method_name = Ok method
       /\ getattr cls' method_name
          = Ok (entity_method
                  (Some (name_or name (camel_to_snake (cls_name cls))))
                  version kind method).
Proof.
  unfold entity_class, getattr. cbv zeta.
  destruct (lookup method_name (namespace cls)) as [method|] eqn:Hm;
    [|discriminate].
  cbn [rbind]. intros E. injection E as <-. cbn [cls_name namespace setattr].
  split; [reflexivity|]. split; [exact (keys_dict_set_bound _ _ _ _ Hm)|].
  split.
  - intros other Hne. rewrite (lookup_dict_set_other other method_name _ _ Hne).
    reflexivity.
  - exists method. split; [reflexivity|].
    rewrite lookup_dict_set_same. reflexivity.
Qed.

(** With tracing not initialized, looking an attribute up on the decorated
    class itself ([getattr(cls, name)]) gives a callable that behaves as
    the one the same lookup gave before the decoration: called on the same
    arguments it returns the same value or raises the same exception and
    leaves the same state.  The statement is about lookups on the class;
    lookups through an instance or a subclass are outside it (there a
    [staticmethod] or [classmethod] replaced by the plain wrapper binds
    differently). *)
Theorem entity_class_transparent_when_uninitialized
  name version method_name kind cls cls' :
  entity_class name version method_name kind cls = Ok cls' ->
  forall other f',
    getattr cls' other = Ok f' ->
    exists f,
      getattr cls other = Ok f
      /\ forall args kwargs st,
           initialized st = false ->
           call f' args kwargs st = call f args kwargs st.
Proof.
  unfold entity_class, getattr. cbv zeta.
  destruct (lookup method_name (namespace cls)) as [method|] eqn:Hm;
    [|discriminate].
  cbn [rbind]. intros E other f'. injection E as <-. cbn [namespace setattr].
  destruct (String.eqb_spec other method_name) as [->|Hne].
  - rewrite lookup_dict_set_same, Hm. intros E. injection E as <-.
    exists method. split; [reflexivity|].
    intros args kwargs st Hi. apply entity_method_bypass. exact Hi.
  - rewrite (lookup_dict_set_other other method_name _ _ Hne).
    destruct (lookup other (namespace cls)) as [f|]; [|discriminate].
    intros E. injection E as <-. exists f. split; reflexivity.
Qed.

End class_decoration.

(** ** decorators/base.py: more concrete runs *)

Section more_runs.
Import base decorated traced base_classes.

Lemma wrapped_error_leaves_span_open_witness :
  call (entity_method (C := sample_collaborators) None None (Some TASK) failing)
    [] [] (surroundings true None JNone)
  = (Raise KeyError,
     {| initialized := true;
        TRACELOOP_TRACE_CONTENT := None;
        override_enable_content_tracing := JNone;
        calls := [tracer_enter;
                  start_span 1 "failing.task";
                  attach 2 1;
                  set_entity_path "failing";
                  set_attribute 1 TRACELOOP_SPAN_KIND (AStr "task");
                  set_attribute 1 TRACELOOP_ENTITY_NAME (AStr "failing");
                  set_attribute 1 TRACELOOP_ENTITY_INPUT (AStr "{}");
                  tracer_exit] |}).
Proof.
  exact (proj1 (wrapped_error_leaves_span_open (C := sample_collaborators))
           None None TASK failing [] [] (surroundings true None JNone)
           1 2
           (snd (enter (C := sample_collaborators) "failing" None TASK
                   (surroundings true None JNone)))
           KeyError _ eq_refl eq_refl (fun _ => I) eq_refl).
Defined.

Lemma content_tracing_off_skips_serializer_witness :
  call (entity_method (C := sample_collaborators) None None (Some TOOL) answer)
    [PObject 1] [] (surroundings true (Some "false") JNone)
  = (Ok (PInt 7),
     {| initialized := true;
        TRACELOOP_TRACE_CONTENT := Some "false";
        override_enable_content_tracing := JNone;
        calls := [tracer_enter;
                  start_span 1 "answer.tool";
                  attach 2 1;
                  set_entity_path "answer";
                  set_attribute 1 TRACELOOP_SPAN_KIND (AStr "tool");
                  set_attribute 1 TRACELOOP_ENTITY_NAME (AStr "answer");
                  span_end 1;
                  detach 2;
                  tracer_exit] |}).
Proof.
  exact (proj1 (content_tracing_off_skips_serializer (C := sample_collaborators))
           None None TOOL answer [PObject 1] []
           (surroundings true (Some "false") JNone)
           1 2
           (snd (enter (C := sample_collaborators) "answer" None TOOL
                   (surroundings true (Some "false") JNone)))
           (PInt 7) _ eq_refl eq_refl eq_refl eq_refl eq_refl eq_refl).
Defined.

Lemma generator_result_keeps_span_open_witness :
  call (entity_method (C := sample_collaborators) (Some "numbers") None
          (Some WORKFLOW) counting)
    [] [] (surroundings true None JNone)
  = (Ok (PGenerator (_handle_generator 2 (ret [PInt 1; PInt 2]))),
     {| initialized := true;
        TRACELOOP_TRACE_CONTENT := None;
        override_enable_content_tracing := JNone;
        calls := [set_workflow_name "numbers";
                  tracer_enter;
                  start_span 2 "numbers.workflow";
                  attach 3 2;
                  set_attribute 2 TRACELOOP_SPAN_KIND (AStr "workflow");
                  set_attribute 2 TRACELOOP_ENTITY_NAME (AStr "numbers");
                  set_attribute 2 TRACELOOP_ENTITY_INPUT (AStr "{}");
                  tracer_exit] |}).
Proof.
  exact (proj1 (generator_result_keeps_span_open (C := sample_collaborators)
                  (Some "numbers") None WORKFLOW counting [] []
                  (surroundings true None JNone)
                  2 3
                  (snd (enter (C := sample_collaborators) "numbers" None WORKFLOW
                          (surroundings true None JNone)))
                  (ret [PInt 1; PInt 2]) _
                  eq_refl eq_refl (fun _ => I) eq_refl)).
Defined.

(** Exhausting that generator afterwards. *)
Example generator_exhausted_run :
  _handle_generator 2 (ret [PInt 1; PInt 2])
    {| initialized := true;
       TRACELOOP_TRACE_CONTENT := None;
       override_enable_content_tracing := JNone;
       calls := [tracer_exit] |}
  = (Ok [PInt 1; PInt 2],
     {| initialized := true;
        TRACELOOP_TRACE_CONTENT := None;
        override_enable_content_tracing := JNone;
        calls := [tracer_exit; attach 1 2; span_end 2] |}).
Proof. reflexivity. Qed.

Lemma async_generator_result_keeps_span_open_witness :
  aentity_wrap (C := sample_collaborators) None None (Some AGENT) stream [] []
    (surroundings true None JNone)
  = (Ok (PAsyncGenerator (_ahandle_generator 2 3 stream_items)),
     {| initialized := true;
        TRACELOOP_TRACE_CONTENT := None;
        override_enable_content_tracing := JNone;
        calls := [set_workflow_name "stream";
                  tracer_enter;
                  start_span 2 "stream.agent";
                  attach 3 2;
                  set_attribute 2 TRACELOOP_SPAN_KIND (AStr "agent");
                  set_attribute 2 TRACELOOP_ENTITY_NAME (AStr "stream");
                  set_attribute 2 TRACELOOP_ENTITY_INPUT (AStr "{}");
                  tracer_exit] |}).
Proof.
  exact (proj1 (async_generator_result_keeps_span_open (C := sample_collaborators)
                  None None AGENT stream [] []
                  (surroundings true None JNone)
                  2 3
                  (snd (enter (C := sample_collaborators) "stream" None AGENT
                          (surroundings true None JNone)))
                  stream_items _
                  eq_refl eq_refl (fun _ => I) eq_refl)).
Defined.

Lemma missing_span_kind_raises_witness :
  call (entity_method (C := sample_collaborators) None None None answer) [] []
    (surroundings true None JNone)
  = (Raise AttributeError, surroundings true None JNone).
Proof.
  exact (proj1 (missing_span_kind_raises (C := sample_collaborators)
                  None None answer [] [] (surroundings true None JNone) eq_refl)).
Defined.

Lemma entity_method_only_appends_witness :
  extends (surroundings true None JNone)
    (snd (call (entity_method (C := sample_collaborators) None None (Some TASK)
                  answer)
            [PObject 0] [] (surroundings true None JNone))).
Proof.
  apply (entity_method_only_appends (C := sample_collaborators)
           None None (Some TASK) answer).
  intros args kwargs st. apply extends_refl.
Defined.

Lemma wrappers_use_one_encoder_each_witness :
  call (entity_method (C := sample_collaborators) None None (Some TASK) answer)
    [PObject 0] [] (surroundings true None JNone)
  = call (entity_method (C := strict_collaborators) None None (Some TASK) answer)
      [PObject 0] [] (surroundings true None JNone).
Proof.
  apply (proj1 (wrappers_use_one_encoder_each sample_collaborators
                  strict_collaborators (fun _ _ => eq_refl))).
  intros o. reflexivity.
Defined.

Lemma class_decorators_need_the_method_witness :
  entity_class (C := sample_collaborators) (N := sample_casing)
    None None "predict" (Some TASK) ImageClassifier
  = Raise AttributeError.
Proof.
  exact (proj1 (class_decorators_need_the_method
                  (C := sample_collaborators) (N := sample_casing)
                  None None "predict" (Some TASK) ImageClassifier eq_refl)).
Defined.

Lemma entity_class_replaces_one_method_witness :
  map fst
    (namespace
       (setattr ImageClassifier "run"
          (entity_method (C := sample_collaborators)
             (Some "image_classifier") None (Some TASK) answer)))
  = ["run"; "close"].
Proof.
  destruct (entity_class_replaces_one_method
              (C := sample_collaborators) (N := sample_casing)
              None None "run" (Some TASK) ImageClassifier
              (setattr ImageClassifier "run"
                 (entity_method (C := sample_collaborators)
                    (Some "image_classifier") None (Some TASK) answer))
              eq_refl) as (_ & H & _).
  exact H.
Defined.

Lemma entity_class_transparent_when_uninitialized_witness :
  exists f,
    getattr ImageClassifier "run" = Ok f
    /\ forall args kwargs st,
         initialized st = false ->
         call (entity_method (C := sample_collaborators)
                 (Some "image_classifier") None (Some TASK) answer)
           args kwargs st
         = call f args kwargs st.
Proof.
  apply (entity_class_transparent_when_uninitialized
           (C := sample_collaborators) (N := sample_casing)
           None None "run" (Some TASK) ImageClassifier
           (setattr ImageClassifier "run"
              (entity_method (C := sample_collaborators)
                 (Some "image_classifier") None (Some TASK) answer))
           eq_refl "run").
  reflexivity.
Defined.

(** The span of a class-decorated method is named after the class, through
    [camel_to_snake], not after the method. *)
Example class_decorated_span_name :
  match entity_class (C := sample_collaborators) (N := sample_casing)
          None None "run" (Some TASK) ImageClassifier with
  | Ok cls =>
      match getattr cls "run" with
      | Ok f => calls (snd (call f [] [] (surroundings true None JNone)))
      | Raise _ => []
      end
  | Raise _ => []
  end
  = [tracer_enter;
     start_span 1 "image_classifier.task";
     attach 2 1;
     set_entity_path "image_classifier";
     set_attribute 1 TRACELOOP_SPAN_KIND (AStr "task");
     set_attribute 1 TRACELOOP_ENTITY_NAME (AStr "image_classifier");
     set_attribute 1 TRACELOOP_ENTITY_INPUT (AStr "{}");
     set_attribute 1 TRACELOOP_ENTITY_OUTPUT (AStr "{}");
     span_end 1;
     detach 2;
     tracer_exit].
Proof. vm_compute. reflexivity. Qed.

End more_runs.

(** ** bedrock/guardrail.py: sensitive information and topics *)

Section more_handlers.
Import guardrail recordings.

(** Sensitive-information policy with both lists present and well formed:
    one recording per PII entity (its [type] under [gen_ai.guardrail.pii]),
    in order, followed by one per regex (its [name] under
    [gen_ai.guardrail.pattern]), all on the sensitive-info counter. *)
Theorem handle_sensitive_counts_entities_then_regexes
  (t : Type_) (ad p : dict) (entities regexes : list json) (attrs : dict) :
  lookup "sensitiveInformationPolicy" ad = Some (JDict p) ->
  lookup "piiEntities" p = Some (JList entities) ->
  lookup "regexes" p = Some (JList regexes) ->
  Forall (has_field "type") entities ->
  Forall (has_field "name") regexes ->
  handle_sensitive t (JDict ad) attrs
  = (Ok tt,
     (map (count_recording guardrail_sensitive_info t attrs
             "gen_ai.guardrail.pii" "type") entities
      ++ map (count_recording guardrail_sensitive_info t attrs
                "gen_ai.guardrail.pattern" "name") regexes)%list).
Proof.
  intros Hp He Hr Fe Fr. unfold handle_sensitive.
  cbn [contains]. rewrite Hp, bind_lift_ok.
  rewrite (item_dict ad _ _ Hp), bind_lift_ok.
  cbn [contains]. rewrite He, Hr, !bind_lift_ok.
  rewrite (item_dict p _ _ He), (item_dict p _ _ Hr), !bind_lift_ok.
  cbn [iter]. rewrite !bind_lift_ok.
  rewrite (for_each_records _
             (count_recording guardrail_sensitive_info t attrs
                "gen_ai.guardrail.pii" "type") entities),
          (for_each_records _
             (count_recording guardrail_sensitive_info t attrs
                "gen_ai.guardrail.pattern" "name") regexes).
  - reflexivity.
  - intros x Hx. apply count_entry_of_field.
    exact (proj1 (Forall_forall _ _) Fr x Hx).
  - intros x Hx. apply count_entry_of_field.
    exact (proj1 (Forall_forall _ _) Fe x Hx).
Qed.

Lemma handle_sensitive_counts_entities_then_regexes_witness :
  handle_sensitive OUTPUT
    (JDict [("sensitiveInformationPolicy",
             JDict [("piiEntities", JList [JDict [("type", JStr "EMAIL")]]);
                    ("regexes", JList [JDict [("name", JStr "account")]])])])
    []
  = (Ok tt,
     [ {| target := guardrail_sensitive_info; amount := JInt 1;
          attributes := [("gen_ai.guardrail.type", JStr "output");
                         ("gen_ai.guardrail.pii", JStr "EMAIL")] |};
       {| target := guardrail_sensitive_info; amount := JInt 1;
          attributes := [("gen_ai.guardrail.type", JStr "output");
                         ("gen_ai.guardrail.pattern", JStr "account")] |} ]).
Proof.
  exact (handle_sensitive_counts_entities_then_regexes OUTPUT
           [("sensitiveInformationPolicy",
             JDict [("piiEntities", JList [JDict [("type", JStr "EMAIL")]]);
                    ("regexes", JList [JDict [("name", JStr "account")]])])]
           [("piiEntities", JList [JDict [("type", JStr "EMAIL")]]);
            ("regexes", JList [JDict [("name", JStr "account")]])]
           [JDict [("type", JStr "EMAIL")]]
           [JDict [("name", JStr "account")]]
           [] eq_refl eq_refl eq_refl
           (Forall_cons _
              (ex_intro _ [("type", JStr "EMAIL")]
                 (ex_intro _ (JStr "EMAIL") (conj eq_refl eq_refl)))
              (Forall_nil _))
           (Forall_cons _
              (ex_intro _ [("name", JStr "account")]
                 (ex_intro _ (JStr "account") (conj eq_refl eq_refl)))
              (Forall_nil _))).
Defined.

(** Topic policy with a well-formed [topics] list: one recording per
    topic, in order, with the topic's [name]; a topic without [name] stops
    the count there with [KeyError], the recordings before it staying. *)
Theorem handle_topic_counts_until_unnamed_topic
  (t : Type_) (ad p : dict) (attrs : dict) :
  lookup "topicPolicy" ad = Some (JDict p) ->
  (forall topics,
     lookup "topics" p = Some (JList topics) ->
     Forall (has_field "name") topics ->
     handle_topic t (JDict ad) attrs
     = (Ok tt,
        map (count_recording guardrail_topic t attrs
               "gen_ai.guardrail.topic" "name") topics))
  /\ (forall named b rest,
        lookup "topics" p = Some (JList (named ++ JDict b :: rest)) ->
        Forall (has_field "name") named ->
        lookup "name" b = None ->
        handle_topic t (JDict ad) attrs
        = (Raise KeyError,
           map (count_recording guardrail_topic t attrs
                  "gen_ai.guardrail.topic" "name") named)).
Proof.
  intros Hp.
  assert (E : forall l, lookup "topics" p = Some (JList l) ->
              handle_topic t (JDict ad) attrs
              = for_each l (count_entry guardrail_topic t attrs
                              "gen_ai.guardrail.topic" "name")).
  { intros l Hl. unfold handle_topic.
    cbn [contains]. rewrite Hp, bind_lift_ok.
    rewrite (item_dict ad _ _ Hp), bind_lift_ok.
    rewrite (item_dict p _ _ Hl), bind_lift_ok.
    cbn [iter]. rewrite bind_lift_ok. reflexivity. }
  split.
  - intros topics Hl Fa. rewrite (E _ Hl). apply for_each_records.
    intros x Hx. apply count_entry_of_field.
    exact (proj1 (Forall_forall _ _) Fa x Hx).
  - intros named b rest Hl Fa Hb. rewrite (E _ Hl). apply for_each_stops.
    + intros x Hx. apply count_entry_of_field.
      exact (proj1 (Forall_forall _ _) Fa x Hx).
    + unfold count_entry, item. cbn [subscript]. rewrite Hb. reflexivity.
Qed.

Lemma handle_topic_counts_until_unnamed_topic_witness :
  handle_topic INPUT
    (JDict [("topicPolicy",
             JDict [("topics",
                     JList [JDict [("name", JStr "finance")];
                            JDict [("type", JStr "DENY")];
                            JDict [("name", JStr "health")]])])])
    []
  = (Raise KeyError,
     [ {| target := guardrail_topic; amount := JInt 1;
          attributes := [("gen_ai.guardrail.type", JStr "input");
                         ("gen_ai.guardrail.topic", JStr "finance")] |} ]).
Proof.
  exact (proj2 (handle_topic_counts_until_unnamed_topic INPUT
                  [("topicPolicy",
                    JDict [("topics",
                            JList [JDict [("name", JStr "finance")];
                                   JDict [("type", JStr "DENY")];
                                   JDict [("name", JStr "health")]])])]
                  [("topics",
                    JList [JDict [("name", JStr "finance")];
                           JDict [("type", JStr "DENY")];
                           JDict [("name", JStr "health")]])]
                  [] eq_refl)
           [JDict [("name", JStr "finance")]]
           [("type", JStr "DENY")]
           [JDict [("name", JStr "health")]]
           eq_refl
           (Forall_cons _
              (ex_intro _ [("name", JStr "finance")]
                 (ex_intro _ (JStr "finance") (conj eq_refl eq_refl)))
              (Forall_nil _))
           eq_refl).
Defined.

End more_handlers.

(** ** bedrock/guardrail.py: the input assessment of a converse response *)

Section converse_input_assessment.
Import guardrail recordings assessments.
Context {SA : SpanAttributes}.

Ltac stroll :=
  cbv zeta;
  repeat first
    [ apply all_lift
    | apply all_ret
    | apply all_for_each; intros ?
    | apply all_bind; [|intros ?]
    | match goal with
      | |- all_recordings _ (if ?b then _ else _) => destruct b
      end ].

Lemma handle_tagged_all (t : Type_) (info : json) (attrs : dict) :
  all_recordings (tagged t) (_handle t info attrs).
Proof.
  unfold _handle.
  apply all_bind; [apply handle_invoke_metrics_tagged | intros _].
  apply all_bind; [apply handle_sensitive_tagged | intros _].
  apply all_bind; [apply handle_topic_tagged | intros _].
  apply all_bind; [apply handle_content_tagged | intros _].
  apply handle_words_tagged.
Qed.

Lemma converse_outputs_tagged (g : json) (attrs : dict) :
  all_recordings (tagged OUTPUT) (converse_outputs g attrs).
Proof.
  unfold converse_outputs. cbv zeta.
  repeat first
    [ apply all_lift
    | apply all_ret
    | apply handle_tagged_all
    | apply all_for_each; intros ?
    | apply all_bind; [|intros ?]
    | match goal with
      | |- all_recordings _ (if ?b then _ else _) => destruct b
      end ].
Qed.

Lemma tagged_output_on_sensitive {A} (m : M A) :
  all_recordings (tagged OUTPUT) m ->
  Forall output_direction (recorded_on guardrail_sensitive_info m).
Proof.
  unfold all_recordings, recorded_on. intros H.
  induction H as [|r l Hr _ IH]; cbn [filter]; [constructor|].
  destruct (instrument_eqb (target r) guardrail_sensitive_info) eqn:E;
    [|exact IH].
  constructor; [|exact IH].
  unfold tagged in Hr. unfold output_direction.
  destruct (target r); try discriminate E. exact (proj2 Hr).
Qed.

Lemma forall_on_bind (i : instrument) (Q : recording -> Prop) {A B}
  (m : M A) (k : A -> M B) :
  Forall Q (recorded_on i m) ->
  (forall a, Forall Q (recorded_on i (k a))) ->
  Forall Q (recorded_on i (bind m k)).
Proof.
  intros Hm Hk. rewrite recorded_on_bind. apply Forall_app. split; [exact Hm|].
  destruct (fst m); [apply Hk | constructor].
Qed.

Lemma silent_forall (i : instrument) (Q : recording -> Prop) {A} (m : M A) :
  silent_on i m -> Forall Q (recorded_on i m).
Proof. unfold silent_on. intros ->. constructor. Qed.

Lemma forall_filter {X} (P : X -> Prop) (f : X -> bool) (l : list X) :
  Forall P l -> Forall P (filter f l).
Proof.
  induction 1 as [|x l Hx _ IH]; cbn [filter]; [constructor|].
  destruct (f x); [constructor|]; assumption.
Qed.

Lemma no_input_among_outputs (l : list recording) :
  Forall output_direction l -> filter input_direction l = [].
Proof.
  induction 1 as [|r l Hr _ IH]; cbn [filter]; [reflexivity|].
  unfold input_direction, field. unfold output_direction in Hr. rewrite Hr.
  exact IH.
Qed.

Lemma head_recording (i : instrument) (n : json) (attrs : dict) (R : M unit) :
  ((emit i n attrs ;; ret tt) ;; R)
  = (fst R, {| target := i; amount := n; attributes := attrs |} :: snd R).
Proof. destruct R as [r w]. reflexivity. Qed.

(** The sensitive-information handler on an assessment whose [piiEntities]
    holds one entity: that entity's recording comes first; what follows,
    if anything, are the recordings of the regexes. *)
Lemma handle_sensitive_head (ad p e : dict) (type : json) (attrs : dict) :
  lookup "sensitiveInformationPolicy" ad = Some (JDict p) ->
  lookup "piiEntities" p = Some (JList [JDict e]) ->
  lookup "type" e = Some type ->
  exists r w,
    handle_sensitive INPUT (JDict ad) attrs
    = (r, {| target := guardrail_sensitive_info; amount := JInt 1;
             attributes := pii_attributes INPUT type attrs |} :: w)
    /\ Forall (regex_recording attrs) w.
Proof.
  intros Hp He Ht. unfold handle_sensitive.
  cbn [contains]. rewrite Hp, bind_lift_ok.
  rewrite (item_dict ad _ _ Hp), bind_lift_ok.
  cbn [contains]. rewrite He, bind_lift_ok.
  rewrite (item_dict p _ _ He), bind_lift_ok.
  cbn [iter]. rewrite bind_lift_ok.
  cbn [for_each]. unfold count_entry at 1.
  rewrite (item_dict e _ _ Ht), bind_lift_ok.
  rewrite head_recording.
  eexists. eexists. split; [reflexivity|].
  match goal with
  | |- Forall ?P (snd ?m) => change (all_recordings P m)
  end.
  unfold count_entry. stroll; apply all_emit; eexists; reflexivity.
Qed.

(** C9: on a converse-shaped response whose [trace.guardrail] holds an
    [inputAssessment] mapping, [guardrail_converse] takes the first key of
    the mapping as guardrail id, stores it in [attrs] under
    [gen_ai.guardrail], and processes the assessment bound to it as
    direction INPUT (first conjunct, with what follows: the output block and
    the activation count).  In particular (second conjunct), when the
    invocation-metrics handler returns on that assessment and its
    [sensitiveInformationPolicy] holds [piiEntities = [{"type": "EMAIL"}]]:
    the first [add] on the sensitive-info counter is the [add(1, ...)] of
    the EMAIL entity, and every later one is the recording of a regex of
    the same policy or belongs to direction OUTPUT; without [regexes] the
    counter is incremented exactly once for direction INPUT, and without
    [outputAssessments] either, exactly once in all; the attributes of that
    recording bind [gen_ai.guardrail.type] to ["input"],
    [gen_ai.guardrail.pii] to ["EMAIL"] and [gen_ai.guardrail] to the id. *)
Theorem guardrail_converse_input_assessment
  (d t g : dict) (g_id : string) (a : json) (others : dict)
  (vendor model : json) :
  lookup "trace" d = Some (JDict t) ->
  lookup "guardrail" t = Some (JDict g) ->
  lookup "inputAssessment" g = Some (JDict ((g_id, a) :: others)) ->
  let attrs := dict_set "gen_ai.guardrail" (JStr g_id) (base_attrs vendor model) in
  guardrail_converse (JDict d) vendor model
  = (_handle INPUT a attrs ;;
     attrs <- converse_outputs (JDict g) attrs ;;
     count_activation (JDict d) attrs)
  /\ (forall ad p e,
        a = JDict ad ->
        fst (handle_invoke_metrics INPUT (JDict ad) attrs) = Ok tt ->
        lookup "sensitiveInformationPolicy" ad = Some (JDict p) ->
        lookup "piiEntities" p = Some (JList [JDict e]) ->
        lookup "type" e = Some (JStr "EMAIL") ->
        (exists rest,
           recorded_on guardrail_sensitive_info
             (guardrail_converse (JDict d) vendor model)
           = email_recording attrs :: rest
           /\ Forall (fun r => regex_recording attrs r \/ output_direction r) rest)
        /\ (lookup "regexes" p = None ->
            filter input_direction
              (recorded_on guardrail_sensitive_info
                 (guardrail_converse (JDict d) vendor model))
            = [email_recording attrs])
        /\ (lookup "regexes" p = None ->
            lookup "outputAssessments" g = None ->
            recorded_on guardrail_sensitive_info
              (guardrail_converse (JDict d) vendor model)
            = [email_recording attrs])
        /\ lookup "gen_ai.guardrail.type"
             (pii_attributes INPUT (JStr "EMAIL") attrs) = Some (JStr "input")
        /\ lookup "gen_ai.guardrail.pii"
             (pii_attributes INPUT (JStr "EMAIL") attrs) = Some (JStr "EMAIL")
        /\ lookup "gen_ai.guardrail"
             (pii_attributes INPUT (JStr "EMAIL") attrs) = Some (JStr g_id)).
Proof.
  intros Ht Hg Hi attrs.
  assert (E : guardrail_converse (JDict d) vendor model
              = (_handle INPUT a attrs ;;
                 attrs <- converse_outputs (JDict g) attrs ;;
                 count_activation (JDict d) attrs)).
  { unfold guardrail_converse.
    rewrite (contains_nested_dicts _ _ d t _ Ht Hg), bind_lift_ok.
    rewrite (item_dict d _ _ Ht), bind_assoc, bind_lift_ok.
    rewrite (item_dict t _ _ Hg), bind_assoc, bind_lift_ok.
    unfold converse_input. cbn [contains]. rewrite Hi.
    rewrite !bind_assoc, bind_lift_ok.
    rewrite (item_dict g _ _ Hi).
    rewrite !bind_assoc, bind_lift_ok.
    cbn [next_iter iter map fst rbind].
    rewrite !bind_assoc, bind_lift_ok.
    cbn [subscript lookup]. rewrite String.eqb_refl.
    rewrite !bind_assoc, bind_lift_ok.
    rewrite !bind_assoc. apply bind_ext. intros _.
    rewrite bind_ret_l. reflexivity. }
  split; [exact E|].
  intros ad p e -> Hm Hp He Hty.
  assert (Ltype : lookup "gen_ai.guardrail.type"
                    (pii_attributes INPUT (JStr "EMAIL") attrs)
                  = Some (JStr "input")).
  { unfold pii_attributes. rewrite lookup_dict_set_other by discriminate.
    apply lookup_dict_set_same. }
  set (rest_of_call :=
         ((handle_topic INPUT (JDict ad) attrs ;;
           handle_content INPUT (JDict ad) attrs ;;
           handle_words INPUT (JDict ad) attrs) ;;
          attrs0 <- converse_outputs (JDict g) attrs ;;
          count_activation (JDict d) attrs0)).
  assert (KEY : recorded_on guardrail_sensitive_info
                  (guardrail_converse (JDict d) vendor model)
                = (recorded_on guardrail_sensitive_info
                     (handle_sensitive INPUT (JDict ad) attrs)
                   ++ match fst (handle_sensitive INPUT (JDict ad) attrs) with
                      | Ok _ => recorded_on guardrail_sensitive_info rest_of_call
                      | Raise _ => []
                      end)%list).
  { rewrite E. unfold _handle.
    rewrite bind_assoc, recorded_on_bind, Hm.
    rewrite (handle_invoke_metrics_quiet guardrail_sensitive_info INPUT
               (JDict ad) attrs eq_refl eq_refl).
    cbn [app]. rewrite bind_assoc, recorded_on_bind.
    destruct (fst (handle_sensitive INPUT (JDict ad) attrs)); reflexivity. }
  assert (OUT : Forall output_direction
                  (recorded_on guardrail_sensitive_info rest_of_call)).
  { unfold rest_of_call. apply forall_on_bind.
    - apply silent_forall.
      apply silent_bind; [apply handle_topic_silent | intros _].
      apply silent_bind; [apply handle_content_silent | intros _].
      apply handle_words_silent.
    - intros _. apply forall_on_bind.
      + apply tagged_output_on_sensitive. apply converse_outputs_tagged.
      + intros attrs0. apply silent_forall. apply count_activation_silent. }
  assert (ONE : lookup "regexes" p = None ->
                recorded_on guardrail_sensitive_info
                  (guardrail_converse (JDict d) vendor model)
                = email_recording attrs
                  :: recorded_on guardrail_sensitive_info rest_of_call).
  { intros Hr. rewrite KEY.
    rewrite (handle_sensitive_one_entity INPUT ad p e _ attrs Hp He Hty Hr).
    reflexivity. }
  split; [|split; [|split; [|split; [|split]]]].
  - destruct (handle_sensitive_head ad p e (JStr "EMAIL") attrs Hp He Hty)
      as (r & w & EHS & Fw).
    rewrite KEY, EHS. unfold recorded_on at 1. cbn [snd fst filter target].
    cbn [instrument_eqb].
    eexists. split; [reflexivity|].
    apply Forall_app. split.
    + apply forall_filter.
      apply (Forall_impl _ (fun r Hr => or_introl Hr) Fw).
    + destruct r; [|constructor].
      apply (Forall_impl _ (fun r Hr => or_intror Hr) OUT).
  - intros Hr. rewrite (ONE Hr). cbn [filter].
    unfold input_direction at 1, field. cbn [attributes email_recording].
    rewrite Ltype. cbn [eq_str String.eqb Ascii.eqb Bool.eqb].
    rewrite (no_input_among_outputs _ OUT). reflexivity.
  - intros Hr Ho. rewrite (ONE Hr). f_equal.
    unfold rest_of_call.
    apply silent_bind.
    + apply silent_bind; [apply handle_topic_silent | intros _].
      apply silent_bind; [apply handle_content_silent | intros _].
      apply handle_words_silent.
    + intros _. unfold converse_outputs. cbn [contains]. rewrite Ho.
      rewrite bind_lift_ok, bind_ret_l. apply count_activation_silent.
  - exact Ltype.
  - apply lookup_dict_set_same.
  - unfold pii_attributes.
    rewrite !lookup_dict_set_other by discriminate.
    apply lookup_dict_set_same.
Qed.

End converse_input_assessment.

Section converse_input_assessment_runs.
Import guardrail recordings assessments.

Lemma guardrail_converse_input_assessment_witness :
  filter input_direction
    (recorded_on guardrail_sensitive_info
       (guardrail_converse (SA := semconv) (JDict assessed_response)
          (JStr "aws") (JStr "titan")))
  = [ email_recording
        (dict_set "gen_ai.guardrail" (JStr "g1")
           (base_attrs (SA := semconv) (JStr "aws") (JStr "titan"))) ].
Proof.
  destruct (guardrail_converse_input_assessment (SA := semconv)
              assessed_response
              [("guardrail",
                JDict [("inputAssessment", JDict [("g1", assessed_email)]);
                       ("outputAssessments", JDict [("g1", JList [pii "PHONE"])])])]
              [("inputAssessment", JDict [("g1", assessed_email)]);
               ("outputAssessments", JDict [("g1", JList [pii "PHONE"])])]
              "g1" assessed_email [] (JStr "aws") (JStr "titan")
              eq_refl eq_refl eq_refl) as [_ H].
  destruct (H [("invocationMetrics",
                JDict [("guardrailProcessingLatency", JInt 120);
                       ("guardrailCoverage",
                        JDict [("textCharacters",
                                JDict [("guarded", JInt 40); ("total", JInt 40)])])]);
               ("sensitiveInformationPolicy",
                JDict [("piiEntities", JList [JDict [("type", JStr "EMAIL")]])])]
              [("piiEntities", JList [JDict [("type", JStr "EMAIL")]])]
              [("type", JStr "EMAIL")]
              eq_refl eq_refl eq_refl eq_refl eq_refl) as (_ & Hinput & _).
  exact (Hinput eq_refl).
Defined.

(** The whole run on that response: latency and coverage of the input
    assessment, its EMAIL entity, the PHONE entity of the output
    assessment, the activation count. *)
Example assessed_response_run :
  map (fun r => (target r, amount r,
                 lookup "gen_ai.guardrail.type" (attributes r),
                 lookup "gen_ai.guardrail.pii" (attributes r)))
    (snd (guardrail_converse (SA := semconv) (JDict assessed_response)
            (JStr "aws") (JStr "titan")))
  = [ (guardrail_latency_histogram, JInt 120, None, None);
      (guardrail_coverage, JInt 40, None, None);
      (guardrail_sensitive_info, JInt 1, Some (JStr "input"), Some (JStr "EMAIL"));
      (guardrail_sensitive_info, JInt 1, Some (JStr "output"), Some (JStr "PHONE"));
      (guardrail_counter, JInt 1, None, None) ].
Proof. vm_compute. reflexivity. Qed.

(** With a [guardrailCoverage] that lacks [textCharacters] the metrics
    handler raises before the entity is counted. *)
Example broken_metrics_skip_the_entity :
  guardrail_converse (SA := semconv)
    (JDict (converse_payload
              [("g1",
                JDict [("invocationMetrics",
                        JDict [("guardrailCoverage", JDict [])]);
                       ("sensitiveInformationPolicy",
                        JDict [("piiEntities",
                                JList [JDict [("type", JStr "EMAIL")]])])])]))
    (JStr "aws") (JStr "titan")
  = (Raise KeyError, []).
Proof. vm_compute. reflexivity. Qed.

End converse_input_assessment_runs.
